(** * MediSupply bulk product import: submission handler and import consumer

    A shallow embedding of the import pipeline of the inventory services:
    - [micro-inventarios/services/product_import_service.py] (submission),
    - [app/services/product_file_processor_service.py] (consumption),
    - [app/controllers/product_processor_controller.py] (delivery boundary),
    - the [ProductProcessedHistory] and [Product] models and repositories.

    Python strings are modelled as [string]; one [ascii] stands for one code
    point below 256 (Latin-1), so that [String.length] is Python's [len].
    The stores (history table, products table, bucket, topic) are threaded
    explicitly through a [World]; every operation returns its outcome
    together with the world it leaves behind, also when it raises.

    What the services read from outside is an input of the model: the
    values of [uuid.uuid4()], the clock, pandas ([read_csv], [read_excel])
    and the conversions of Python ([int], [float], date parsing), and the
    failures of the database, the bucket and the topic, injected as
    optional error texts. The consumer uses the same models and
    repositories as the inventory service (it imports them as
    [app.models] and [app.repositories]); they are embedded once, from
    [micro-inventarios/models] and [micro-inventarios/repositories]. *)

From Stdlib Require Import Ascii String ZArith NArith QArith.QArith_base Lia Sorted.
From stdpp Require Import base option list gmap strings pretty.

Local Open Scope string_scope.
Local Open Scope list_scope.

Local Arguments String.append !s1 s2 : simpl nomatch.

(** ** Exceptions and outcomes *)

Inductive exn_class :=
  | KeyError | ValueError | TypeError | AttributeError | ValidationError
  | BusinessLogicError | SQLAlchemyError | GoogleCloudError | Exception.

Record exn := Exn { exn_cls : exn_class; exn_msg : string }.

Inductive outcome (A : Type) :=
  | Ok (a : A)
  | Raise (e : exn).
Arguments Ok {A} a.
Arguments Raise {A} e.

Global Instance result_ret : MRet outcome := fun A a => Ok a.
Global Instance result_bind : MBind outcome := fun A B f m =>
  match m with Ok a => f a | Raise e => Raise e end.
Global Instance outcome_fmap : FMap outcome := fun A B f m =>
  match m with Ok a => Ok (f a) | Raise e => Raise e end.

Definition is_ok {A} (r : outcome A) : bool :=
  match r with Ok _ => true | Raise _ => false end.

(** ** Python string primitives *)
Module PyStr.

Definition code (c : ascii) : nat := nat_of_ascii c.

Definition in_range (lo hi : nat) (c : ascii) : bool :=
  (lo <=? code c)%nat && (code c <=? hi)%nat.

(** [str.isspace] on one code point below 256; also the class [\s]. *)
Definition isspace (c : ascii) : bool :=
  in_range 9 13 c || in_range 28 32 c
  || Nat.eqb (code c) 133 || Nat.eqb (code c) 160.

Definition isdigit (c : ascii) : bool := in_range 48 57 c.
Definition isupper_ascii (c : ascii) : bool := in_range 65 90 c.
Definition islower_ascii (c : ascii) : bool := in_range 97 122 c.
Definition ishex_lower (c : ascii) : bool := isdigit c || in_range 97 102 c.

(** [str.lower] on one code point: A-Z and the Latin-1 capitals
    (192..222 except the multiplication sign 215) move up by 32. *)
Definition lower_char (c : ascii) : ascii :=
  if isupper_ascii c || (in_range 192 222 c && negb (Nat.eqb (code c) 215))
  then ascii_of_nat (code c + 32) else c.

Fixpoint lower (s : string) : string :=
  match s with
  | EmptyString => EmptyString
  | String c r => String (lower_char c) (lower r)
  end.

Definition is_dot (c : ascii) : bool := Ascii.eqb c ".".

(** ['.' in s] *)
Fixpoint contains_dot (s : string) : bool :=
  match s with
  | EmptyString => false
  | String c r => is_dot c || contains_dot r
  end.

(** [s.split('.')[-1]]: what follows the last dot, the whole string when
    there is none. *)
Fixpoint after_last_dot (s : string) : string :=
  match s with
  | EmptyString => EmptyString
  | String c r =>
      if contains_dot r then after_last_dot r
      else if is_dot c then r else String c r
  end.

(** [s.rsplit('.', 1)[0]]: what precedes the last dot, the whole string
    when there is none. *)
Fixpoint before_last_dot (s : string) : string :=
  match s with
  | EmptyString => EmptyString
  | String c r =>
      if contains_dot r then String c (before_last_dot r)
      else if is_dot c then EmptyString else String c r
  end.

Definition is_empty (s : string) : bool :=
  match s with EmptyString => true | _ => false end.

Fixpoint lstrip (s : string) : string :=
  match s with
  | EmptyString => EmptyString
  | String c r => if isspace c then lstrip r else s
  end.

Fixpoint rstrip (s : string) : string :=
  match s with
  | EmptyString => EmptyString
  | String c r =>
      let r' := rstrip r in
      if is_empty r' && isspace c then EmptyString else String c r'
  end.

(** [s.strip()] *)
Definition strip (s : string) : string := rstrip (lstrip s).

Fixpoint forallb (p : ascii → bool) (s : string) : bool :=
  match s with
  | EmptyString => true
  | String c r => p c && forallb p r
  end.

(** [s.endswith(suffix)] *)
Definition endswith (s suffix : string) : bool :=
  let n := String.length s in
  let k := String.length suffix in
  (k <=? n)%nat && String.eqb (String.substring (n - k) k s) suffix.

(** [s.replace('Z', '+00:00')] *)
Fixpoint replace_Z (s : string) : string :=
  match s with
  | EmptyString => EmptyString
  | String c r =>
      if Ascii.eqb c "Z" then "+00:00" +:+ replace_Z r
      else String c (replace_Z r)
  end.

(** The regular expressions of the models end in [$], which [re.match]
    also satisfies just before one final newline. *)
Definition chomp_newline (s : string) : string :=
  let n := String.length s in
  if endswith s (String (ascii_of_nat 10) EmptyString)
  then String.substring 0 (n - 1) s else s.

(** Match of a fixed-shape pattern: one predicate per position. *)
Fixpoint match_shape (ps : list (ascii → bool)) (s : string) : bool :=
  match ps, s with
  | [], EmptyString => true
  | p :: ps', String c r => p c && match_shape ps' r
  | _, _ => false
  end.

Definition lit (a : ascii) : ascii → bool := Ascii.eqb a.

(** Literals of the source with accented letters are written here in
    UTF-8; [of_utf8] turns each two-byte sequence (lead byte 194 or 195)
    into the code point it encodes, one [ascii] per character. *)
Fixpoint of_utf8 (s : string) : string :=
  match s with
  | String c1 (String c2 r as t) =>
      if Nat.eqb (code c1) 195 then String (ascii_of_nat (code c2 + 64)) (of_utf8 r)
      else if Nat.eqb (code c1) 194 then String c2 (of_utf8 r)
      else String c1 (of_utf8 t)
  | _ => s
  end.

(** [needle in s] *)
Fixpoint contains (needle s : string) : bool :=
  String.prefix needle s
  || match s with
     | EmptyString => false
     | String _ r => contains needle r
     end.

End PyStr.

(** ** [uuid.uuid4()] and [str(uuid)] *)
Module Uuid.

Definition hex_digits : string := "0123456789abcdef".

Definition hex_char (n : N) : ascii :=
  match String.get (N.to_nat n) hex_digits with
  | Some c => c
  | None => "0"%char
  end.

(** The [i]-th hexadecimal digit of [u], counted from the least
    significant one. *)
Definition nibble (u : N) (i : nat) : ascii :=
  hex_char (N.land (N.shiftr u (4 * N.of_nat i)) 15).

(** [count] digits of [u], the most significant at position
    [lo + count - 1] first. *)
Fixpoint hex_field (u : N) (lo count : nat) : string :=
  match count with
  | O => EmptyString
  | S k => String (nibble u (lo + k)) (hex_field u lo k)
  end.

(** [str(u)] for a 128-bit UUID: 8-4-4-4-12 lower-case digits. *)
Definition to_str (u : N) : string :=
  hex_field u 24 8 +:+ "-" +:+ hex_field u 20 4 +:+ "-" +:+
  hex_field u 16 4 +:+ "-" +:+ hex_field u 12 4 +:+ "-" +:+
  hex_field u 0 12.

End Uuid.

(** ** Submission: the generated storage key *)

(** [ProductImportService._generate_new_filename], the value of
    [uuid.uuid4()] being an input. *)
Definition _generate_new_filename (original_filename : string) (file_uuid : N)
  : string :=
  let base_name :=
    if PyStr.contains_dot original_filename
    then PyStr.before_last_dot original_filename else original_filename in
  let extension :=
    if PyStr.contains_dot original_filename
    then PyStr.after_last_dot original_filename else EmptyString in
  if negb (PyStr.is_empty extension)
  then base_name +:+ "_" +:+ Uuid.to_str file_uuid +:+ "." +:+ extension
  else base_name +:+ "_" +:+ Uuid.to_str file_uuid.

(** The extension both services dispatch on:
    [filename.lower().split('.')[-1]]. *)
Definition extension_of (filename : string) : string :=
  PyStr.after_last_dot (PyStr.lower filename).


(** ** Table cells and rows as pandas hands them to the consumer *)

(** A Python float: NaN, or the rational a finite float denotes (rounding
    plays no part in what follows). *)
Inductive PyFloat := FNaN | FNum (q : Q).

Inductive Cell :=
  | CNone
  | CStr (s : string)
  | CInt (z : Z)
  | CFloat (f : PyFloat).

(** A [pd.Series]: column name to cell. *)
Abbreviation Row := (gmap string Cell).

(** Conversions of the Python and pandas libraries that the services call
    and that are not part of the repository. [None] stands for a raised
    exception where the caller catches everything. *)
Record PyLib := {
  fromisoformat : string → option Z;      (* datetime.fromisoformat *)
  to_datetime : Cell → option Z;          (* pd.to_datetime(c).to_pydatetime() *)
  int_of_str : string → outcome Z;         (* int(s) *)
  float_of_str : string → outcome PyFloat; (* float(s) *)
  float_repr : Q → string;                (* str(f) *)
  float_add : PyFloat → Z → PyFloat;      (* f + n *)
}.

(** [pd.notna(c)] *)
Definition notna (c : Cell) : bool :=
  match c with CNone | CFloat FNaN => false | _ => true end.

(** [str(c)] *)
Definition py_str (lib : PyLib) (c : Cell) : string :=
  match c with
  | CNone => "None"
  | CStr s => s
  | CInt z => pretty z
  | CFloat FNaN => "nan"
  | CFloat (FNum q) => float_repr lib q
  end.

(** [int(c)] *)
Definition py_int (lib : PyLib) (c : Cell) : outcome Z :=
  match c with
  | CNone => Raise (Exn TypeError
      "int() argument must be a string, a bytes-like object or a real number, not 'NoneType'")
  | CStr s => int_of_str lib s
  | CInt z => Ok z
  | CFloat FNaN => Raise (Exn ValueError "cannot convert float NaN to integer")
  | CFloat (FNum q) => Ok (Z.quot (Qnum q) (Z.pos (Qden q)))
  end.

(** [float(c)] *)
Definition py_float (lib : PyLib) (c : Cell) : outcome PyFloat :=
  match c with
  | CNone => Raise (Exn TypeError
      "float() argument must be a string or a real number, not 'NoneType'")
  | CStr s => float_of_str lib s
  | CInt z => Ok (FNum (inject_Z z))
  | CFloat f => Ok f
  end.

(** [row[key]] *)
Definition getitem (row : Row) (key : string) : outcome Cell :=
  match row !! key with
  | Some c => Ok c
  | None => Raise (Exn KeyError ("'" +:+ key +:+ "'"))
  end.

(** [c != ''] *)
Definition not_empty_str (c : Cell) : bool :=
  match c with CStr EmptyString => false | _ => true end.

(** *** Index labels

    [df.iterrows()] yields every row with its index label. A frame read
    with the default arguments has the labels 0, 1, 2, ...; when the data
    lines of a CSV file have more fields than its header, pandas takes the
    first column (or, as tuples, the first columns) as the index, and the
    labels are what those cells hold. *)
#[warnings="-register-all"]
Inductive Label :=
  | LInt (z : Z)
  | LBool (b : bool)
  | LFloat (f : PyFloat)
  | LStr (s : string)
  | LTuple (items : list Label).

Definition double_quote : string := String (ascii_of_nat 34) EmptyString.

(** The [TypeError] of [x + 2] for a string or a tuple [x]. *)
Definition cannot_concatenate (type_name : string) : exn :=
  Exn TypeError ("can only concatenate " +:+ type_name +:+ " (not " +:+ double_quote
                 +:+ "int" +:+ double_quote +:+ ") to " +:+ type_name).

(** [f"{index + 2}"]: the text of the label plus two, where the label can
    be added to. *)
Definition index_plus_2 (lib : PyLib) (index : Label) : outcome string :=
  match index with
  | LInt z => Ok (pretty (z + 2)%Z)
  | LBool b => Ok (pretty (Z.b2z b + 2)%Z)
  | LFloat f => Ok (py_str lib (CFloat (float_add lib f 2)))
  | LStr _ => Raise (cannot_concatenate "str")
  | LTuple _ => Raise (cannot_concatenate "tuple")
  end.

(** ** The Product model *)

Record Product := {
  sku : string;
  name : string;
  expiration_date : Z;          (* a datetime, as its naive wall-clock value *)
  quantity : Z;
  price : PyFloat;
  location : string;
  description : string;
  product_type : string;
  provider_id : string;
  photo_filename : option string;
  photo_url : option string;
}.

Module ProductModel.
Import PyStr.

Definition value_error {A} (m : string) : outcome A :=
  Raise (Exn ValueError (of_utf8 m)).

Definition check (b : bool) (m : string) : outcome unit :=
  if b then Ok tt else value_error m.

(** [^MED-\d{4}$] *)
Definition sku_pattern (s : string) : bool :=
  match_shape [lit "M"; lit "E"; lit "D"; lit "-";
               isdigit; isdigit; isdigit; isdigit] (chomp_newline s).

Definition _validate_sku (p : Product) : outcome unit :=
  check (negb (is_empty (sku p))) "El SKU es obligatorio" ;;
  check (sku_pattern (sku p))
    "El SKU debe seguir el formato MED-XXXX (4 dígitos numéricos)".

(** One character of [[a-zA-Z0-9\sáéíóúÁÉÍÓÚñÑüÜ]] *)
Definition name_char (c : ascii) : bool :=
  islower_ascii c || isupper_ascii c || isdigit c || isspace c
  || bool_decide (code c ∈ [225; 233; 237; 243; 250; 193; 201; 205; 211; 218;
                            241; 209; 252; 220]).

Definition name_pattern (s : string) : bool :=
  negb (is_empty s) && forallb name_char s.

Definition _validate_name (p : Product) : outcome unit :=
  check (negb (is_empty (name p))) "El nombre es obligatorio" ;;
  check (3 <=? String.length (strip (name p)))%nat
    "El nombre debe tener al menos 3 caracteres" ;;
  check (name_pattern (name p))
    "El nombre debe contener únicamente caracteres alfanuméricos, espacios y tildes".

(** [now] is the reading of [datetime.utcnow()]. *)
Definition _validate_expiration_date (now : Z) (p : Product) : outcome unit :=
  check (negb (expiration_date p <=? now)%Z)
    "La fecha de vencimiento debe ser posterior a la fecha actual".

Definition _validate_quantity (p : Product) : outcome unit :=
  check (negb ((quantity p <? 1)%Z || (9999 <? quantity p)%Z))
    "La cantidad debe estar entre 1 y 9999".

(** [self.price <= 0], false on NaN *)
Definition price_le_0 (f : PyFloat) : bool :=
  match f with FNaN => false | FNum q => Qle_bool q 0 end.

Definition _validate_price (p : Product) : outcome unit :=
  check (negb (price_le_0 (price p))) "El precio debe ser un valor positivo".

(** [^[A-Z]-\d{2}-\d{2}$] *)
Definition location_pattern (s : string) : bool :=
  match_shape [isupper_ascii; lit "-"; isdigit; isdigit; lit "-";
               isdigit; isdigit] (chomp_newline s).

Definition _validate_location (p : Product) : outcome unit :=
  check (negb (is_empty (location p))) "La ubicación es obligatoria" ;;
  check (location_pattern (location p))
    "La ubicación debe seguir el formato P-EE-NN (Pasillo: A-Z, Estante: 01-99, Nivel: 01-99)".

Definition valid_types : list string :=
  ["Alto valor"; "Seguridad"; of_utf8 "Cadena fría"].

Definition _validate_product_type (p : Product) : outcome unit :=
  check (negb (is_empty (product_type p))) "El tipo de producto es obligatorio" ;;
  check (bool_decide (product_type p ∈ valid_types))
    "El tipo de producto debe ser: Alto valor, Seguridad o Cadena fría".

(** [^[0-9a-f]{8}-[0-9a-f]{4}-[0-9a-f]{4}-[0-9a-f]{4}-[0-9a-f]{12}$] *)
Definition uuid_pattern (s : string) : bool :=
  match_shape (replicate 8 ishex_lower ++ [lit "-"] ++
               replicate 4 ishex_lower ++ [lit "-"] ++
               replicate 4 ishex_lower ++ [lit "-"] ++
               replicate 4 ishex_lower ++ [lit "-"] ++
               replicate 12 ishex_lower) (chomp_newline s).

Definition _validate_provider_id (p : Product) : outcome unit :=
  check (negb (is_empty (provider_id p))) "El ID del proveedor es obligatorio" ;;
  check (uuid_pattern (lower (provider_id p)))
    "El ID del proveedor debe ser un UUID válido".

Definition valid_extensions : list string := [".jpg"; ".jpeg"; ".png"; ".gif"].

Definition _validate_photo_filename (p : Product) : outcome unit :=
  match photo_filename p with
  | Some f =>
      if is_empty f then Ok tt
      else check (existsb (endswith (lower f)) valid_extensions)
             "La foto debe ser un archivo JPG, PNG o GIF"
  | None => Ok tt
  end.

(** [Product.validate] *)
Definition validate (now : Z) (p : Product) : outcome unit :=
  _validate_sku p ;;
  _validate_name p ;;
  _validate_expiration_date now p ;;
  _validate_quantity p ;;
  _validate_price p ;;
  _validate_location p ;;
  _validate_product_type p ;;
  _validate_provider_id p ;;
  _validate_photo_filename p.

End ProductModel.

(** ** The products table *)
Module ProductRepository.

(** Rows of [products] in insertion order; the autoincremented id of a
    row is its position. *)
Abbreviation Table := (list Product).

Definition sku_taken (t : Table) (s : string) : bool :=
  existsb (fun p => String.eqb (sku p) s) t.

(** What the database answers to the [INSERT]: an injected failure
    [fault] (connection, column constraint), or a violation of the unique
    constraint on [sku], each an [SQLAlchemyError] with the driver's
    text. *)
Definition insert (fault : option string) (unique_msg : string)
    (p : Product) (t : Table) : outcome Table :=
  match fault with
  | Some m => Raise (Exn SQLAlchemyError m)
  | None =>
      if sku_taken t (sku p) then Raise (Exn SQLAlchemyError unique_msg)
      else Ok (t ++ [p])
  end.

(** [ProductRepository.create]: validation first, then the insert; an
    [SQLAlchemyError] is rolled back and re-raised as [Exception]. *)
Definition create (now : Z) (fault : option string) (unique_msg : string)
    (p : Product) (t : Table) : outcome unit * Table :=
  match ProductModel.validate now p with
  | Raise e => (Raise e, t)
  | Ok _ =>
      match insert fault unique_msg p t with
      | Ok t' => (Ok tt, t')
      | Raise e => (Raise (Exn Exception ("Error al crear producto: " +:+ exn_msg e)), t)
      end
  end.

End ProductRepository.

(** ** The ProductProcessedHistory model (the import job) *)
Module ProductProcessedHistory.

Record t := {
  id : option string;
  file_name : string;
  user_id : string;
  status : string;
  result : option string;
  created_at : Z;
  updated_at : option Z;
}.

Definition value_error {A} (m : string) : outcome A :=
  Raise (Exn ValueError m).

(** [ProductProcessedHistory.validate] *)
Definition validate (h : t) : outcome unit :=
  if PyStr.is_empty (file_name h)
  then value_error "El nombre del archivo es obligatorio"
  else if PyStr.is_empty (user_id h)
  then value_error "El ID del usuario es obligatorio"
  else if PyStr.is_empty (status h)
  then value_error "El estado es obligatorio"
  else if (100 <? String.length (file_name h))%nat
  then value_error "El nombre del archivo no puede exceder 100 caracteres"
  else if (36 <? String.length (user_id h))%nat
  then value_error "El ID del usuario no puede exceder 36 caracteres"
  else if (20 <? String.length (status h))%nat
  then value_error "El estado no puede exceder 20 caracteres"
  else Ok tt.

Definition set_id (v : option string) (h : t) : t :=
  {| id := v; file_name := file_name h; user_id := user_id h;
     status := status h; result := result h;
     created_at := created_at h; updated_at := updated_at h |}.

(** The three assignments the consumer makes before an update:
    [history.status = ...; history.result = ...; history.updated_at = ...]. *)
Definition set_outcome (st res : string) (now : Z) (h : t) : t :=
  {| id := id h; file_name := file_name h; user_id := user_id h;
     status := st; result := Some res;
     created_at := created_at h; updated_at := Some now |}.

End ProductProcessedHistory.

Module PPH := ProductProcessedHistory.

(** ** The products_processed_history table *)
Module ProductProcessedHistoryRepository.

(** A row of the table; the primary key [id] is the key of the map. *)
Record ProductProcessedHistoryDB := {
  db_file_name : string;
  db_created_at : Z;
  db_updated_at : option Z;
  db_user_id : string;
  db_status : string;
  db_result : option string;
}.

Abbreviation Table := (gmap string ProductProcessedHistoryDB).

Definition _db_to_model (key : string) (r : ProductProcessedHistoryDB) : PPH.t :=
  {| PPH.id := Some key; PPH.file_name := db_file_name r;
     PPH.user_id := db_user_id r; PPH.status := db_status r;
     PPH.result := db_result r; PPH.created_at := db_created_at r;
     PPH.updated_at := db_updated_at r |}.

Definition _model_to_db (h : PPH.t) : ProductProcessedHistoryDB :=
  {| db_file_name := PPH.file_name h; db_created_at := PPH.created_at h;
     db_updated_at := PPH.updated_at h; db_user_id := PPH.user_id h;
     db_status := PPH.status h; db_result := PPH.result h |}.

(** [not history.id] *)
Definition no_id (h : PPH.t) : bool :=
  match PPH.id h with Some k => PyStr.is_empty k | None => true end.

Definition duplicate_key_msg : string :=
  "duplicate key value violates unique constraint".

(** [create]: validation, then the id, then the insert. [new_uuid] is the
    value of [uuid.uuid4()]; [fault] an injected [SQLAlchemyError]; an id
    already in the table violates the primary key. *)
Definition create (new_uuid : N) (fault : option string) (h : PPH.t)
    (t : Table) : outcome PPH.t * Table :=
  match PPH.validate h with
  | Raise e => (Raise e, t)
  | Ok _ =>
      let key := if no_id h then Uuid.to_str new_uuid else default "" (PPH.id h) in
      let h' := PPH.set_id (Some key) h in
      let failed m :=
        (Raise (Exn Exception ("Error al crear registro de historial: " +:+ m)), t) in
      match fault with
      | Some m => failed m
      | None =>
          match t !! key with
          | Some _ => failed duplicate_key_msg
          | None => (Ok h', <[key := _model_to_db h']> t)
          end
      end
  end.

(** [get_by_id] *)
Definition get_by_id (fault : option string) (history_id : string)
    (t : Table) : outcome (option PPH.t) :=
  match fault with
  | Some m =>
      Raise (Exn Exception ("Error al obtener registro de historial por ID: " +:+ m))
  | None => Ok (_db_to_model history_id <$> t !! history_id)
  end.

(** The assignments of [update] on the row found. *)
Definition updated_row (now : Z) (h : PPH.t) (r : ProductProcessedHistoryDB)
  : ProductProcessedHistoryDB :=
  {| db_file_name := PPH.file_name h; db_created_at := db_created_at r;
     db_updated_at := Some now; db_user_id := PPH.user_id h;
     db_status := PPH.status h; db_result := PPH.result h |}.

(** [update]: validation, then the row with the id of [h] is overwritten
    when there is one; [now] is the reading of [datetime.utcnow()]. *)
Definition update (now : Z) (fault : option string) (h : PPH.t)
    (t : Table) : outcome PPH.t * Table :=
  match PPH.validate h with
  | Raise e => (Raise e, t)
  | Ok _ =>
      match fault with
      | Some m =>
          (Raise (Exn Exception ("Error al actualizar registro de historial: " +:+ m)), t)
      | None =>
          match PPH.id h with
          | Some key =>
              match t !! key with
              | Some r => (Ok h, <[key := updated_row now h r]> t)
              | None => (Ok h, t)
              end
          | None => (Ok h, t)
          end
      end
  end.

(** [delete]: [True] when a row was removed, [False] when there was none. *)
Definition delete (fault : option string) (history_id : string)
    (t : Table) : outcome bool * Table :=
  match fault with
  | Some m =>
      (Raise (Exn Exception ("Error al eliminar registro de historial: " +:+ m)), t)
  | None =>
      match t !! history_id with
      | Some _ => (Ok true, base.delete history_id t)
      | None => (Ok false, t)
      end
  end.

End ProductProcessedHistoryRepository.

Module HRepo := ProductProcessedHistoryRepository.

(** ** The world both services act on *)

Record Blob := { blob_data : string; blob_metadata : list (string * string) }.

Record ImportEvent := {
  ev_history_id : string;
  ev_event_type : string;
  ev_timestamp : Z;
}.

(** Calls the submission handler makes to its collaborators, in the order
    they are made (kept whether or not the call succeeds). *)
Inductive Call :=
  | CallUpload (path : string)
  | CallCreateHistory (file_name : string)
  | CallPublish (history_id : string).

Record World := {
  bucket : gmap string Blob;
  history_table : gmap string HRepo.ProductProcessedHistoryDB;
  products_table : list Product;
  topic : list ImportEvent;
  calls : list Call;
}.

Definition with_bucket (b : gmap string Blob) (w : World) : World :=
  {| bucket := b; history_table := history_table w;
     products_table := products_table w; topic := topic w; calls := calls w |}.
Definition with_history (h : gmap string HRepo.ProductProcessedHistoryDB)
    (w : World) : World :=
  {| bucket := bucket w; history_table := h;
     products_table := products_table w; topic := topic w; calls := calls w |}.
Definition with_products (p : list Product) (w : World) : World :=
  {| bucket := bucket w; history_table := history_table w;
     products_table := p; topic := topic w; calls := calls w |}.
Definition with_topic (t : list ImportEvent) (w : World) : World :=
  {| bucket := bucket w; history_table := history_table w;
     products_table := products_table w; topic := t; calls := calls w |}.
Definition log_call (c : Call) (w : World) : World :=
  {| bucket := bucket w; history_table := history_table w;
     products_table := products_table w; topic := topic w;
     calls := calls w ++ [c] |}.

(** Computations that act on the world and may raise. *)
Definition M (A : Type) : Type := World → outcome A * World.

Global Instance M_ret : MRet M := fun A a w => (Ok a, w).
Global Instance M_bind : MBind M := fun A B f m w =>
  match m w with
  | (Ok a, w') => f a w'
  | (Raise e, w') => (Raise e, w')
  end.

(** A pure step that may raise. *)
Definition lift {A} (r : outcome A) : M A := fun w => (r, w).

(** [try: body / except Exception as e: handler e] *)
Definition try_except {A} (body : M A) (handler : exn → M A) : M A := fun w =>
  match body w with
  | (Ok a, w') => (Ok a, w')
  | (Raise e, w') => handler e w'
  end.

Definition raise {A} (c : exn_class) (m : string) : M A :=
  fun w => (Raise (Exn c m), w).

Record Config := {
  BUCKET_FOLDER_PROCESSED_PRODUCTS : string;
  MAX_IMPORT_PRODUCTS : nat;
}.

(** A parsed file: the rows of the DataFrame, each with its index label,
    in the order of the file; the header is not a row. *)
Abbreviation DataFrame := (list (Label * Row)).

(** Rows under the default index 0, 1, 2, ... *)
Definition range_index (rows : list Row) : DataFrame :=
  imap (fun i row => (LInt (Z.of_nat i), row)) rows.

Record Pandas := {
  read_csv : string → outcome DataFrame;
  read_excel : string → outcome DataFrame;
}.

(** The parser both services select from the extension:
    [if extension == 'csv': ... elif extension in ['xls', 'xlsx']: ...];
    [None] is the [else] branch. *)
Definition read_by_extension (pd : Pandas) (extension content : string)
  : option (outcome DataFrame) :=
  if String.eqb extension "csv" then Some (read_csv pd content)
  else if bool_decide (extension ∈ ["xls"; "xlsx"]) then Some (read_excel pd content)
  else None.

(** ** The Pub/Sub topic *)
Module PubSubService.

(** [publish_product_import_event]: the message carries the history id;
    [fault] is a failure of the client or the broker. *)
Definition publish_product_import_event (now : Z) (message_id : string)
    (fault : option string) (history_id : string) : M string := fun w =>
  match fault with
  | Some m =>
      (Raise (Exn Exception ("Error al publicar mensaje en Pub/Sub: " +:+ m)), w)
  | None =>
      (Ok message_id,
       with_topic (topic w ++ [{| ev_history_id := history_id;
                                  ev_event_type := "product_import";
                                  ev_timestamp := now |}]) w)
  end.

End PubSubService.

(** ** The submission handler: ProductImportService *)
Module ProductImportService.

(** A werkzeug [FileStorage]; an absent file or file name is the empty
    [filename] (both are falsy for the only test the service makes). *)
Record FileStorage := { filename : string; stream : string }.

(** What one invocation reads from outside: configuration, pandas, the two
    values of [uuid.uuid4()], the clock, and the failures of the
    collaborators. *)
Record Env := {
  config : Config;
  pandas : Pandas;
  file_uuid : N;
  history_uuid : N;
  utcnow : Z;
  message_id : string;
  upload_fault : option string;
  create_fault : option string;
  publish_fault : option string;
}.

Definition _validate_required_fields (file : FileStorage) (user_id : string)
  : outcome unit :=
  if PyStr.is_empty (filename file)
  then Raise (Exn ValidationError "El archivo es obligatorio")
  else if PyStr.is_empty user_id || PyStr.is_empty (PyStr.strip user_id)
  then Raise (Exn ValidationError "El userId es obligatorio")
  else Ok tt.

Definition allowed_extensions : list string := ["csv"; "xls"; "xlsx"].

Definition _validate_file_type (file : FileStorage) : outcome unit :=
  if PyStr.is_empty (filename file) || negb (PyStr.contains_dot (filename file))
  then Raise (Exn ValidationError (PyStr.of_utf8 "El archivo no tiene extensión"))
  else if bool_decide (extension_of (filename file) ∈ allowed_extensions)
  then Ok tt
  else Raise (Exn ValidationError "Solo se permiten archivos CSV/Excel").

Definition too_many_msg (limit count : nat) : string :=
  "Solo se permiten cargar " +:+ pretty limit +:+ " productos. " +:+
  "El archivo contiene " +:+ pretty count +:+ " registros".

Definition _validate_records_count (env : Env) (file : FileStorage)
  : outcome unit :=
  let body : outcome unit :=
    match read_by_extension (pandas env) (extension_of (filename file)) (stream file) with
    | None => Raise (Exn ValidationError "Formato de archivo no soportado")
    | Some (Raise e) => Raise e
    | Some (Ok df) =>
        let records_count := length df in
        if (MAX_IMPORT_PRODUCTS (config env) <? records_count)%nat
        then Raise (Exn ValidationError
                      (too_many_msg (MAX_IMPORT_PRODUCTS (config env)) records_count))
        else Ok tt
    end in
  match body with
  | Ok _ => Ok tt
  | Raise e =>
      match exn_cls e with
      | ValidationError => Raise e
      | _ => Raise (Exn ValidationError ("Error al validar el archivo: " +:+ exn_msg e))
      end
  end.

Definition upload_metadata (env : Env) (file : FileStorage) : list (string * string) :=
  [("original_filename", filename file);
   ("uploaded_by", "medisupply-inventories");
   ("folder", BUCKET_FOLDER_PROCESSED_PRODUCTS (config env))].

Definition _upload_file_to_storage (env : Env) (file : FileStorage)
    (new_filename : string) : M unit :=
  let full_path :=
    BUCKET_FOLDER_PROCESSED_PRODUCTS (config env) +:+ "/" +:+ new_filename in
  try_except
    (fun w =>
       let w := log_call (CallUpload full_path) w in
       match upload_fault env with
       | Some m => (Raise (Exn GoogleCloudError m), w)
       | None =>
           (Ok tt,
            with_bucket (<[full_path := {| blob_data := stream file;
                                           blob_metadata := upload_metadata env file |}]>
                           (bucket w)) w)
       end)
    (fun e => raise BusinessLogicError
                ("Error al subir archivo a Cloud Storage: " +:+ exn_msg e)).

Definition _create_history_record (env : Env) (new_filename user_id : string)
  : M PPH.t :=
  try_except
    (fun w =>
       let history :=
         {| PPH.id := None; PPH.file_name := new_filename; PPH.user_id := user_id;
            PPH.status := "En curso"; PPH.result := None;
            PPH.created_at := utcnow env; PPH.updated_at := None |} in
       let w := log_call (CallCreateHistory new_filename) w in
       let '(r, t) := HRepo.create (history_uuid env) (create_fault env) history
                        (history_table w) in
       (r, with_history t w))
    (fun e => raise BusinessLogicError
                ("Error al crear registro de historial: " +:+ exn_msg e)).

Definition _publish_import_event (env : Env) (history_id : string) : M unit :=
  try_except
    (fun w =>
       let w := log_call (CallPublish history_id) w in
       match PubSubService.publish_product_import_event (utcnow env) (message_id env)
               (publish_fault env) history_id w with
       | (Ok _, w') => (Ok tt, w')
       | (Raise e, w') => (Raise e, w')
       end)
    (fun e => raise BusinessLogicError
                (PyStr.of_utf8 "Error al publicar evento de importación: " +:+ exn_msg e)).

(** [import_products_file]: returns [(history_id, message)]. *)
Definition import_products_file (env : Env) (file : FileStorage)
    (user_id : string) : M (string * string) :=
  try_except
    (lift (_validate_required_fields file user_id) ;;
     lift (_validate_file_type file) ;;
     lift (_validate_records_count env file) ;;
     let new_filename := _generate_new_filename (filename file) (file_uuid env) in
     _upload_file_to_storage env file new_filename ;;
     history ← _create_history_record env new_filename user_id ;
     _publish_import_event env (default "" (PPH.id history)) ;;
     mret (default "" (PPH.id history), "Archivo cargado exitosamente"))
    (fun e =>
       match exn_cls e with
       | ValidationError | BusinessLogicError => lift (Raise e)
       | _ => raise BusinessLogicError
                (PyStr.of_utf8 "Error al procesar importación de productos: "
                 +:+ exn_msg e)
       end).

End ProductImportService.

(** ** The submission endpoint: ProductImportController *)
Module ProductImportController.

(** The request as [post] reads it: the content type, [request.files.get
    ('file')] and [request.form.get('userId')]. *)
Record Request := {
  content_type : option string;
  file : option ProductImportService.FileStorage;
  userId : option string;
}.

(** The JSON body and the status code. [details] and [data] are the keys
    that are only sometimes there. *)
Record Response := {
  status_code : nat;
  success : bool;
  message : string;          (* "message" on success, "error" otherwise *)
  details : option string;
  data : option string;      (* data.history_id *)
}.

(** [BaseController.error_response]; [if details:] drops an empty text. *)
Definition error_response (m : string) (d : option string) (code : nat) : Response :=
  {| status_code := code; success := false; message := m;
     details := match d with
                | Some t => if PyStr.is_empty t then None else Some t
                | None => None
                end;
     data := None |}.

(** [BaseController.created_response] *)
Definition created_response (history_id m : string) : Response :=
  {| status_code := 201; success := true; message := m;
     details := None; data := Some history_id |}.

(** [BaseController.handle_exception] *)
Definition handle_exception (e : exn) : Response :=
  match exn_cls e with
  | ValidationError =>
      error_response (PyStr.of_utf8 "Error de validación") (Some (exn_msg e)) 400
  | BusinessLogicError =>
      error_response (PyStr.of_utf8 "Error de lógica de negocio") (Some (exn_msg e)) 422
  | _ =>
      error_response
        (PyStr.of_utf8 "Error temporal del sistema. Contacte soporte técnico si persiste")
        None 500
  end.

(** [request.content_type and 'multipart/form-data' in request.content_type] *)
Definition is_multipart (req : Request) : bool :=
  match content_type req with
  | Some ct => PyStr.contains "multipart/form-data" ct
  | None => false
  end.

(** [not file], for a [FileStorage] or [None] *)
Definition no_file (f : option ProductImportService.FileStorage) : bool :=
  match f with
  | Some f => PyStr.is_empty (ProductImportService.filename f)
  | None => true
  end.

(** [post] *)
Definition post (env : ProductImportService.Env) (req : Request)
  : World → Response * World := fun w =>
  let file := if is_multipart req then file req else None in
  let user_id := if is_multipart req then userId req else None in
  match file with
  | Some f =>
      if no_file file
      then (error_response "El campo 'file' es obligatorio" None 400, w)
      else
        match user_id with
        | None => (error_response "El campo 'userId' es obligatorio" None 400, w)
        | Some u =>
            if PyStr.is_empty u
            then (error_response "El campo 'userId' es obligatorio" None 400, w)
            else
              match ProductImportService.import_products_file env f u w with
              | (Ok (history_id, m), w') => (created_response history_id m, w')
              | (Raise e, w') => (handle_exception e, w')
              end
        end
  | None =>
      if is_multipart req
      then (error_response "El campo 'file' es obligatorio" None 400, w)
      else (error_response "El campo 'file' es obligatorio"
              (Some (PyStr.of_utf8
                 "Asegúrate de usar Content-Type: multipart/form-data para enviar archivos"))
              400, w)
  end.

End ProductImportController.

(** ** The bucket, read side *)
Module CloudStorageService.

(** [download_file(filename, folder)] *)
Definition download_file (fault : option string) (filename folder : string)
  : M string := fun w =>
  let full_path :=
    if PyStr.is_empty folder then filename else folder +:+ "/" +:+ filename in
  match fault with
  | Some m => (Raise (Exn GoogleCloudError m), w)
  | None =>
      match bucket w !! full_path with
      | None =>
          (Raise (Exn GoogleCloudError
                    ("El archivo " +:+ full_path +:+ " no existe en el bucket")), w)
      | Some b => (Ok (blob_data b), w)
      end
  end.

(** [full_path] as the three methods build it. *)
Definition full_path (filename folder : string) : string :=
  if PyStr.is_empty folder then filename else folder +:+ "/" +:+ filename.

(** [file_exists(filename, folder)]: any failure is answered [False]. *)
Definition file_exists (fault : option string) (filename folder : string)
  : M bool := fun w =>
  match fault with
  | Some _ => (Ok false, w)
  | None => (Ok (bool_decide (is_Some (bucket w !! full_path filename folder))), w)
  end.

(** [delete_file(filename, folder)]: [True] when the blob was there and is
    deleted, [False] when it was not there or anything failed. *)
Definition delete_file (fault : option string) (filename folder : string)
  : M bool := fun w =>
  match fault with
  | Some _ => (Ok false, w)
  | None =>
      match bucket w !! full_path filename folder with
      | Some _ =>
          (Ok true, with_bucket (base.delete (full_path filename folder) (bucket w)) w)
      | None => (Ok false, w)
      end
  end.

End CloudStorageService.

(** ** The import consumer: ProductFileProcessorService *)
Module ProductFileProcessorService.

Record Env := {
  config : Config;
  pandas : Pandas;
  lib : PyLib;
  row_utcnow : nat → Z;             (* the clock when row [index] is validated *)
  utcnow : Z;                       (* the clock at finalization *)
  recovery_utcnow : Z;              (* the clock in the except branch *)
  lookup_fault : option string;
  download_fault : option string;
  insert_fault : nat → option string;
  unique_msg : string;              (* the driver's text on a duplicate sku *)
  update_fault : option string;
  recovery_lookup_fault : option string;
  recovery_update_fault : option string;
}.

(** The date of a row: [fromisoformat] first, [pd.to_datetime] second. *)
Definition parse_expiration_date (l : PyLib) (c : Cell) : outcome Z :=
  let expiration_date_str := py_str l c in
  match fromisoformat l (PyStr.replace_Z expiration_date_str) with
  | Some d => Ok d
  | None =>
      match to_datetime l c with
      | Some d => Ok d
      | None => Raise (Exn ValueError
                         (PyStr.of_utf8 "Formato de fecha inválido: "
                          +:+ expiration_date_str))
      end
  end.

(** [str(row[k]).strip() if pd.notna(row.get(k)) and row.get(k) != '' else None] *)
Definition optional_field (l : PyLib) (row : Row) (key : string) : option string :=
  match row !! key with
  | Some c => if notna c && not_empty_str c then Some (PyStr.strip (py_str l c)) else None
  | None => None
  end.

(** [str(row['description']).strip() if pd.notna(row.get('description')) else ''] *)
Definition description_field (l : PyLib) (row : Row) : string :=
  match row !! "description" with
  | Some c => if notna c then PyStr.strip (py_str l c) else ""
  | None => ""
  end.

(** The [try] block of [_create_product_from_row], in evaluation order. *)
Definition product_from_row (l : PyLib) (row : Row) : outcome Product :=
  c_date ← getitem row "expiration_date" ;
  expiration_date ← parse_expiration_date l c_date ;
  c_sku ← getitem row "sku" ;
  c_name ← getitem row "name" ;
  c_quantity ← getitem row "quantity" ;
  quantity ← py_int l c_quantity ;
  c_price ← getitem row "price" ;
  price ← py_float l c_price ;
  c_location ← getitem row "location" ;
  let description := description_field l row in
  c_type ← getitem row "product_type" ;
  c_provider ← getitem row "provider_id" ;
  Ok {| sku := PyStr.strip (py_str l c_sku);
        name := PyStr.strip (py_str l c_name);
        expiration_date := expiration_date;
        quantity := quantity;
        price := price;
        location := PyStr.strip (py_str l c_location);
        description := description;
        product_type := PyStr.strip (py_str l c_type);
        provider_id := PyStr.strip (py_str l c_provider);
        photo_filename := optional_field l row "photo_filename";
        photo_url := optional_field l row "photo_url" |}.

Definition missing_column_msg (e : exn) : string :=
  "Columna requerida no encontrada: " +:+ exn_msg e.

(** [_create_product_from_row]: the three [except] clauses. *)
Definition _create_product_from_row (l : PyLib) (row : Row) : outcome Product :=
  match product_from_row l row with
  | Ok p => Ok p
  | Raise e =>
      match exn_cls e with
      | KeyError => Raise (Exn ValueError (missing_column_msg e))
      | ValueError =>
          Raise (Exn ValueError (PyStr.of_utf8 "Error de validación: " +:+ exn_msg e))
      | _ => Raise (Exn ValueError ("Error al crear producto: " +:+ exn_msg e))
      end
  end.

Definition product_repository_create (env : Env) (index : nat) (p : Product)
  : M unit := fun w =>
  let '(r, t) := ProductRepository.create (row_utcnow env index)
                   (insert_fault env index) (unique_msg env) p (products_table w) in
  (r, with_products t w).

(** [f"Fila {index + 2}: {str(e)}"], given the text of [index + 2]. *)
Definition error_message (label : string) (e : exn) : string :=
  "Fila " +:+ label +:+ ": " +:+ exn_msg e.

(** The counters of the loop: successful, failed, errors. *)
Definition Counters : Type := nat * nat * list string.

(** The [except] clause of the loop body, entered with the counters as
    the [try] block left them. The label is added to before the line is
    built: a label that cannot be added to raises out of the clause, and
    so out of the loop. *)
Definition row_failed (env : Env) (index : Label)
    (successful_records failed_records : nat) (errors : list string) (e : exn)
  : M Counters :=
  label ← lift (index_plus_2 (lib env) index) ;
  mret (successful_records, failed_records + 1, errors ++ [error_message label e]).

(** One pass of the body of [for index, row in df.iterrows()], for the row
    at [position] in the frame (the clock and the database are asked by
    position). The [try] block builds the product, creates it, counts it
    and then formats the debug line, which adds to the label too. *)
Definition process_row (env : Env) (position : nat) (index : Label) (row : Row)
    (acc : Counters) : M Counters := fun w =>
  let '(successful_records, failed_records, errors) := acc in
  match (product ← lift (_create_product_from_row (lib env) row) ;
         product_repository_create env position product) w with
  | (Raise e, w') =>
      row_failed env index successful_records failed_records errors e w'
  | (Ok _, w') =>
      try_except
        (lift (index_plus_2 (lib env) index) ;;
         mret (successful_records + 1, failed_records, errors))
        (row_failed env index (successful_records + 1) failed_records errors) w'
  end.

Fixpoint iterrows (env : Env) (position : nat) (df : DataFrame) (acc : Counters)
  : M Counters :=
  match df with
  | [] => mret acc
  | (index, row) :: rest =>
      acc' ← process_row env position index row acc ;
      iterrows env (S position) rest acc'
  end.

(** [_process_file_content]: (total, successful, failed, errors). *)
Definition _process_file_content (env : Env) (file_content filename : string)
  : M (nat * nat * nat * list string) :=
  try_except
    (let extension := extension_of filename in
     match read_by_extension (pandas env) extension file_content with
     | None => raise Exception ("Formato de archivo no soportado: " +:+ extension)
     | Some (Raise e) => lift (Raise e)
     | Some (Ok df) =>
         let total_records := length df in
         '(successful_records, failed_records, errors) ← iterrows env 0 df (0, 0, []) ;
         mret (total_records, successful_records, failed_records, errors)
     end)
    (fun e => raise Exception ("Error al leer archivo: " +:+ exn_msg e)).

Record Summary := {
  history_id : string;
  file_name : string;
  total_records : nat;
  successful_records : nat;
  failed_records : nat;
  result : string;
  errors : list string;
}.

Definition history_get_by_id (fault : option string) (history_id : string)
  : M (option PPH.t) := fun w =>
  (HRepo.get_by_id fault history_id (history_table w), w).

Definition history_update (now : Z) (fault : option string) (h : PPH.t)
  : M PPH.t := fun w =>
  let '(r, t) := HRepo.update now fault h (history_table w) in
  (r, with_history t w).

Definition result_message (successful_records total_records : nat) : string :=
  pretty successful_records +:+ "/" +:+ pretty total_records +:+ " productos registrados".

Definition not_found_msg (history_id : string) : string :=
  PyStr.of_utf8 "No se encontró registro de historial con ID: " +:+ history_id.

(** The [try] block of [process_file_by_history_id]. *)
Definition process_body (env : Env) (history_id : string) : M Summary :=
  history ← history_get_by_id (lookup_fault env) history_id ;
  match history with
  | None => raise Exception (not_found_msg history_id)
  | Some history =>
      file_content ← CloudStorageService.download_file (download_fault env)
                       (PPH.file_name history)
                       (BUCKET_FOLDER_PROCESSED_PRODUCTS (config env)) ;
      '(total_records, successful_records, failed_records, errors) ←
        _process_file_content env file_content (PPH.file_name history) ;
      let result_message := result_message successful_records total_records in
      let history := PPH.set_outcome "Finalizado" result_message (utcnow env) history in
      history_update (utcnow env) (update_fault env) history ;;
      mret {| history_id := history_id;
              file_name := PPH.file_name history;
              total_records := total_records;
              successful_records := successful_records;
              failed_records := failed_records;
              result := result_message;
              errors := errors |}
  end.

(** The inner [try] of the [except] block: mark the job as failed; whatever
    this raises is logged and dropped. *)
Definition mark_error (env : Env) (history_id : string) (e : exn) : M unit :=
  try_except
    (history ← history_get_by_id (recovery_lookup_fault env) history_id ;
     match history with
     | Some history =>
         history_update (recovery_utcnow env) (recovery_update_fault env)
           (PPH.set_outcome "Error" ("Error: " +:+ exn_msg e)
              (recovery_utcnow env) history) ;;
         mret tt
     | None => mret tt
     end)
    (fun update_error => mret tt).

Definition process_file_by_history_id (env : Env) (history_id : string)
  : M Summary :=
  try_except (process_body env history_id)
    (fun e =>
       mark_error env history_id e ;;
       raise Exception ("Error al procesar archivo: " +:+ exn_msg e)).

End ProductFileProcessorService.

Module Consumer := ProductFileProcessorService.

(** ** The delivery boundary: ProductProcessorController *)
Module ProductProcessorController.

(** A JSON value as [request.get_json] and [json.loads] return it; the
    items of a dict have distinct keys. *)
#[warnings="-register-all"]
Inductive Json :=
  | JNull
  | JBool (b : bool)
  | JInt (z : Z)
  | JFloat (f : PyFloat)
  | JStr (s : string)
  | JList (items : list Json)
  | JDict (items : list (string * Json)).

(** What the controller reads from outside: the decoding of the data of a
    message, and the answer of the database to a history id that is not a
    text. The database of [Config.DATABASE_URL] is PostgreSQL, which
    refuses to compare the varchar key with a number, a boolean, an array
    or an object; [refused v] is the text of what [get_by_id] raises. *)
Record Wire := {
  decode_data : Json → outcome Json;
    (* json.loads(base64.b64decode(d).decode('utf-8')) *)
  refused : Json → string;
}.

(** [bool(v)] *)
Definition truthy (v : Json) : bool :=
  match v with
  | JNull => false
  | JBool b => b
  | JInt z => negb (z =? 0)%Z
  | JFloat FNaN => true
  | JFloat (FNum q) => negb (Qnum q =? 0)%Z
  | JStr s => negb (PyStr.is_empty s)
  | JList items => match items with [] => false | _ => true end
  | JDict items => match items with [] => false | _ => true end
  end.

(** [type(v).__name__] *)
Definition type_name (v : Json) : string :=
  match v with
  | JNull => "NoneType"
  | JBool _ => "bool"
  | JInt _ => "int"
  | JFloat _ => "float"
  | JStr _ => "str"
  | JList _ => "list"
  | JDict _ => "dict"
  end.

Definition is_text (key : string) (v : Json) : bool :=
  match v with JStr s => String.eqb s key | _ => false end.

Fixpoint assoc (key : string) (items : list (string * Json)) : option Json :=
  match items with
  | [] => None
  | (k, v) :: rest => if String.eqb k key then Some v else assoc key rest
  end.

(** [key in v]: a key of a dict, an item of a list, a part of a text; on
    anything else a [TypeError]. *)
Definition py_in (key : string) (v : Json) : outcome bool :=
  match v with
  | JDict items => Ok (match assoc key items with Some _ => true | None => false end)
  | JList items => Ok (existsb (is_text key) items)
  | JStr s => Ok (PyStr.contains key s)
  | _ => Raise (Exn TypeError
                  ("argument of type '" +:+ type_name v +:+ "' is not iterable"))
  end.

(** [v[key]] for a text [key] *)
Definition py_getitem (v : Json) (key : string) : outcome Json :=
  match v with
  | JDict items =>
      match assoc key items with
      | Some x => Ok x
      | None => Raise (Exn KeyError ("'" +:+ key +:+ "'"))
      end
  | JList _ => Raise (Exn TypeError "list indices must be integers or slices, not str")
  | JStr _ => Raise (Exn TypeError "string indices must be integers, not 'str'")
  | _ => Raise (Exn TypeError ("'" +:+ type_name v +:+ "' object is not subscriptable"))
  end.

(** [v.get(key)] *)
Definition py_get (v : Json) (key : string) : outcome Json :=
  match v with
  | JDict items => Ok (default JNull (assoc key items))
  | _ => Raise (Exn AttributeError
                  ("'" +:+ type_name v +:+ "' object has no attribute 'get'"))
  end.

(** What the controller makes of a push request before it calls the
    service. [Broken e] is an exception of one of its own expressions,
    left to the outer [except]; an event whose history id is a text
    carries it, also when it is the empty one. *)
Inductive Request :=
  | NoJson
  | NoMessage
  | NoData
  | BadData (error : string)
  | Broken (e : exn)
  | NoHistoryId
  | Event (history_id : string)
  | EventOther (history_id : Json) (refusal : string).

(** The checks of [process_products_file] up to the call of the service,
    on the outcome of [request.get_json(force=True)]. *)
Definition receive (wire : Wire) (body : outcome Json) : Request :=
  match body with
  | Raise _ => NoJson
  | Ok pubsub_message =>
      if negb (truthy pubsub_message) then NoJson
      else
        match py_in "message" pubsub_message with
        | Raise e => Broken e
        | Ok false => NoMessage
        | Ok true =>
            match py_getitem pubsub_message "message" with
            | Raise e => Broken e
            | Ok message =>
                match py_in "data" message with
                | Raise e => Broken e
                | Ok false => NoData
                | Ok true =>
                    match py_getitem message "data" ≫= decode_data wire with
                    | Raise e => BadData (exn_msg e)
                    | Ok event_data =>
                        match py_get event_data "history_id" with
                        | Raise e => Broken e
                        | Ok history_id =>
                            if negb (truthy history_id) then NoHistoryId
                            else
                              match history_id with
                              | JStr s => Event s
                              | v => EventOther v (refused wire v)
                              end
                        end
                    end
                end
            end
        end
  end.

Record Response := {
  status_code : nat;
  success : bool;
  message : string;
  data : option Consumer.Summary;
}.

Definition reject (m : string) : Response :=
  {| status_code := 400; success := false; message := m; data := None |}.

(** The answer of the outer [except]. *)
Definition failed (e : exn) : Response :=
  {| status_code := 500; success := false;
     message := "Error al procesar archivo: " +:+ exn_msg e; data := None |}.

(** [process_products_file], from what [receive] made of the request. On a
    history id that is not a text the lookup of the service and the one of
    its [except] branch are both refused, so that the service raises with
    nothing changed. *)
Definition process_products_file (env : Consumer.Env) (req : Request)
  : World → Response * World := fun w =>
  match req with
  | NoJson => (reject (PyStr.of_utf8 "Petición sin contenido JSON"), w)
  | NoMessage => (reject (PyStr.of_utf8 "Formato de mensaje Pub/Sub inválido"), w)
  | NoData => (reject "Mensaje sin data", w)
  | BadData error => (reject ("Error al decodificar mensaje: " +:+ error), w)
  | Broken e => (failed e, w)
  | NoHistoryId => (reject "Evento sin history_id", w)
  | Event history_id =>
      if PyStr.is_empty history_id then (reject "Evento sin history_id", w)
      else
        match Consumer.process_file_by_history_id env history_id w with
        | (Ok result, w') =>
            ({| status_code := 200; success := true;
                message := "Archivo procesado exitosamente";
                data := Some result |}, w')
        | (Raise e, w') =>
            ({| status_code := 500; success := false;
                message := "Error al procesar archivo: " +:+ exn_msg e;
                data := None |}, w')
        end
  | EventOther _ refusal =>
      (failed (Exn Exception ("Error al procesar archivo: " +:+ refusal)), w)
  end.

(** The endpoint on a request. *)
Definition endpoint (env : Consumer.Env) (wire : Wire) (body : outcome Json)
  : World → Response * World :=
  process_products_file env (receive wire body).

End ProductProcessorController.

(** ** Concrete instances, to run the model *)
Module Demo.

Fixpoint digits_value (s : string) (acc : Z) : Z :=
  match s with
  | EmptyString => acc
  | String c r => digits_value r (10 * acc + (Z.of_nat (PyStr.code c) - 48))%Z
  end.

Definition all_digits (s : string) : bool :=
  negb (PyStr.is_empty s) && PyStr.forallb PyStr.isdigit s.

(** ISO dates of the plain shape YYYY-MM-DD, read as the number YYYYMMDD. *)
Definition iso_date (s : string) : option Z :=
  if PyStr.match_shape
       [PyStr.isdigit; PyStr.isdigit; PyStr.isdigit; PyStr.isdigit; PyStr.lit "-";
        PyStr.isdigit; PyStr.isdigit; PyStr.lit "-"; PyStr.isdigit; PyStr.isdigit] s
  then Some (digits_value (String.substring 0 4 s +:+ String.substring 5 2 s
                           +:+ String.substring 8 2 s) 0)
  else None.

Definition int_literal (s : string) : outcome Z :=
  if all_digits (PyStr.strip s) then Ok (digits_value (PyStr.strip s) 0)
  else Raise (Exn ValueError ("invalid literal for int() with base 10: '" +:+ s +:+ "'")).

Definition float_literal (s : string) : outcome PyFloat :=
  if all_digits (PyStr.strip s)
  then Ok (FNum (inject_Z (digits_value (PyStr.strip s) 0)))
  else Raise (Exn ValueError ("could not convert string to float: '" +:+ s +:+ "'")).

(** The library on the cells used below: plain dates, unsigned decimal
    numerals, floats with an integral value. *)
Definition pylib : PyLib :=
  {| fromisoformat := iso_date;
     to_datetime := fun c => match c with CStr s => iso_date s | _ => None end;
     int_of_str := int_literal;
     float_of_str := float_literal;
     float_repr := fun q => pretty (Z.quot (Qnum q) (Z.pos (Qden q))) +:+ ".0";
     float_add := fun f n =>
       match f with
       | FNaN => FNaN
       | FNum q => FNum (Qplus q (inject_Z n))
       end |}.

Definition good_row (code : string) : Row :=
  list_to_map
    [("sku", CStr code); ("name", CStr "Paracetamol 500mg");
     ("expiration_date", CStr "2099-12-31"); ("quantity", CInt 100);
     ("price", CFloat (FNum (5000 # 1))); ("location", CStr "A-01-01");
     ("description", CStr "Analgesico"); ("product_type", CStr "Alto valor");
     ("provider_id", CStr "550e8400-e29b-41d4-a716-446655440000");
     ("photo_filename", CStr "photo.jpg");
     ("photo_url", CStr "https://example.com/photo.jpg")].

(** A file read without its [description] column. *)
Definition row_without_description : Row := delete "description" (good_row "MED-1234").

(** A file read without its [sku] column, with an unreadable date. *)
Definition row_without_sku_bad_date : Row :=
  <["expiration_date" := CStr "soon"]> (delete "sku" (good_row "MED-1234")).

Definition two_rows : DataFrame :=
  range_index [good_row "BAD"; good_row "MED-5678"].

(** A file whose data lines have one field more than its header: pandas
    takes the first column, the shelf names, as the index. *)
Definition rows_by_shelf : DataFrame :=
  [(LStr "north", good_row "MED-1234"); (LStr "south", good_row "MED-5678")].

Definition cfg : Config :=
  {| BUCKET_FOLDER_PROCESSED_PRODUCTS := "processed_products";
     MAX_IMPORT_PRODUCTS := 100 |}.

(** pandas on the files used below, by their content. *)
Definition pd : Pandas :=
  {| read_csv := fun content =>
       if String.eqb content "two rows" then Ok two_rows
       else if String.eqb content "same code twice"
       then Ok (range_index [good_row "MED-1234"; good_row "MED-1234"])
       else if String.eqb content "no description"
       then Ok (range_index [row_without_description])
       else if String.eqb content "101 rows"
       then Ok (range_index (replicate 101 (good_row "MED-0001")))
       else if String.eqb content "rows by shelf" then Ok rows_by_shelf
       else Raise (Exn Exception "No columns to parse from file");
     read_excel := fun _ => Raise (Exn ValueError "Excel file format cannot be determined") |}.

Definition consumer_env : Consumer.Env :=
  {| Consumer.config := cfg; Consumer.pandas := pd; Consumer.lib := pylib;
     Consumer.row_utcnow := fun _ => 20261104%Z;
     Consumer.utcnow := 20261104%Z; Consumer.recovery_utcnow := 20261104%Z;
     Consumer.lookup_fault := None; Consumer.download_fault := None;
     Consumer.insert_fault := fun _ => None;
     Consumer.unique_msg := "duplicate key value violates unique constraint";
     Consumer.update_fault := None;
     Consumer.recovery_lookup_fault := None;
     Consumer.recovery_update_fault := None |}.

(** The same consumer with a database that fails in the except branch. *)
Definition consumer_env_no_recovery : Consumer.Env :=
  {| Consumer.config := cfg; Consumer.pandas := pd; Consumer.lib := pylib;
     Consumer.row_utcnow := fun _ => 20261104%Z;
     Consumer.utcnow := 20261104%Z; Consumer.recovery_utcnow := 20261104%Z;
     Consumer.lookup_fault := None; Consumer.download_fault := None;
     Consumer.insert_fault := fun _ => None;
     Consumer.unique_msg := "duplicate key value violates unique constraint";
     Consumer.update_fault := None;
     Consumer.recovery_lookup_fault := Some "connection refused";
     Consumer.recovery_update_fault := None |}.

Definition job_row (file st : string) (res : option string)
  : HRepo.ProductProcessedHistoryDB :=
  {| HRepo.db_file_name := file; HRepo.db_created_at := 20261101%Z;
     HRepo.db_updated_at := None; HRepo.db_user_id := "user-123";
     HRepo.db_status := st; HRepo.db_result := res |}.

Definition empty_world : World :=
  {| bucket := ∅; history_table := ∅; products_table := []; topic := []; calls := [] |}.

(** One pending job whose file is in the bucket. *)
Definition pending_world (file content : string) : World :=
  {| bucket := {[ "processed_products/" +:+ file :=
                    {| blob_data := content; blob_metadata := [] |} ]};
     history_table := {[ "job-1" := job_row file "En curso" None ]};
     products_table := []; topic := []; calls := [] |}.

(** One finalized job whose file is no longer in the bucket. *)
Definition finalized_world : World :=
  {| bucket := ∅;
     history_table :=
       {[ "job-1" := job_row "stock.csv" "Finalizado" (Some "2/2 productos registrados") ]};
     products_table := []; topic := []; calls := [] |}.

Definition submit_env (publish : option string) : ProductImportService.Env :=
  {| ProductImportService.config := cfg; ProductImportService.pandas := pd;
     ProductImportService.file_uuid := 0x123e4567e89b12d3a456426614174000;
     ProductImportService.history_uuid := 0x9b2c4d6e8f0a4c1eb3d5f7a9c1e3a5b7;
     ProductImportService.utcnow := 20261104%Z;
     ProductImportService.message_id := "m-1";
     ProductImportService.upload_fault := None;
     ProductImportService.create_fault := None;
     ProductImportService.publish_fault := publish |}.

Definition upload (name content : string) : ProductImportService.FileStorage :=
  {| ProductImportService.filename := name; ProductImportService.stream := content |}.

(** The decoding of three payloads: an event for "job-1", the list
    [[1, 2]] and an event whose history id is the number 7. *)
Definition wire : ProductProcessorController.Wire :=
  {| ProductProcessorController.decode_data := fun d =>
       match d with
       | ProductProcessorController.JStr s =>
           if String.eqb s "eyJoaXN0b3J5X2lkIjogImpvYi0xIn0="
           then Ok (ProductProcessorController.JDict
                      [("history_id", ProductProcessorController.JStr "job-1")])
           else if String.eqb s "WzEsIDJd"
           then Ok (ProductProcessorController.JList
                      [ProductProcessorController.JInt 1;
                       ProductProcessorController.JInt 2])
           else if String.eqb s "eyJoaXN0b3J5X2lkIjogN30="
           then Ok (ProductProcessorController.JDict
                      [("history_id", ProductProcessorController.JInt 7)])
           else Raise (Exn ValueError "Incorrect padding")
       | _ => Raise (Exn TypeError
                       ("argument should be a bytes-like object or ASCII string, not '"
                        +:+ ProductProcessorController.type_name d +:+ "'"))
       end;
     ProductProcessorController.refused := fun _ =>
       "Error al obtener registro de historial por ID: "
       +:+ "operator does not exist: character varying = integer" |}.

(** A push request with the given data. *)
Definition push (d : string) : outcome ProductProcessorController.Json :=
  Ok (ProductProcessorController.JDict
        [("message", ProductProcessorController.JDict
                       [("data", ProductProcessorController.JStr d);
                        ("messageId", ProductProcessorController.JStr "1")]);
         ("subscription", ProductProcessorController.JStr "products-import-sub")]).

End Demo.


(** ** Notions the statements below are phrased with *)

(** The bounds of the three text fields of an import job. *)
Definition within_bounds (file_name user_id status : string) : Prop :=
  (1 ≤ String.length file_name ≤ 100)%nat
  ∧ (1 ≤ String.length user_id ≤ 36)%nat
  ∧ (1 ≤ String.length status ≤ 20)%nat.

Definition model_bounds (h : PPH.t) : Prop :=
  within_bounds (PPH.file_name h) (PPH.user_id h) (PPH.status h).

Definition row_bounds (r : HRepo.ProductProcessedHistoryDB) : Prop :=
  within_bounds (HRepo.db_file_name r) (HRepo.db_user_id r) (HRepo.db_status r).

(** The three validations of a submission all pass. *)
Definition validated (env : ProductImportService.Env)
    (file : ProductImportService.FileStorage) (user_id : string) : Prop :=
  ProductImportService._validate_required_fields file user_id = Ok tt
  ∧ ProductImportService._validate_file_type file = Ok tt
  ∧ ProductImportService._validate_records_count env file = Ok tt.

(** The job the handler asks the repository to create. *)
Definition new_history (env : ProductImportService.Env) (new_filename user_id : string)
  : PPH.t :=
  {| PPH.id := None; PPH.file_name := new_filename; PPH.user_id := user_id;
     PPH.status := "En curso"; PPH.result := None;
     PPH.created_at := ProductImportService.utcnow env; PPH.updated_at := None |}.

(** The calls of a complete submission, in order. *)
Definition submission_calls (env : ProductImportService.Env)
    (file : ProductImportService.FileStorage) (job_id : string) : list Call :=
  let new_filename :=
    _generate_new_filename (ProductImportService.filename file)
      (ProductImportService.file_uuid env) in
  [CallUpload (BUCKET_FOLDER_PROCESSED_PRODUCTS (ProductImportService.config env)
               +:+ "/" +:+ new_filename);
   CallCreateHistory new_filename;
   CallPublish job_id].


(** Ingestion of one row: the product is built from the row, then handed
    to the repository. *)
Definition ingest (env : Consumer.Env) (index : nat) (row : Row) : M unit :=
  product ← lift (Consumer._create_product_from_row (Consumer.lib env) row) ;
  Consumer.product_repository_create env index product.

(** A row that failed: its position in the frame, its index label and the
    exception. *)
Record Failure := { f_position : nat; f_label : Label; f_exn : exn }.

(** The rows of [df] whose ingestion fails, in file order; the first row
    is at position [index] and every row meets the table the rows before
    it left. *)
Fixpoint failed_rows (env : Consumer.Env) (index : nat) (df : DataFrame)
    (w : World) : list Failure :=
  match df with
  | [] => []
  | (label, row) :: rest =>
      match ingest env index row w with
      | (Ok _, w') => failed_rows env (S index) rest w'
      | (Raise e, w') =>
          {| f_position := index; f_label := label; f_exn := e |}
          :: failed_rows env (S index) rest w'
      end
  end.

(** The world once every row of [df] has been tried. *)
Fixpoint world_after (env : Consumer.Env) (index : nat) (df : DataFrame)
    (w : World) : World :=
  match df with
  | [] => w
  | (_, row) :: rest => world_after env (S index) rest (ingest env index row w).2
  end.

(** The text of [index + 2] for a label that can be added to. *)
Definition label_text (lib : PyLib) (index : Label) : string :=
  match index_plus_2 lib index with Ok t => t | Raise _ => "" end.

Definition error_line (lib : PyLib) (f : Failure) : string :=
  Consumer.error_message (label_text lib (f_label f)) (f_exn f).

(** The [TypeError] of the first label of [df] that cannot be added to. *)
Fixpoint first_label_error (lib : PyLib) (df : DataFrame) : option exn :=
  match df with
  | [] => None
  | (index, _) :: rest =>
      match index_plus_2 lib index with
      | Raise e => Some e
      | Ok _ => first_label_error lib rest
      end
  end.

(** The rows the loop gets to: all of them, or those up to and including
    the first whose label cannot be added to. *)
Fixpoint tried (lib : PyLib) (df : DataFrame) : DataFrame :=
  match df with
  | [] => []
  | (index, row) :: rest =>
      if is_ok (index_plus_2 lib index) then (index, row) :: tried lib rest
      else [(index, row)]
  end.

(** Where the consumer looks for the file of a job. *)
Definition blob_path (env : Consumer.Env) (file_name : string) : string :=
  let folder := BUCKET_FOLDER_PROCESSED_PRODUCTS (Consumer.config env) in
  if PyStr.is_empty folder then file_name else folder +:+ "/" +:+ file_name.

(** The job as the except branch rewrites it. *)
Definition marked_failed (env : Consumer.Env) (history_id : string) (e : exn)
    (row : HRepo.ProductProcessedHistoryDB) : PPH.t :=
  PPH.set_outcome "Error" ("Error: " +:+ exn_msg e) (Consumer.recovery_utcnow env)
    (HRepo._db_to_model history_id row).

(** Invocations of the two services, and a run of them. *)
Inductive Invocation :=
  | Submit (env : ProductImportService.Env)
      (file : ProductImportService.FileStorage) (user_id : string)
  | Consume (env : Consumer.Env) (history_id : string).

Definition invoke (w : World) (op : Invocation) : World :=
  match op with
  | Submit env file user_id =>
      (ProductImportService.import_products_file env file user_id w).2
  | Consume env history_id =>
      (Consumer.process_file_by_history_id env history_id w).2
  end.

Definition run (ops : list Invocation) (w : World) : World := foldl invoke w ops.

(** The two final states of a job. *)
Definition terminal (st : string) : Prop := st = "Finalizado" ∨ st = "Error".

(** A job row before and after: untouched, or closed (a final status and a
    result) with its file, user and creation date kept. *)
Definition same_or_closed (r r' : HRepo.ProductProcessedHistoryDB) : Prop :=
  r' = r
  ∨ (terminal (HRepo.db_status r') ∧ is_Some (HRepo.db_result r')
     ∧ HRepo.db_file_name r' = HRepo.db_file_name r
     ∧ HRepo.db_user_id r' = HRepo.db_user_id r
     ∧ HRepo.db_created_at r' = HRepo.db_created_at r).

(** The columns [_create_product_from_row] reads with [row[...]]. *)
Definition required_columns : list string :=
  ["sku"; "name"; "expiration_date"; "quantity"; "price"; "location";
   "product_type"; "provider_id"].


(** The date, quantity and price cells of the row, where present, convert. *)
Definition conversions_ok (l : PyLib) (row : Row) : Prop :=
  (∀ c, row !! "expiration_date" = Some c →
        is_ok (Consumer.parse_expiration_date l c) = true)
  ∧ (∀ c, row !! "quantity" = Some c → is_ok (py_int l c) = true)
  ∧ (∀ c, row !! "price" = Some c → is_ok (py_float l c) = true).

(** One row against the products table alone: the product is built, then
    created. *)
Definition row_step (env : Consumer.Env) (index : nat) (row : Row)
    (t : list Product) : outcome unit * list Product :=
  match Consumer._create_product_from_row (Consumer.lib env) row with
  | Raise e => (Raise e, t)
  | Ok p =>
      ProductRepository.create (Consumer.row_utcnow env index)
        (Consumer.insert_fault env index) (Consumer.unique_msg env) p t
  end.

(** The products table once every row of [df] has been tried. *)
Fixpoint table_after (env : Consumer.Env) (index : nat) (df : DataFrame)
    (t : list Product) : list Product :=
  match df with
  | [] => t
  | (_, row) :: rest => table_after env (S index) rest (row_step env index row t).2
  end.

(** The codes of the products table. *)
Definition skus (t : list Product) : list string := sku <$> t.

Definition any_char : ascii → bool := fun _ => true.

(** The form of a code as stored: MED- and four more characters, nothing
    else. *)
Definition sku_shape (s : string) : bool :=
  PyStr.match_shape [PyStr.lit "M"; PyStr.lit "E"; PyStr.lit "D"; PyStr.lit "-";
                     any_char; any_char; any_char; any_char] s.

(** The job row a successful consumption leaves. *)
Definition finalized_row (env : Consumer.Env) (res : string)
    (row : HRepo.ProductProcessedHistoryDB) : HRepo.ProductProcessedHistoryDB :=
  {| HRepo.db_file_name := HRepo.db_file_name row;
     HRepo.db_created_at := HRepo.db_created_at row;
     HRepo.db_updated_at := Some (Consumer.utcnow env);
     HRepo.db_user_id := HRepo.db_user_id row;
     HRepo.db_status := "Finalizado";
     HRepo.db_result := Some res |}.

(** The job row a successful submission leaves. *)
Definition pending_row (env : ProductImportService.Env) (key user_id : string)
  : HRepo.ProductProcessedHistoryDB :=
  {| HRepo.db_file_name := key;
     HRepo.db_created_at := ProductImportService.utcnow env;
     HRepo.db_updated_at := None;
     HRepo.db_user_id := user_id;
     HRepo.db_status := "En curso";
     HRepo.db_result := None |}.

(** The blob a successful upload leaves, and where. *)
Definition upload_path (env : ProductImportService.Env) (key : string) : string :=
  BUCKET_FOLDER_PROCESSED_PRODUCTS (ProductImportService.config env) +:+ "/" +:+ key.

Definition uploaded_blob (env : ProductImportService.Env)
    (file : ProductImportService.FileStorage) : Blob :=
  {| blob_data := ProductImportService.stream file;
     blob_metadata := ProductImportService.upload_metadata env file |}.

(** The event a successful submission publishes. *)
Definition import_event (env : ProductImportService.Env) (history_id : string)
  : ImportEvent :=
  {| ev_history_id := history_id; ev_event_type := "product_import";
     ev_timestamp := ProductImportService.utcnow env |}.

(** The world a complete submission leaves. *)
Definition submitted_world (env : ProductImportService.Env)
    (file : ProductImportService.FileStorage) (user_id : string)
    (w : World) : World :=
  let key := _generate_new_filename (ProductImportService.filename file)
               (ProductImportService.file_uuid env) in
  let job_id := Uuid.to_str (ProductImportService.history_uuid env) in
  {| bucket := <[upload_path env key := uploaded_blob env file]> (bucket w);
     history_table := <[job_id := pending_row env key user_id]> (history_table w);
     products_table := products_table w;
     topic := topic w ++ [import_event env job_id];
     calls := calls w ++ submission_calls env file job_id |}.

(** Whether the last character of a string is white space. *)
Fixpoint last_is_space (s : string) : bool :=
  match s with
  | EmptyString => false
  | String c EmptyString => PyStr.isspace c
  | String _ r => last_is_space r
  end.

(** The form of a location as stored: a capital from A to Z and two pairs
    of characters, with dashes between them. *)
Definition location_shape (s : string) : bool :=
  PyStr.match_shape [PyStr.isupper_ascii; PyStr.lit "-"; any_char; any_char;
                     PyStr.lit "-"; any_char; any_char] s.

(** A product that a row of the consumer [env] produced and that passed
    the validation of the repository when that row was processed. *)
Definition built_and_valid (env : Consumer.Env) (p : Product) : Prop :=
  ∃ index row,
    Consumer._create_product_from_row (Consumer.lib env) row = Ok p
    ∧ ProductModel.validate (Consumer.row_utcnow env index) p = Ok tt.

(** The requests the delivery endpoint rejects itself. *)
Definition rejected (req : ProductProcessorController.Request) : Prop :=
  match req with
  | ProductProcessorController.NoJson
  | ProductProcessorController.NoMessage
  | ProductProcessorController.NoData
  | ProductProcessorController.BadData _
  | ProductProcessorController.NoHistoryId => True
  | ProductProcessorController.Event history_id => history_id = ""
  | _ => False
  end.

(** A JSON value that is neither a text nor a collection. *)
Definition scalar (v : ProductProcessorController.Json) : bool :=
  match v with
  | ProductProcessorController.JNull
  | ProductProcessorController.JBool _
  | ProductProcessorController.JInt _
  | ProductProcessorController.JFloat _ => true
  | _ => false
  end.

(** * Properties *)

(** ** Strings and file names *)
Section filenames.
Import PyStr.

Lemma is_dot_true c : is_dot c = true ↔ c = "."%char.
Proof. unfold is_dot. apply Ascii.eqb_eq. Qed.

Lemma append_assoc' (a b c : string) : (a +:+ b) +:+ c = a +:+ (b +:+ c).
Proof. induction a as [|x a IH]; simpl; [done | by f_equal]. Qed.

Lemma contains_dot_app a b :
  contains_dot (a +:+ b) = contains_dot a || contains_dot b.
Proof.
  induction a as [|x a IH]; simpl; [done |].
  rewrite IH. by rewrite orb_assoc.
Qed.

(** A name with a dot is its base, the dot, and its extension. *)
Lemma split_at_last_dot s :
  contains_dot s = true →
  s = before_last_dot s +:+ "." +:+ after_last_dot s.
Proof.
  induction s as [|c r IH]; simpl; [done |].
  destruct (contains_dot r) eqn:Hr.
  - intros _. simpl. f_equal. by apply IH.
  - rewrite orb_false_r. intros Hc. rewrite Hc. simpl.
    apply is_dot_true in Hc. by subst c.
Qed.

Lemma after_last_dot_no_dot s : contains_dot (after_last_dot s) = false.
Proof.
  induction s as [|c r IH]; simpl; [done |].
  destruct (contains_dot r) eqn:Hr; [done |].
  destruct (is_dot c) eqn:Hc; [done |].
  simpl. by rewrite Hc, Hr.
Qed.

Lemma after_last_dot_id s : contains_dot s = false → after_last_dot s = s.
Proof.
  induction s as [|c r IH]; simpl; [done |].
  intros [Hc Hr]%orb_false_iff. by rewrite Hr, Hc.
Qed.

(** What follows the last dot of [a.t] is [t] when [t] has no dot. *)
Lemma after_last_dot_app a t :
  contains_dot t = false → after_last_dot (a +:+ "." +:+ t) = t.
Proof.
  intros Ht. induction a as [|c a IH]; simpl.
  - by rewrite Ht.
  - rewrite contains_dot_app. simpl. by rewrite orb_true_r.
Qed.

Lemma lower_char_dot c : is_dot (lower_char c) = is_dot c.
Proof. destruct c as [[] [] [] [] [] [] [] []]; vm_compute; reflexivity. Qed.

Lemma contains_dot_lower s : contains_dot (lower s) = contains_dot s.
Proof.
  induction s as [|c r IH]; simpl; [done |].
  by rewrite lower_char_dot, IH.
Qed.

Lemma after_last_dot_lower s : after_last_dot (lower s) = lower (after_last_dot s).
Proof.
  induction s as [|c r IH]; simpl; [done |].
  rewrite contains_dot_lower, lower_char_dot.
  destruct (contains_dot r); [done |]. by destruct (is_dot c).
Qed.

Lemma is_empty_false s : is_empty s = false ↔ s ≠ "".
Proof. destruct s; simpl; split; congruence. Qed.

Lemma is_empty_true s : is_empty s = true ↔ s = "".
Proof. destruct s; simpl; split; congruence. Qed.

End filenames.

(** The key generated from a name that contains a dot and has a non-empty
    part after its last dot is [<base>_<uuid>.<ext>] with [<ext>] that
    part; the key has the same part after its own last dot, and the same
    lower-cased extension. *)
Lemma generated_key_form (original : string) (u : N) :
  PyStr.contains_dot original = true →
  PyStr.after_last_dot original ≠ "" →
  let key := _generate_new_filename original u in
  key = PyStr.before_last_dot original +:+ "_" +:+ Uuid.to_str u +:+ "."
        +:+ PyStr.after_last_dot original
  ∧ PyStr.after_last_dot key = PyStr.after_last_dot original
  ∧ extension_of key = extension_of original.
Proof.
  intros Hdot Hext key.
  assert (Hkey : key = (PyStr.before_last_dot original +:+ "_" +:+ Uuid.to_str u)
                       +:+ "." +:+ PyStr.after_last_dot original).
  { unfold key, _generate_new_filename. rewrite Hdot.
    apply is_empty_false in Hext. rewrite Hext. simpl negb. cbv iota.
    by rewrite !append_assoc'. }
  assert (Hlast : PyStr.after_last_dot key = PyStr.after_last_dot original).
  { rewrite Hkey. apply after_last_dot_app, after_last_dot_no_dot. }
  split; [| split].
  - rewrite Hkey. by rewrite !append_assoc'.
  - done.
  - unfold extension_of. by rewrite !after_last_dot_lower, Hlast.
Qed.

Example after_last_dot_samples :
  PyStr.after_last_dot "a.b.c" = "c" ∧ PyStr.after_last_dot "abc" = "abc"
  ∧ PyStr.before_last_dot "a.b.c" = "a.b" ∧ extension_of "Stock.XLSX" = "xlsx"
  ∧ PyStr.strip "  MED-1234 " = "MED-1234".
Proof. vm_compute. repeat split. Qed.

(** A name that ends with a dot has an empty part after its last dot:
    [if extension:] gives its key no dot at all. The handler never
    generates a key for such a name, [_validate_file_type] rejects it
    first. *)
Example name_ending_in_a_dot :
  let original := "stock.v2." in
  let u := 0x123e4567e89b12d3a456426614174000%N in
  PyStr.contains_dot original = true
  ∧ _generate_new_filename original u = "stock.v2_123e4567-e89b-12d3-a456-426614174000"
  ∧ extension_of original = ""
  ∧ ProductImportService._validate_file_type
      {| ProductImportService.filename := original; ProductImportService.stream := "" |}
    = Raise (Exn ValidationError "Solo se permiten archivos CSV/Excel").
Proof. vm_compute. repeat split. Qed.

(** ** The history model and its repository *)

Lemma length_is_empty s : PyStr.is_empty s = false ↔ (1 ≤ String.length s)%nat.
Proof. destruct s; simpl; split; (congruence || lia). Qed.

Lemma validate_ok h : PPH.validate h = Ok tt ↔ model_bounds h.
Proof.
  unfold PPH.validate, PPH.value_error, model_bounds, within_bounds.
  destruct (PyStr.is_empty (PPH.file_name h)) eqn:E1.
  { split; [done |]. intros ((H & _) & _). apply length_is_empty in H. congruence. }
  destruct (PyStr.is_empty (PPH.user_id h)) eqn:E2.
  { split; [done |]. intros (_ & (H & _) & _). apply length_is_empty in H. congruence. }
  destruct (PyStr.is_empty (PPH.status h)) eqn:E3.
  { split; [done |]. intros (_ & _ & (H & _)). apply length_is_empty in H. congruence. }
  apply length_is_empty in E1, E2, E3.
  destruct (Nat.ltb_spec 100 (String.length (PPH.file_name h))).
  { split; [done | lia]. }
  destruct (Nat.ltb_spec 36 (String.length (PPH.user_id h))).
  { split; [done | lia]. }
  destruct (Nat.ltb_spec 20 (String.length (PPH.status h))).
  { split; [done | lia]. }
  split; [lia | done].
Qed.

Lemma validate_value_error h e : PPH.validate h = Raise e → exn_cls e = ValueError.
Proof.
  unfold PPH.validate, PPH.value_error.
  repeat match goal with |- context [if ?b then _ else _] => destruct b end;
    intros [= <-]; done.
Qed.

Lemma validate_rejects h :
  ¬ model_bounds h → ∃ m, PPH.validate h = Raise (Exn ValueError m).
Proof.
  intros Hb. destruct (PPH.validate h) as [[] | [c m]] eqn:E.
  - by apply validate_ok in E.
  - apply validate_value_error in E as Hc. simpl in Hc. subst c. by exists m.
Qed.

Lemma create_spec new_uuid fault h t :
  let res := HRepo.create new_uuid fault h t in
  (∀ k row, res.2 !! k = Some row → t !! k = Some row ∨ row_bounds row)
  ∧ (¬ model_bounds h → res.2 = t ∧ ∃ m, res.1 = Raise (Exn ValueError m)).
Proof.
  unfold HRepo.create. split.
  - intros k row. destruct (PPH.validate h) as [[] |] eqn:E; simpl; [| by left].
    apply validate_ok in E.
    destruct fault; simpl; [by left |].
    match goal with |- context [t !! ?key] => destruct (t !! key) eqn:Hk; set (K := key) in * end;
      simpl; [by left |].
    destruct (decide (K = k)) as [<- | Hne].
    + rewrite lookup_insert_eq. intros [= <-]. right. exact E.
    + rewrite lookup_insert_ne by done. by left.
  - intros Hb. destruct (validate_rejects h Hb) as [m ->]. simpl. eauto.
Qed.

Lemma update_spec now fault h t :
  let res := HRepo.update now fault h t in
  (∀ k row, res.2 !! k = Some row → t !! k = Some row ∨ row_bounds row)
  ∧ (¬ model_bounds h → res.2 = t ∧ ∃ m, res.1 = Raise (Exn ValueError m)).
Proof.
  unfold HRepo.update. split.
  - intros k row. destruct (PPH.validate h) as [[] |] eqn:E; simpl; [| by left].
    apply validate_ok in E.
    destruct fault; simpl; [by left |].
    destruct (PPH.id h) as [key |]; simpl; [| by left].
    destruct (t !! key) eqn:Hk; simpl; [| by left].
    destruct (decide (key = k)) as [<- | Hne].
    + rewrite lookup_insert_eq. intros [= <-]. right. exact E.
    + rewrite lookup_insert_ne by done. by left.
  - intros Hb. destruct (validate_rejects h Hb) as [m ->]. simpl. eauto.
Qed.

(** C9. Whatever [create] or [update] leaves in the history table that was
    not there before satisfies the bounds (file_name 1..100, user_id 1..36,
    status 1..20 characters); and a record that violates a bound is
    rejected with [ValueError], the table being left as it was. *)
Theorem C9_persisted_jobs_within_bounds
    (new_uuid : N) (now : Z) (fault : option string) (h : PPH.t)
    (t : gmap string HRepo.ProductProcessedHistoryDB) :
  let created := HRepo.create new_uuid fault h t in
  let updated := HRepo.update now fault h t in
  (∀ k row, created.2 !! k = Some row → t !! k = Some row ∨ row_bounds row)
  ∧ (∀ k row, updated.2 !! k = Some row → t !! k = Some row ∨ row_bounds row)
  ∧ (¬ model_bounds h →
     (created.2 = t ∧ ∃ m, created.1 = Raise (Exn ValueError m))
     ∧ (updated.2 = t ∧ ∃ m, updated.1 = Raise (Exn ValueError m))).
Proof.
  intros created updated.
  destruct (create_spec new_uuid fault h t) as [Hc1 Hc2].
  destruct (update_spec now fault h t) as [Hu1 Hu2].
  repeat split; auto; try (apply Hc2; assumption); try (apply Hu2; assumption).
Qed.

Lemma C9_witness :
  let h := {| PPH.id := Some "job-1"; PPH.file_name := "stock.csv";
              PPH.user_id := "user-123";
              PPH.status := "Finalizado con observaciones";
              PPH.result := None; PPH.created_at := 0; PPH.updated_at := None |} in
  let t : gmap string HRepo.ProductProcessedHistoryDB :=
    {[ "job-1" := Demo.job_row "stock.csv" "En curso" None ]} in
  ¬ model_bounds h
  ∧ (HRepo.create 1 None h t).2 = t
  ∧ (HRepo.update 0 None h t).2 = t.
Proof.
  intros h t.
  assert (Hb : ¬ model_bounds h).
  { unfold model_bounds, within_bounds. simpl. lia. }
  destruct (C9_persisted_jobs_within_bounds 1 0 None h t) as (_ & _ & H).
  destruct (H Hb) as [[H1 _] [H2 _]].
  split; [exact Hb | split; assumption].
Defined.

(** ** The submission handler *)
Section submission.
Import ProductImportService.

Lemma required_fields_cls file user_id e :
  _validate_required_fields file user_id = Raise e → exn_cls e = ValidationError.
Proof.
  unfold _validate_required_fields.
  repeat match goal with |- context [if ?b then _ else _] => destruct b end;
    intros [= <-]; done.
Qed.

Lemma file_type_cls file e :
  _validate_file_type file = Raise e → exn_cls e = ValidationError.
Proof.
  unfold _validate_file_type.
  repeat match goal with |- context [if ?b then _ else _] => destruct b end;
    intros [= <-]; done.
Qed.

Lemma records_count_cls env file e :
  _validate_records_count env file = Raise e → exn_cls e = ValidationError.
Proof.
  unfold _validate_records_count.
  destruct (read_by_extension _ _ _) as [[df | e'] |].
  - destruct (_ <? _)%nat; [intros [= <-]; done | done].
  - destruct (exn_cls e') eqn:E; intros [= <-]; done.
  - intros [= <-]; done.
Qed.

Lemma records_count_too_many env file df :
  read_by_extension (pandas env) (extension_of (filename file)) (stream file)
    = Some (Ok df) →
  (MAX_IMPORT_PRODUCTS (config env) < length df)%nat →
  _validate_records_count env file
  = Raise (Exn ValidationError (too_many_msg (MAX_IMPORT_PRODUCTS (config env)) (length df))).
Proof.
  intros Hread Hlt. unfold _validate_records_count. rewrite Hread.
  apply Nat.ltb_lt in Hlt. by rewrite Hlt.
Qed.

(** The steps after validation, as [import_products_file] chains them. *)
Lemma import_unfold env file user_id w :
  import_products_file env file user_id w =
  match _validate_required_fields file user_id with
  | Raise e => (Raise e, w)
  | Ok _ =>
    match _validate_file_type file with
    | Raise e => (Raise e, w)
    | Ok _ =>
      match _validate_records_count env file with
      | Raise e => (Raise e, w)
      | Ok _ =>
        let new_filename := _generate_new_filename (filename file) (file_uuid env) in
        match _upload_file_to_storage env file new_filename w with
        | (Raise e, w1) => (Raise e, w1)
        | (Ok _, w1) =>
          match _create_history_record env new_filename user_id w1 with
          | (Raise e, w2) => (Raise e, w2)
          | (Ok history, w2) =>
            match _publish_import_event env (default "" (PPH.id history)) w2 with
            | (Raise e, w3) => (Raise e, w3)
            | (Ok _, w3) =>
                (Ok (default "" (PPH.id history), "Archivo cargado exitosamente"), w3)
            end
          end
        end
      end
    end
  end.
Proof.
  unfold import_products_file, try_except, mbind, M_bind, lift, mret, M_ret, raise.
  destruct (_validate_required_fields file user_id) as [[] | e] eqn:E1.
  2:{ by rewrite (required_fields_cls _ _ _ E1). }
  destruct (_validate_file_type file) as [[] | e] eqn:E2.
  2:{ by rewrite (file_type_cls _ _ E2). }
  destruct (_validate_records_count env file) as [[] | e] eqn:E3.
  2:{ by rewrite (records_count_cls _ _ _ E3). }
  cbv zeta.
  destruct (_upload_file_to_storage _ _ _ w) as [[[] | e] w1] eqn:E4.
  2:{ revert E4. unfold _upload_file_to_storage, try_except, raise.
      destruct (upload_fault env); intros [= <- <-]; done. }
  destruct (_create_history_record _ _ _ w1) as [[h | e] w2] eqn:E5.
  2:{ revert E5. unfold _create_history_record, try_except, raise.
      destruct (HRepo.create _ _ _ _) as [[?|?] ?]; intros [= <- <-]; done. }
  destruct (_publish_import_event _ _ w2) as [[[] | e] w3] eqn:E6; [done |].
  revert E6. unfold _publish_import_event, try_except, raise.
  destruct (PubSubService.publish_product_import_event _ _ _ _ _) as [[?|?] ?];
    intros [= <- <-]; done.
Qed.

(** C4. A submission whose file parses to more rows than the configured
    maximum is rejected with [ValidationError] and leaves the world as it
    was: no blob written, no job created, no event published, no call made.
    When the submission got as far as the count (its required fields and
    its file type were accepted) the message carries the limit and the
    count. *)
Theorem C4_row_cap_rejected_without_effects
    (env : Env) (file : FileStorage) (user_id : string) (w : World)
    (df : DataFrame) :
  read_by_extension (pandas env) (extension_of (filename file)) (stream file)
    = Some (Ok df) →
  (MAX_IMPORT_PRODUCTS (config env) < length df)%nat →
  let res := import_products_file env file user_id w in
  res.2 = w
  ∧ (∃ m, res.1 = Raise (Exn ValidationError m))
  ∧ (_validate_required_fields file user_id = Ok tt →
     _validate_file_type file = Ok tt →
     res.1 = Raise (Exn ValidationError
                      (too_many_msg (MAX_IMPORT_PRODUCTS (config env)) (length df)))).
Proof.
  intros Hread Hlt res. unfold res. rewrite import_unfold.
  rewrite (records_count_too_many env file df Hread Hlt).
  destruct (_validate_required_fields file user_id) as [[] | [c m]] eqn:E1.
  2:{ apply required_fields_cls in E1. simpl in E1. subst c.
      repeat split; eauto. intros [=]. }
  destruct (_validate_file_type file) as [[] | [c m]] eqn:E2.
  2:{ apply file_type_cls in E2. simpl in E2. subst c.
      repeat split; eauto. intros _ [=]. }
  repeat split; eauto.
Qed.

Lemma C4_witness :
  import_products_file (Demo.submit_env None) (Demo.upload "stock.csv" "101 rows")
    "user-123" Demo.empty_world
  = (Raise (Exn ValidationError
      "Solo se permiten cargar 100 productos. El archivo contiene 101 registros"),
     Demo.empty_world).
Proof.
  destruct (C4_row_cap_rejected_without_effects (Demo.submit_env None)
              (Demo.upload "stock.csv" "101 rows") "user-123" Demo.empty_world
              (range_index (replicate 101 (Demo.good_row "MED-0001"))))
    as (Hw & _ & Hmsg).
  - reflexivity.
  - unfold range_index. rewrite length_imap, length_replicate. simpl. lia.
  - rewrite (surjective_pairing (import_products_file _ _ _ _)).
    rewrite Hw, Hmsg; [| reflexivity | reflexivity].
    unfold range_index. rewrite length_imap, length_replicate. reflexivity.
Defined.

Lemma create_ok new_uuid fault h t h' t' :
  HRepo.create new_uuid fault h t = (Ok h', t') →
  ∃ key, PPH.id h' = Some key ∧ t !! key = None
         ∧ t' = <[key := HRepo._model_to_db h']> t
         ∧ h' = PPH.set_id (Some key) h.
Proof.
  unfold HRepo.create. destruct (PPH.validate h); [| done].
  destruct fault; [done |].
  match goal with |- context [t !! ?key] => destruct (t !! key) eqn:Hk; set (K := key) in * end;
    [done |].
  intros [= <- <-]. exists K. done.
Qed.

Lemma validated_dec env file user_id :
  validated env file user_id ∨ ¬ validated env file user_id.
Proof.
  unfold validated.
  destruct (_validate_required_fields file user_id) as [[] |];
    [| right; intros (? & _); done].
  destruct (_validate_file_type file) as [[] |];
    [| right; intros (_ & ? & _); done].
  destruct (_validate_records_count env file) as [[] |];
    [left; done | right; intros (_ & _ & ?); done].
Qed.



Lemma file_type_ok_inv file :
  _validate_file_type file = Ok tt ↔
  PyStr.contains_dot (filename file) = true
  ∧ extension_of (filename file) ∈ allowed_extensions.
Proof.
  unfold _validate_file_type.
  destruct (PyStr.is_empty (filename file)) eqn:He.
  { apply is_empty_true in He. cbn [orb]. split; [done |].
    intros [Hdot _]. by rewrite He in Hdot. }
  destruct (PyStr.contains_dot (filename file)); cbn [negb orb];
    [| split; [done | by intros [? _]]].
  case_bool_decide; split; try done. by intros [_ ?].
Qed.

Lemma allowed_extension_nonempty name :
  extension_of name ∈ allowed_extensions → PyStr.after_last_dot name ≠ "".
Proof.
  unfold extension_of. rewrite after_last_dot_lower. intros Hin Hempty.
  rewrite Hempty in Hin. cbn [PyStr.lower] in Hin. unfold allowed_extensions in Hin.
  repeat (apply elem_of_cons in Hin as [Hin | Hin]; [done |]).
  by apply elem_of_nil in Hin.
Qed.

(** The parser of an accepted extension exists. *)
Lemma allowed_extension_parser pd ext content :
  ext ∈ allowed_extensions →
  read_by_extension pd ext content
  = Some (if String.eqb ext "csv" then read_csv pd content else read_excel pd content).
Proof.
  unfold allowed_extensions. intros Hin.
  repeat (apply elem_of_cons in Hin as [-> | Hin]); [done | done | done |].
  by apply elem_of_nil in Hin.
Qed.

(** C10. [_generate_new_filename] is called once, by
    [import_products_file], after [_validate_file_type] has accepted the
    file. For every file name that check accepts, the name contains a dot
    and the generated key is [<base>_<uuid>.<ext>], [<ext>] being the part
    of the name after its last dot. The key ends in the same part, so the
    extension the consumer reads from the key is the one the handler read
    from the name, csv, xls or xlsx, and both select the same parser. *)
Theorem C10_generated_key_keeps_extension (file : FileStorage) (u : N) :
  _validate_file_type file = Ok tt →
  let original := filename file in
  let key := _generate_new_filename original u in
  PyStr.contains_dot original = true
  ∧ key = PyStr.before_last_dot original +:+ "_" +:+ Uuid.to_str u +:+ "."
          +:+ PyStr.after_last_dot original
  ∧ PyStr.after_last_dot key = PyStr.after_last_dot original
  ∧ extension_of key = extension_of original
  ∧ extension_of key ∈ allowed_extensions
  ∧ ∀ pd content,
      read_by_extension pd (extension_of key) content
      = read_by_extension pd (extension_of original) content
      ∧ is_Some (read_by_extension pd (extension_of key) content).
Proof.
  intros Htype. cbv zeta.
  apply file_type_ok_inv in Htype as [Hdot Hext].
  pose proof (allowed_extension_nonempty _ Hext) as Hafter.
  destruct (generated_key_form (filename file) u Hdot Hafter) as (Hkey & Hlast & Hsame).
  split; [exact Hdot |]. split; [exact Hkey |]. split; [exact Hlast |].
  split; [exact Hsame |]. rewrite Hsame. split; [exact Hext |].
  intros pd content. split; [done |].
  rewrite (allowed_extension_parser pd _ content Hext). by eexists.
Qed.

Lemma C10_witness :
  _generate_new_filename "stock.v2.CSV" 0x123e4567e89b12d3a456426614174000
  = "stock.v2_123e4567-e89b-12d3-a456-426614174000.CSV"
  ∧ extension_of (_generate_new_filename "stock.v2.CSV"
                    0x123e4567e89b12d3a456426614174000) = "csv".
Proof.
  destruct (C10_generated_key_keeps_extension
              {| filename := "stock.v2.CSV"; stream := "" |}
              0x123e4567e89b12d3a456426614174000) as (_ & H1 & _ & H3 & _).
  - vm_compute. reflexivity.
  - cbn [filename] in H1, H3. split.
    + rewrite H1. vm_compute. reflexivity.
    + rewrite H3. vm_compute. reflexivity.
Defined.

End submission.

(** ** The import consumer *)
Section consumption.
Import ProductFileProcessorService.

Lemma exn_msg_Exn c m : exn_msg (Exn c m) = m.
Proof. reflexivity. Qed.

Lemma with_products_id w : with_products (products_table w) w = w.
Proof. by destruct w. Qed.

Lemma with_history_id w : with_history (history_table w) w = w.
Proof. by destruct w. Qed.

(** A row touches the products table only. *)
Lemma ingest_frame env index row w :
  ∃ t, (ingest env index row w).2 = with_products t w.
Proof.
  unfold ingest, mbind, M_bind, lift, product_repository_create.
  destruct (_create_product_from_row _ _) as [p | e].
  - destruct (ProductRepository.create _ _ _ _ _) as [[] t]; by exists t.
  - exists (products_table w). by rewrite with_products_id.
Qed.

Lemma process_row_ingest env position index row s f errs w :
  process_row env position index row (s, f, errs) w =
  match index_plus_2 (lib env) index with
  | Raise e => (Raise e, (ingest env position row w).2)
  | Ok label =>
      match ingest env position row w with
      | (Ok _, w') => (Ok (s + 1, f, errs), w')
      | (Raise e, w') => (Ok (s, f + 1, errs ++ [error_message label e]), w')
      end
  end.
Proof.
  unfold process_row, ingest, row_failed, try_except, mbind, M_bind, lift, mret, M_ret.
  destruct (_create_product_from_row _ _) as [p | e].
  - destruct (product_repository_create _ _ _ _) as [[[] | e] w'];
      by destruct (index_plus_2 _ _).
  - by destruct (index_plus_2 _ _).
Qed.

Lemma failed_rows_length env index df w :
  (length (failed_rows env index df w) ≤ length df)%nat.
Proof.
  revert index w. induction df as [| [label row] rest IH]; intros index w; simpl; [lia |].
  destruct (ingest env index row w) as [[[] | e] w']; simpl;
    specialize (IH (S index) w'); lia.
Qed.

Lemma iterrows_cons env position index row rest acc w :
  iterrows env position ((index, row) :: rest) acc w =
  match process_row env position index row acc w with
  | (Ok acc', w') => iterrows env (S position) rest acc' w'
  | (Raise e, w') => (Raise e, w')
  end.
Proof. reflexivity. Qed.

Lemma tried_all lib df : first_label_error lib df = None → tried lib df = df.
Proof.
  induction df as [| [index row] rest IH]; [done |].
  cbn [first_label_error tried].
  destruct (index_plus_2 lib index); [| done].
  intros Hrest. cbn [is_ok]. by rewrite IH.
Qed.

Lemma tried_prefix lib df : ∃ rest, df = tried lib df ++ rest.
Proof.
  induction df as [| [index row] rest [rest' IH]]; [by exists [] |].
  cbn [tried]. destruct (is_ok (index_plus_2 lib index)).
  - exists rest'. cbn [app]. by rewrite <- IH.
  - by exists rest.
Qed.

(** The loop, counter by counter: it returns when every label can be
    added to, and otherwise raises at the first that cannot, once the row
    of that label has been tried. *)
Lemma iterrows_spec env df : ∀ index s f errs w,
  let fs := failed_rows env index df w in
  iterrows env index df (s, f, errs) w
  = (match first_label_error (lib env) df with
     | None => Ok (s + (length df - length fs), f + length fs,
                   errs ++ map (error_line (lib env)) fs)
     | Some e => Raise e
     end,
     world_after env index (tried (lib env) df) w).
Proof.
  induction df as [| [label row] rest IH]; intros index s f errs w.
  - simpl. unfold mret, M_ret. by rewrite !Nat.add_0_r, app_nil_r.
  - rewrite iterrows_cons, process_row_ingest.
    cbn [failed_rows world_after first_label_error tried length].
    destruct (index_plus_2 (lib env) label) as [text | e0] eqn:Hlabel; cbn [is_ok];
      [| reflexivity].
    cbn [world_after].
    pose proof (failed_rows_length env (S index) rest) as Hlen.
    destruct (ingest env index row w) as [[[] | e] w'] eqn:E;
      rewrite IH; specialize (Hlen w'); cbn [snd length map];
      destruct (first_label_error (lib env) rest); try reflexivity.
    + replace (s + 1 + (length rest - length (failed_rows env (S index) rest w')))%nat
        with (s + (S (length rest) - length (failed_rows env (S index) rest w')))%nat
        by lia.
      reflexivity.
    + rewrite <- app_assoc.
      replace (f + 1 + length (failed_rows env (S index) rest w'))%nat
        with (f + S (length (failed_rows env (S index) rest w')))%nat by lia.
      unfold error_line, label_text. cbn [f_label f_exn]. rewrite Hlabel.
      reflexivity.
Qed.

Lemma world_after_frame env df : ∀ index w,
  ∃ t, world_after env index df w = with_products t w.
Proof.
  induction df as [| [label row] rest IH]; intros index w; simpl.
  - exists (products_table w). by rewrite with_products_id.
  - destruct (ingest_frame env index row w) as [t ->].
    destruct (IH (S index) (with_products t w)) as [t' ->]. by exists t'.
Qed.






Lemma process_file_content_parsed env content filename w df :
  read_by_extension (pandas env) (extension_of filename) content = Some (Ok df) →
  let fs := failed_rows env 0 df w in
  _process_file_content env content filename w
  = (match first_label_error (lib env) df with
     | None => Ok (length df, length df - length fs, length fs,
                   map (error_line (lib env)) fs)
     | Some e => Raise (Exn Exception ("Error al leer archivo: " +:+ exn_msg e))
     end,
     world_after env 0 (tried (lib env) df) w).
Proof.
  intros Hread fs. unfold _process_file_content, try_except. cbv zeta.
  rewrite Hread. unfold mbind, M_bind. rewrite iterrows_spec.
  by destruct (first_label_error (lib env) df).
Qed.

Lemma process_file_content_labelled env content filename w df :
  read_by_extension (pandas env) (extension_of filename) content = Some (Ok df) →
  first_label_error (lib env) df = None →
  let fs := failed_rows env 0 df w in
  _process_file_content env content filename w
  = (Ok (length df, length df - length fs, length fs, map (error_line (lib env)) fs),
     world_after env 0 df w).
Proof.
  intros Hread Hlabels fs.
  rewrite (process_file_content_parsed _ _ _ _ _ Hread), Hlabels.
  by rewrite (tried_all _ _ Hlabels).
Qed.

Lemma process_file_content_frame env content filename w :
  ∃ t, (_process_file_content env content filename w).2 = with_products t w.
Proof.
  destruct (read_by_extension (pandas env) (extension_of filename) content)
    as [[df | e] |] eqn:Hread.
  - rewrite (process_file_content_parsed _ _ _ _ _ Hread). simpl.
    apply world_after_frame.
  - unfold _process_file_content, try_except, raise, lift. cbv zeta. rewrite Hread.
    exists (products_table w). by rewrite with_products_id.
  - unfold _process_file_content, try_except, raise, lift. cbv zeta. rewrite Hread.
    exists (products_table w). by rewrite with_products_id.
Qed.

Lemma process_file_content_ok env content filename w r w' :
  _process_file_content env content filename w = (Ok r, w') →
  ∃ df, read_by_extension (pandas env) (extension_of filename) content = Some (Ok df)
        ∧ first_label_error (lib env) df = None.
Proof.
  destruct (read_by_extension (pandas env) (extension_of filename) content)
    as [[df | e] |] eqn:Hread.
  - rewrite (process_file_content_parsed _ _ _ _ _ Hread).
    destruct (first_label_error (lib env) df) eqn:Hlabels; [done |]. by exists df.
  - unfold _process_file_content, try_except, raise, lift. cbv zeta.
    rewrite Hread. done.
  - unfold _process_file_content, try_except, raise, lift. cbv zeta.
    rewrite Hread. done.
Qed.




(** A file whose first column was taken as the index: the labels are
    texts, the first row is stored, and the call raises at its label. *)
Example text_labels_abort :
  let run := _process_file_content Demo.consumer_env "rows by shelf" "stock.csv"
               Demo.empty_world in
  run.1 = Raise (Exn Exception
                   ("Error al leer archivo: " +:+ exn_msg (cannot_concatenate "str")))
  ∧ sku <$> products_table run.2 = ["MED-1234"].
Proof. vm_compute. split; reflexivity. Qed.

Lemma mark_error_unknown env history_id e w :
  history_table w !! history_id = None →
  mark_error env history_id e w = (Ok tt, w).
Proof.
  intros Hnone. unfold mark_error, try_except, mbind, M_bind.
  unfold history_get_by_id, HRepo.get_by_id. rewrite Hnone.
  by destruct (recovery_lookup_fault env).
Qed.

Lemma process_body_unknown env history_id w :
  history_table w !! history_id = None →
  process_body env history_id w =
  (Raise (Exn Exception
            match lookup_fault env with
            | Some m => "Error al obtener registro de historial por ID: " +:+ m
            | None => not_found_msg history_id
            end), w).
Proof.
  intros Hnone. unfold process_body, mbind, M_bind.
  unfold history_get_by_id, HRepo.get_by_id. rewrite Hnone.
  by destruct (lookup_fault env).
Qed.

(** A file of two rows, the first with the code "BAD": one product is
    stored, the job is closed with "1/2 productos registrados", and the one
    error line is the one of row 2 of the file. *)
Example two_rows_one_bad :
  let run := process_file_by_history_id Demo.consumer_env "job-1"
               (Demo.pending_world "stock.csv" "two rows") in
  (total_records <$> run.1, successful_records <$> run.1, failed_records <$> run.1)
  = (Ok 2, Ok 1, Ok 1)%nat
  ∧ errors <$> run.1
    = Ok [PyStr.of_utf8
            "Fila 2: El SKU debe seguir el formato MED-XXXX (4 dígitos numéricos)"]
  ∧ HRepo.db_status <$> history_table run.2 !! "job-1" = Some "Finalizado"
  ∧ HRepo.db_result <$> history_table run.2 !! "job-1"
    = Some (Some "1/2 productos registrados")
  ∧ (sku <$> products_table run.2) = ["MED-5678"].
Proof. vm_compute. repeat split. Qed.

(** The same code twice in one file: the second row meets the unique
    constraint and is counted as failed. *)
Example same_code_twice :
  (_process_file_content Demo.consumer_env "same code twice" "stock.csv"
     Demo.empty_world).1
  = Ok (2, 1, 1,
        ["Fila 3: Error al crear producto: duplicate key value violates unique constraint"])%nat.
Proof. vm_compute. reflexivity. Qed.

(** Without a row for [history_id], the service raises and changes nothing. *)
Lemma unknown_job env history_id w :
  history_table w !! history_id = None →
  process_file_by_history_id env history_id w
  = (Raise (Exn Exception
       ("Error al procesar archivo: " +:+
        match lookup_fault env with
        | Some m => "Error al obtener registro de historial por ID: " +:+ m
        | None => not_found_msg history_id
        end)), w).
Proof.
  intros Hnone. unfold process_file_by_history_id, try_except.
  rewrite (process_body_unknown _ _ _ Hnone).
  unfold mbind, M_bind. rewrite (mark_error_unknown _ _ _ _ Hnone).
  unfold raise. by rewrite exn_msg_Exn.
Qed.

(** C8. Consuming an event whose job id has no record leaves the whole
    world as it was: history table, products table, bucket and topic,
    whatever the collaborators do; so does the controller on that event. *)
Theorem C8_unknown_job_changes_nothing
    (env : Env) (history_id : string) (w : World) :
  history_table w !! history_id = None →
  (process_file_by_history_id env history_id w).2 = w
  ∧ (ProductProcessorController.process_products_file env
       (ProductProcessorController.Event history_id) w).2 = w.
Proof.
  intros Hnone. pose proof (unknown_job env history_id w Hnone) as He.
  split; [by rewrite He |].
  unfold ProductProcessorController.process_products_file.
  destruct (PyStr.is_empty history_id); [done |]. by rewrite He.
Qed.

Lemma C8_witness :
  (process_file_by_history_id Demo.consumer_env "job-404"
     (Demo.pending_world "stock.csv" "two rows")).2
  = Demo.pending_world "stock.csv" "two rows".
Proof.
  apply (C8_unknown_job_changes_nothing Demo.consumer_env "job-404"
           (Demo.pending_world "stock.csv" "two rows")).
  vm_compute. reflexivity.
Defined.

(** C6, as the code has it. When the lookup finds no job, the service
    raises an exception that names the id, the controller answers it with
    status 500 and [success = false], and the world is unchanged. *)
Theorem C6_unknown_job_is_reported
    (env : Env) (history_id : string) (w : World) :
  history_table w !! history_id = None →
  lookup_fault env = None →
  process_file_by_history_id env history_id w
  = (Raise (Exn Exception ("Error al procesar archivo: " +:+ not_found_msg history_id)), w)
  ∧ (history_id ≠ "" →
     ProductProcessorController.process_products_file env
       (ProductProcessorController.Event history_id) w
     = ({| ProductProcessorController.status_code := 500;
           ProductProcessorController.success := false;
           ProductProcessorController.message :=
             "Error al procesar archivo: " +:+ "Error al procesar archivo: "
             +:+ not_found_msg history_id;
           ProductProcessorController.data := None |}, w)).
Proof.
  intros Hnone Hfault.
  pose proof (unknown_job env history_id w Hnone) as He.
  rewrite Hfault in He. split; [exact He |].
  intros Hne. unfold ProductProcessorController.process_products_file.
  apply is_empty_false in Hne. rewrite Hne, He. by rewrite exn_msg_Exn.
Qed.

Lemma C6_witness :
  (ProductProcessorController.process_products_file Demo.consumer_env
     (ProductProcessorController.Event "job-404") Demo.empty_world).1
  = {| ProductProcessorController.status_code := 500;
       ProductProcessorController.success := false;
       ProductProcessorController.message :=
         "Error al procesar archivo: " +:+ "Error al procesar archivo: "
         +:+ not_found_msg "job-404";
       ProductProcessorController.data := None |}.
Proof.
  destruct (C6_unknown_job_is_reported Demo.consumer_env "job-404" Demo.empty_world)
    as [_ H]; [reflexivity | reflexivity |].
  rewrite H; [reflexivity | discriminate].
Defined.

(** C6 as stated fails: on an id without a job the service does raise, and
    the caller of the delivery endpoint gets an error response. *)
Lemma C6_counterexample :
  let service := process_file_by_history_id Demo.consumer_env "job-404" Demo.empty_world in
  let response := ProductProcessorController.process_products_file Demo.consumer_env
                    (ProductProcessorController.Event "job-404") Demo.empty_world in
  history_table Demo.empty_world !! "job-404" = None
  ∧ is_ok service.1 = false
  ∧ ProductProcessorController.status_code response.1 = 500%nat
  ∧ ProductProcessorController.success response.1 = false.
Proof. vm_compute. repeat split. Qed.

Lemma update_raise_frame now fault h t e t' :
  HRepo.update now fault h t = (Raise e, t') → t' = t.
Proof.
  unfold HRepo.update. destruct (PPH.validate h); [| by intros [= _ <-]].
  destruct fault; [by intros [= _ <-] |].
  destruct (PPH.id h) as [key |]; [| done].
  by destruct (t !! key).
Qed.

Lemma update_ok now fault h t h' t' key r :
  HRepo.update now fault h t = (Ok h', t') →
  PPH.id h = Some key → t !! key = Some r →
  t' = <[key := HRepo.updated_row now h r]> t.
Proof.
  unfold HRepo.update. destruct (PPH.validate h); [| done].
  destruct fault; [done |].
  intros Hu Hid Hr. rewrite Hid, Hr in Hu. by injection Hu as _ <-.
Qed.

Lemma update_is_ok now fault h t :
  is_ok (HRepo.update now fault h t).1 = true ↔ fault = None ∧ model_bounds h.
Proof.
  unfold HRepo.update. rewrite <- validate_ok.
  destruct (PPH.validate h) as [[] |]; simpl.
  - destruct fault; simpl; [split; [done | by intros [? _]] |].
    destruct (PPH.id h) as [key |]; [destruct (t !! key) |]; simpl; split; done.
  - split; [done | by intros [_ ?]].
Qed.

(** The [try] block either raises with the history table as it was, or
    returns after it has closed the job as "Finalizado". *)
Lemma process_body_cases env history_id w :
  let res := process_body env history_id w in
  (is_ok res.1 = false ∧ history_table res.2 = history_table w)
  ∨ (is_ok res.1 = true
     ∧ ∃ row msg,
         history_table w !! history_id = Some row
         ∧ history_table res.2
           = <[history_id :=
                 HRepo.updated_row (utcnow env)
                   (PPH.set_outcome "Finalizado" msg (utcnow env)
                      (HRepo._db_to_model history_id row)) row]> (history_table w)).
Proof.
  unfold process_body, mbind, M_bind, history_get_by_id, HRepo.get_by_id.
  destruct (lookup_fault env); [by left |].
  destruct (history_table w !! history_id) as [row |] eqn:Hrow; [| by left].
  cbn [fmap option_fmap option_map].
  unfold CloudStorageService.download_file.
  destruct (download_fault env); [by left |].
  destruct (bucket w !! _) as [blob |]; [| by left].
  destruct (process_file_content_frame env (blob_data blob)
              (PPH.file_name (HRepo._db_to_model history_id row)) w) as [t Ht].
  destruct (_process_file_content _ _ _ w) as [[[[[total succ] failed] errs] | e] w1];
    cbn [snd] in Ht; subst w1; [| by left].
  unfold history_update. cbn [history_table with_products].
  destruct (HRepo.update _ _ _ _) as [[h | e] t'] eqn:Hu.
  - right. split; [done |]. exists row, (result_message succ total).
    split; [done |]. cbn [snd history_table with_history mret M_ret].
    eapply update_ok; [exact Hu | done | done].
  - left. split; [done |]. apply update_raise_frame in Hu. by subst t'.
Qed.

(** The except branch swallows what its own [try] raises. *)
Lemma mark_error_ok env history_id e w :
  mark_error env history_id e w = (Ok tt, (mark_error env history_id e w).2).
Proof.
  unfold mark_error, try_except.
  match goal with |- context [match ?b with _ => _ end] => destruct b as [[[] | ?] ?] end;
    done.
Qed.

(** C3. Once the job has been found, an exception [e] out of the [try]
    block (download, parsing, finalization) leaves the history table as it
    was; the consumer then fetches the job again and rewrites it with
    status "Error" and result "Error: <message of e>". When that fetch or
    that update raises, nothing more is written: the table is the one from
    before the invocation and the job keeps its row. Either way the
    invocation raises "Error al procesar archivo: <message of e>". *)
Theorem C3_failure_marks_job_or_leaves_it
    (env : Env) (history_id : string) (w w1 : World)
    (row : HRepo.ProductProcessedHistoryDB) (e : exn) :
  lookup_fault env = None →
  history_table w !! history_id = Some row →
  process_body env history_id w = (Raise e, w1) →
  let res := process_file_by_history_id env history_id w in
  let failed := marked_failed env history_id e row in
  let recovery :=
    HRepo.update (recovery_utcnow env) (recovery_update_fault env) failed
      (history_table w) in
  res.1 = Raise (Exn Exception ("Error al procesar archivo: " +:+ exn_msg e))
  ∧ (recovery_lookup_fault env = None → is_ok recovery.1 = true →
     history_table res.2
     = <[history_id := HRepo.updated_row (recovery_utcnow env) failed row]>
         (history_table w)
     ∧ HRepo.db_status (HRepo.updated_row (recovery_utcnow env) failed row) = "Error"
     ∧ HRepo.db_result (HRepo.updated_row (recovery_utcnow env) failed row)
       = Some ("Error: " +:+ exn_msg e))
  ∧ (recovery_lookup_fault env ≠ None ∨ is_ok recovery.1 = false →
     history_table res.2 = history_table w
     ∧ history_table res.2 !! history_id = Some row)
  ∧ (is_ok recovery.1 = true ↔
     recovery_update_fault env = None
     ∧ within_bounds (HRepo.db_file_name row) (HRepo.db_user_id row) "Error").
Proof.
  intros Hfault Hrow Hbody res failed recovery.
  assert (Hframe : history_table w1 = history_table w).
  { destruct (process_body_cases env history_id w) as [[_ H] | [H _]];
      rewrite Hbody in H; [exact H | done]. }
  assert (Hres : res = (Raise (Exn Exception ("Error al procesar archivo: "
                                              +:+ exn_msg e)),
                        (mark_error env history_id e w1).2)).
  { unfold res, process_file_by_history_id, try_except. rewrite Hbody.
    unfold mbind, M_bind, raise. by rewrite mark_error_ok. }
  assert (Hmark : (mark_error env history_id e w1).2
                  = match recovery_lookup_fault env with
                    | Some _ => w1
                    | None => with_history recovery.2 w1
                    end).
  { unfold mark_error, try_except, mbind, M_bind, history_get_by_id, HRepo.get_by_id.
    destruct (recovery_lookup_fault env); [done |].
    rewrite Hframe, Hrow. cbn [fmap option_fmap option_map].
    unfold history_update. rewrite Hframe.
    fold (marked_failed env history_id e row). fold failed. fold recovery.
    by destruct recovery as [[h | e'] t']. }
  assert (Htable : history_table res.2
                   = match recovery_lookup_fault env with
                     | Some _ => history_table w
                     | None => recovery.2
                     end).
  { rewrite Hres. cbn [snd]. rewrite Hmark.
    by destruct (recovery_lookup_fault env). }
  split; [| split; [| split]].
  - by rewrite Hres.
  - intros Hlook Hok. rewrite Htable, Hlook.
    split; [| done].
    destruct recovery as [[h | e'] t'] eqn:Hrec; [| done].
    eapply update_ok; [exact Hrec | done | done].
  - intros Hfail. rewrite Htable.
    assert (Hsame : match recovery_lookup_fault env with
                    | Some _ => history_table w
                    | None => recovery.2
                    end = history_table w).
    { destruct (recovery_lookup_fault env); [done |].
      destruct Hfail as [? | Hnot]; [done |].
      destruct recovery as [[h | e'] t'] eqn:Hrec; [done |].
      by apply update_raise_frame in Hrec. }
    rewrite Hsame. done.
  - unfold recovery. rewrite update_is_ok. done.
Qed.

Lemma C3_witness :
  let w := Demo.pending_world "stock.txt" "two rows" in
  HRepo.db_status <$>
    history_table (process_file_by_history_id Demo.consumer_env "job-1" w).2 !! "job-1"
  = Some "Error"
  ∧ history_table (process_file_by_history_id Demo.consumer_env_no_recovery "job-1" w).2
    = history_table w.
Proof.
  intros w. split.
  - destruct (C3_failure_marks_job_or_leaves_it Demo.consumer_env "job-1" w w
                (Demo.job_row "stock.txt" "En curso" None)
                (Exn Exception
                   "Error al leer archivo: Formato de archivo no soportado: txt"))
      as (_ & H & _); [reflexivity | reflexivity | reflexivity |].
    destruct H as (-> & Hst & _); [reflexivity | vm_compute; reflexivity |].
    rewrite lookup_insert_eq. cbn [fmap option_fmap option_map]. by rewrite Hst.
  - destruct (C3_failure_marks_job_or_leaves_it Demo.consumer_env_no_recovery "job-1" w w
                (Demo.job_row "stock.txt" "En curso" None)
                (Exn Exception
                   "Error al leer archivo: Formato de archivo no soportado: txt"))
      as (_ & _ & H & _); [reflexivity | reflexivity | reflexivity |].
    apply H. left. discriminate.
Defined.

End consumption.

(** ** The life of a job over any run of the two services *)
Section lifecycle.
Import ProductImportService ProductFileProcessorService.

Lemma create_raise_frame new_uuid fault h t e t' :
  HRepo.create new_uuid fault h t = (Raise e, t') → t' = t.
Proof.
  unfold HRepo.create. destruct (PPH.validate h); [| by intros [= _ <-]].
  destruct fault; [by intros [= _ <-] |].
  match goal with |- context [t !! ?key] => destruct (t !! key) end;
    [by intros [= _ <-] | done].
Qed.

(** A submission adds at most one row, under a fresh key, pending. *)
Lemma submit_table env file user_id w :
  let t := history_table w in
  let t' := history_table (import_products_file env file user_id w).2 in
  t' = t
  ∨ ∃ key h, t !! key = None ∧ t' = <[key := HRepo._model_to_db h]> t
             ∧ PPH.status h = "En curso" ∧ PPH.result h = None.
Proof.
  rewrite import_unfold.
  destruct (_validate_required_fields file user_id) as [[] |]; [| by left].
  destruct (_validate_file_type file) as [[] |]; [| by left].
  destruct (_validate_records_count env file) as [[] |]; [| by left].
  cbv zeta. unfold _upload_file_to_storage, try_except, raise.
  destruct (upload_fault env); [by left |].
  unfold _create_history_record, try_except, raise.
  cbn [history_table log_call with_bucket].
  destruct (HRepo.create _ _ _ _) as [[h | e] t'] eqn:Hc.
  - apply create_ok in Hc as (key & Hid & Hfresh & -> & ->).
    unfold _publish_import_event, try_except, raise,
      PubSubService.publish_product_import_event.
    right. eexists key, _.
    split; [exact Hfresh |].
    destruct (publish_fault env); cbn [snd history_table log_call with_history with_topic];
      (split; [reflexivity | split; reflexivity]).
  - apply create_raise_frame in Hc. subst t'. by left.
Qed.

(** A consumption rewrites at most the row of its job, and closes it. *)
Lemma consume_table env history_id w :
  let t := history_table w in
  let t' := history_table (process_file_by_history_id env history_id w).2 in
  t' = t
  ∨ ∃ row h now, t !! history_id = Some row
      ∧ terminal (PPH.status h) ∧ is_Some (PPH.result h)
      ∧ PPH.file_name h = HRepo.db_file_name row
      ∧ PPH.user_id h = HRepo.db_user_id row
      ∧ t' = <[history_id := HRepo.updated_row now h row]> t.
Proof.
  intros t t'. unfold t'. clear t'.
  unfold process_file_by_history_id, try_except.
  destruct (process_body_cases env history_id w) as [[Hraise Hframe] | [Hok Hdone]].
  - destruct (process_body env history_id w) as [[s | e] w1]; [done |].
    cbn [snd] in Hframe. unfold mbind, M_bind, raise. rewrite mark_error_ok. cbn [snd].
    unfold mark_error, try_except, mbind, M_bind, history_get_by_id, HRepo.get_by_id.
    destruct (recovery_lookup_fault env); [by left |].
    rewrite Hframe. fold t.
    destruct (t !! history_id) as [row |] eqn:Hrow; [| by left].
    cbn [fmap option_fmap option_map]. unfold history_update. rewrite Hframe. fold t.
    destruct (HRepo.update _ _ _ t) as [[h | e'] t'] eqn:Hu.
    + right. eapply update_ok in Hu; [| done | exact Hrow]. subst t'.
      exists row, (PPH.set_outcome "Error" ("Error: " +:+ exn_msg e)
                     (recovery_utcnow env) (HRepo._db_to_model history_id row)),
        (recovery_utcnow env).
      split; [done |].
      split; [right; reflexivity |]. split; [by eexists |].
      split; [reflexivity |]. split; reflexivity.
    + apply update_raise_frame in Hu. subst t'. by left.
  - destruct (process_body env history_id w) as [[s | e] w1]; [| done].
    destruct Hdone as (row & msg & Hrow & Ht). cbn [snd] in *.
    right.
    exists row, (PPH.set_outcome "Finalizado" msg (utcnow env)
                   (HRepo._db_to_model history_id row)), (utcnow env).
    split; [done |].
    split; [left; reflexivity |]. split; [by eexists |].
    split; [reflexivity |]. split; [reflexivity | exact Ht].
Qed.

Lemma same_or_closed_trans r1 r2 r3 :
  same_or_closed r1 r2 → same_or_closed r2 r3 → same_or_closed r1 r3.
Proof.
  intros [-> | (H1 & H2 & H3 & H4 & H5)] [-> | (G1 & G2 & G3 & G4 & G5)].
  - by left.
  - right. done.
  - right. done.
  - right. repeat split; try done; congruence.
Qed.

Lemma same_or_closed_terminal r r' :
  same_or_closed r r' → terminal (HRepo.db_status r) → terminal (HRepo.db_status r').
Proof. intros [-> | (H & _)]; done. Qed.

(** One invocation, seen from one job id. *)
Lemma invoke_step op w id :
  match history_table w !! id with
  | Some r => ∃ r', history_table (invoke w op) !! id = Some r' ∧ same_or_closed r r'
  | None => ∀ r', history_table (invoke w op) !! id = Some r' →
                  HRepo.db_status r' = "En curso" ∧ HRepo.db_result r' = None
                  ∧ ∃ env file user_id, op = Submit env file user_id
  end.
Proof.
  destruct op as [env file user_id | env history_id]; cbn [invoke].
  - destruct (submit_table env file user_id w)
      as [-> | (key & h & Hfresh & -> & Hst & Hres)].
    + destruct (history_table w !! id) as [r |] eqn:Hr.
      * exists r. split; [done | by left].
      * intros r' Hr'. congruence.
    + destruct (decide (key = id)) as [-> | Hne].
      * rewrite Hfresh, lookup_insert_eq. intros r' [= <-].
        split; [exact Hst |]. split; [exact Hres |]. eauto.
      * rewrite lookup_insert_ne by done.
        destruct (history_table w !! id) as [r |] eqn:Hr.
        -- exists r. split; [done | by left].
        -- done.
  - destruct (consume_table env history_id w)
      as [-> | (row & h & now & Hrow & Hst & Hres & Hfile & Huser & ->)].
    + destruct (history_table w !! id) as [r |] eqn:Hr.
      * exists r. split; [done | by left].
      * intros r' Hr'. congruence.
    + destruct (decide (history_id = id)) as [-> | Hne].
      * rewrite Hrow, lookup_insert_eq. eexists. split; [reflexivity |].
        right. done.
      * rewrite lookup_insert_ne by done.
        destruct (history_table w !! id) as [r |] eqn:Hr.
        -- exists r. split; [done | by left].
        -- done.
Qed.

(** C2, as the code has it. Over any run of submissions and consumptions
    a job row is never removed and never re-opened: it stays exactly as it
    was, or it ends with status "Finalizado" or "Error" and a result, its
    file, user and creation date kept; so a job in a final state stays in a
    final state, and a pending one can only stay pending or be closed. A
    row that an invocation adds is added by a submission, pending and
    without result. (Nothing is said of how often a closed job is rewritten:
    the consumer does not look at the status it finds.) *)
Theorem C2_jobs_are_closed_never_reopened (ops : list Invocation) (w : World)
    (id : string) (r : HRepo.ProductProcessedHistoryDB) :
  history_table w !! id = Some r →
  (∃ r', history_table (run ops w) !! id = Some r'
         ∧ same_or_closed r r'
         ∧ (terminal (HRepo.db_status r) → terminal (HRepo.db_status r')))
  ∧ (∀ op id' r', history_table w !! id' = None →
       history_table (invoke w op) !! id' = Some r' →
       HRepo.db_status r' = "En curso" ∧ HRepo.db_result r' = None
       ∧ ∃ env file user_id, op = Submit env file user_id).
Proof.
  intros Hr. split.
  - revert w r Hr. induction ops as [| op ops IH]; intros w r Hr.
    + exists r. split; [done |]. split; [by left | done].
    + pose proof (invoke_step op w id) as Hstep. rewrite Hr in Hstep.
      destruct Hstep as (r1 & Hr1 & Hsc1).
      destruct (IH (invoke w op) r1 Hr1) as (r' & Hr' & Hsc & _).
      exists r'. split; [exact Hr' |].
      assert (Hsc' : same_or_closed r r') by (eapply same_or_closed_trans; eauto).
      split; [exact Hsc' | by apply same_or_closed_terminal].
  - intros op id' r' Hnone Hsome.
    pose proof (invoke_step op w id') as Hstep. rewrite Hnone in Hstep.
    by apply Hstep.
Qed.

Lemma C2_witness :
  ∃ r', history_table
          (run [Consume Demo.consumer_env "job-1";
                Submit (Demo.submit_env None) (Demo.upload "stock.csv" "two rows") "user-123";
                Consume Demo.consumer_env_no_recovery "job-1"]
             Demo.finalized_world) !! "job-1" = Some r'
        ∧ terminal (HRepo.db_status r').
Proof.
  destruct (C2_jobs_are_closed_never_reopened
              [Consume Demo.consumer_env "job-1";
               Submit (Demo.submit_env None) (Demo.upload "stock.csv" "two rows") "user-123";
               Consume Demo.consumer_env_no_recovery "job-1"]
              Demo.finalized_world "job-1"
              (Demo.job_row "stock.csv" "Finalizado" (Some "2/2 productos registrados")))
    as [(r' & Hr' & _ & Hterm) _]; [reflexivity |].
  exists r'. split; [exact Hr' |]. apply Hterm. by left.
Defined.

(** C2 as stated fails: a second delivery for a finalized job whose file
    is gone takes the job from "Finalizado" to "Error" and replaces its
    result. *)
Lemma C2_counterexample :
  let before := history_table Demo.finalized_world !! "job-1" in
  let after := history_table
                 (invoke Demo.finalized_world (Consume Demo.consumer_env "job-1"))
                 !! "job-1" in
  HRepo.db_status <$> before = Some "Finalizado"
  ∧ HRepo.db_result <$> before = Some (Some "2/2 productos registrados")
  ∧ HRepo.db_status <$> after = Some "Error"
  ∧ HRepo.db_result <$> after
    = Some (Some "Error: El archivo processed_products/stock.csv no existe en el bucket").
Proof. vm_compute. repeat split. Qed.

End lifecycle.

(** ** Rows of a file that lacks a column *)
Section columns.
Import ProductFileProcessorService.

Ltac contra Hom Hd Hq Hp :=
  match goal with
  | E : _ !! ?k = None |- _ =>
      destruct (Hom k) as [? ?]; [repeat constructor | discriminate | congruence]
  | E1 : _ !! "expiration_date" = Some ?c, E2 : parse_expiration_date _ ?c = Raise _ |- _ =>
      specialize (Hd _ E1); rewrite E2 in Hd; discriminate
  | E1 : _ !! "quantity" = Some ?c, E2 : py_int _ ?c = Raise _ |- _ =>
      specialize (Hq _ E1); rewrite E2 in Hq; discriminate
  | E1 : _ !! "price" = Some ?c, E2 : py_float _ ?c = Raise _ |- _ =>
      specialize (Hp _ E1); rewrite E2 in Hp; discriminate
  end.

Ltac fail_branch :=
  eexists; split; [reflexivity |];
  let Hom := fresh "Hom" in
  let Hd := fresh "Hd" in
  let Hq := fresh "Hq" in
  let Hp := fresh "Hp" in
  intros Hom (Hd & Hq & Hp);
  first [reflexivity | exfalso; contra Hom Hd Hq Hp].

Ltac lookup row k :=
  destruct (row !! k) eqn:?; cbn [mbind result_bind];
  [try (exfalso; congruence) | fail_branch].








(** And a missing column is not named when an earlier step of the same row
    fails first: here the date is unreadable and the sku column missing. *)
Example missing_sku_behind_a_bad_date :
  Demo.row_without_sku_bad_date !! "sku" = None
  ∧ _create_product_from_row Demo.pylib Demo.row_without_sku_bad_date
    = Raise (Exn ValueError
               (PyStr.of_utf8 "Error de validación: Formato de fecha inválido: soon")).
Proof. vm_compute. repeat split. Qed.

End columns.

(** * More of the code: repositories, bucket, endpoints, and how the two
      services compose *)

(** ** The history repository *)
Section history_repository.

Lemma db_to_model_to_db key h :
  PPH.id h = Some key → HRepo._db_to_model key (HRepo._model_to_db h) = h.
Proof. destruct h as [i ? ? ? ? ? ?]. simpl. by intros ->. Qed.

(** X1. A job that [create] accepted can be read back as it was returned:
    it has an id, the id was free before, [get_by_id] on it gives the very
    record, and no other row changed. An id that is already in the table is
    never overwritten: [create] raises and leaves the table as it was. *)
Theorem X1_history_create_then_get
    (new_uuid : N) (fault : option string) (h : PPH.t)
    (t : gmap string HRepo.ProductProcessedHistoryDB) :
  (∀ h' t', HRepo.create new_uuid fault h t = (Ok h', t') →
     ∃ key, PPH.id h' = Some key
            ∧ t !! key = None
            ∧ HRepo.get_by_id None key t' = Ok (Some h')
            ∧ ∀ k, k ≠ key → t' !! k = t !! k)
  ∧ (∀ key, PPH.id h = Some key → key ≠ "" → is_Some (t !! key) →
       ∃ e, HRepo.create new_uuid fault h t = (Raise e, t)).
Proof.
  split.
  - intros h' t' Hc. apply create_ok in Hc as (key & Hid & Hfresh & -> & Hh).
    exists key. split; [done |]. split; [done |]. split.
    + unfold HRepo.get_by_id. rewrite lookup_insert_eq. cbn [fmap option_fmap option_map].
      by rewrite db_to_model_to_db.
    + intros k Hk. by rewrite lookup_insert_ne.
  - intros key Hid Hne [r Hr]. unfold HRepo.create.
    destruct (PPH.validate h); [| eauto].
    destruct fault; [eauto |].
    unfold HRepo.no_id. rewrite Hid. apply is_empty_false in Hne. rewrite Hne.
    cbn [from_option id]. rewrite Hr. eauto.
Qed.

Lemma X1_witness :
  let h := {| PPH.id := None; PPH.file_name := "stock.csv"; PPH.user_id := "user-123";
              PPH.status := "En curso"; PPH.result := None;
              PPH.created_at := 0; PPH.updated_at := None |} in
  ∃ key, HRepo.get_by_id None key (HRepo.create 7 None h ∅).2
         = Ok (Some (PPH.set_id (Some key) h)).
Proof.
  intros h.
  destruct (X1_history_create_then_get 7 None h ∅) as [H _].
  destruct (H (PPH.set_id (Some (Uuid.to_str 7)) h)
              (<[Uuid.to_str 7 := HRepo._model_to_db (PPH.set_id (Some (Uuid.to_str 7)) h)]> ∅))
    as (key & Hid & _ & Hget & _); [reflexivity |].
  injection Hid as <-. exists (Uuid.to_str 7). exact Hget.
Defined.

(** X2. [update] on a job whose row exists rewrites file name, user, status
    and result from the record, keeps the creation date of the row and
    stamps [updated_at] with the repository's own clock; reading the job
    back shows exactly that, and no other row changed. On an id that has
    no row it returns normally and writes nothing. *)
Theorem X2_history_update_then_get
    (now : Z) (h : PPH.t) (key : string)
    (t : gmap string HRepo.ProductProcessedHistoryDB) :
  PPH.id h = Some key →
  model_bounds h →
  (∀ r, t !! key = Some r →
     let res := HRepo.update now None h t in
     res.1 = Ok h
     ∧ HRepo.get_by_id None key res.2
       = Ok (Some {| PPH.id := Some key; PPH.file_name := PPH.file_name h;
                     PPH.user_id := PPH.user_id h; PPH.status := PPH.status h;
                     PPH.result := PPH.result h;
                     PPH.created_at := HRepo.db_created_at r;
                     PPH.updated_at := Some now |})
     ∧ ∀ k, k ≠ key → res.2 !! k = t !! k)
  ∧ (t !! key = None → HRepo.update now None h t = (Ok h, t)).
Proof.
  intros Hid Hb. apply validate_ok in Hb. unfold HRepo.update. rewrite Hb, Hid.
  split.
  - intros r Hr. rewrite Hr. cbn [fst snd]. split; [done |]. split.
    + unfold HRepo.get_by_id. by rewrite lookup_insert_eq.
    + intros k Hk. by rewrite lookup_insert_ne.
  - by intros ->.
Qed.

Lemma X2_witness :
  let h := {| PPH.id := Some "job-1"; PPH.file_name := "stock.csv";
              PPH.user_id := "user-123"; PPH.status := "Finalizado";
              PPH.result := Some "2/2 productos registrados";
              PPH.created_at := 99; PPH.updated_at := None |} in
  let t : gmap string HRepo.ProductProcessedHistoryDB :=
    {[ "job-1" := Demo.job_row "stock.csv" "En curso" None ]} in
  HRepo.get_by_id None "job-1" (HRepo.update 5 None h t).2
  = Ok (Some {| PPH.id := Some "job-1"; PPH.file_name := "stock.csv";
                PPH.user_id := "user-123"; PPH.status := "Finalizado";
                PPH.result := Some "2/2 productos registrados";
                PPH.created_at := 20261101; PPH.updated_at := Some 5%Z |}).
Proof.
  intros h t.
  destruct (X2_history_update_then_get 5 h "job-1" t) as [H _]; [reflexivity | |].
  - unfold model_bounds, within_bounds. simpl. lia.
  - destruct (H (Demo.job_row "stock.csv" "En curso" None)) as (_ & -> & _);
      [reflexivity | reflexivity].
Defined.

(** X3. [delete] answers whether there was a row for the id; afterwards
    the id has none, and every other row is as before. A database failure
    is raised and nothing is removed. *)
Theorem X3_history_delete
    (key : string) (t : gmap string HRepo.ProductProcessedHistoryDB) :
  let res := HRepo.delete None key t in
  res.1 = Ok (bool_decide (is_Some (t !! key)))
  ∧ HRepo.get_by_id None key res.2 = Ok None
  ∧ (∀ k, k ≠ key → res.2 !! k = t !! k)
  ∧ (t !! key = None → res.2 = t)
  ∧ ∀ m, ∃ e, HRepo.delete (Some m) key t = (Raise e, t).
Proof.
  unfold HRepo.delete, HRepo.get_by_id.
  destruct (t !! key) as [r |] eqn:Hr; cbn [fst snd].
  - split; [by rewrite bool_decide_eq_true_2 |].
    split; [by rewrite lookup_delete_eq |].
    split; [by intros k Hk; rewrite lookup_delete_ne |].
    split; [done | eauto].
  - split; [rewrite bool_decide_eq_false_2; [done | by intros [? ?]] |].
    split; [by rewrite Hr |]. eauto.
Qed.

Lemma X3_witness :
  let t : gmap string HRepo.ProductProcessedHistoryDB :=
    {[ "job-1" := Demo.job_row "stock.csv" "En curso" None ]} in
  (HRepo.delete None "job-2" t).2 = t.
Proof.
  intros t. destruct (X3_history_delete "job-2" t) as (_ & _ & _ & H & _).
  apply H. reflexivity.
Defined.

End history_repository.

(** ** The bucket *)
Section bucket_service.
Import CloudStorageService.

(** X4. [delete_file] and [file_exists] never raise, whatever fails: they
    answer [False]. [delete_file] answers what [file_exists] would have
    answered, touches no other blob and no table, and after it the file
    does not exist and [download_file] raises [GoogleCloudError]. *)
Theorem X4_bucket_delete_exists_download (filename folder : string) (w : World) :
  let res := delete_file None filename folder w in
  res.1 = (file_exists None filename folder w).1
  ∧ (file_exists None filename folder res.2).1 = Ok false
  ∧ (∃ m, (download_file None filename folder res.2).1 = Raise (Exn GoogleCloudError m))
  ∧ (∀ p, p ≠ full_path filename folder → bucket res.2 !! p = bucket w !! p)
  ∧ history_table res.2 = history_table w
  ∧ products_table res.2 = products_table w
  ∧ ∀ m, delete_file (Some m) filename folder w = (Ok false, w)
         ∧ file_exists (Some m) filename folder w = (Ok false, w).
Proof.
  unfold delete_file, file_exists, download_file. fold (full_path filename folder).
  destruct (bucket w !! full_path filename folder) as [b |] eqn:Hb; cbn [fst snd].
  - split; [by rewrite bool_decide_eq_true_2 |].
    cbn [bucket with_bucket]. rewrite lookup_delete_eq.
    split; [rewrite bool_decide_eq_false_2; [done | by intros [? ?]] |].
    split; [eauto |].
    split; [by intros p Hp; rewrite lookup_delete_ne |]. done.
  - rewrite Hb.
    split; [rewrite bool_decide_eq_false_2; [done | by intros [? ?]] |].
    split; [rewrite bool_decide_eq_false_2; [done | by intros [? ?]] |].
    split; [eauto |]. done.
Qed.

End bucket_service.

(** ** The submission handler, beyond the row cap *)
Section submission_more.
Import ProductImportService.

Lemma string_length_app (a b : string) :
  String.length (a +:+ b) = (String.length a + String.length b)%nat.
Proof. induction a as [| c a IH]; simpl; [done | by rewrite IH]. Qed.

Lemma uuid_length u : String.length (Uuid.to_str u) = 36%nat.
Proof. reflexivity. Qed.

Lemma lower_empty s : PyStr.lower s = "" ↔ s = "".
Proof. destruct s; simpl; split; congruence. Qed.

(** The key is 37 characters longer than the name it comes from. *)
Lemma generated_name_length name u :
  PyStr.contains_dot name = false ∨ PyStr.after_last_dot name ≠ "" →
  String.length (_generate_new_filename name u) = (String.length name + 37)%nat.
Proof.
  intros Hname. unfold _generate_new_filename.
  destruct (PyStr.contains_dot name) eqn:Hdot.
  - destruct Hname as [? | Hext]; [done |].
    apply is_empty_false in Hext as Hext'. rewrite Hext'. cbn [negb].
    rewrite (split_at_last_dot name Hdot) at 3.
    rewrite !string_length_app, uuid_length. simpl String.length. lia.
  - cbn [PyStr.is_empty negb]. rewrite !string_length_app, uuid_length.
    simpl String.length. lia.
Qed.

Lemma required_fields_ok_iff file user_id :
  _validate_required_fields file user_id = Ok tt ↔
  filename file ≠ "" ∧ PyStr.strip user_id ≠ "".
Proof.
  unfold _validate_required_fields.
  destruct (PyStr.is_empty (filename file)) eqn:Hf.
  { apply is_empty_true in Hf. split; [done | by intros [? _]]. }
  apply is_empty_false in Hf.
  destruct (PyStr.is_empty user_id) eqn:Hu.
  { apply is_empty_true in Hu. subst user_id. cbn [orb].
    split; [done | by intros [_ ?]]. }
  cbn [orb]. destruct (PyStr.is_empty (PyStr.strip user_id)) eqn:Hs.
  - apply is_empty_true in Hs. split; [done | by intros [_ ?]].
  - apply is_empty_false in Hs. done.
Qed.

Lemma records_count_ok_iff env file :
  extension_of (filename file) ∈ allowed_extensions →
  _validate_records_count env file = Ok tt ↔
  ∃ df, read_by_extension (pandas env) (extension_of (filename file)) (stream file)
        = Some (Ok df)
        ∧ (length df ≤ MAX_IMPORT_PRODUCTS (config env))%nat.
Proof.
  intros Hext. unfold _validate_records_count.
  destruct (read_by_extension _ _ _) as [[df | e] |] eqn:Hread.
  - destruct (Nat.ltb_spec (MAX_IMPORT_PRODUCTS (config env)) (length df)).
    + split; [done |]. intros (df' & [= <-] & ?). lia.
    + split; [| done]. intros _. exists df. split; [done | lia].
  - split; [| by intros (? & ? & _)]. by destruct (exn_cls e).
  - split; [done | by intros (? & ? & _)].
Qed.

(** X5. The three validations of a submission accept exactly this: a file
    with a name, a user id that is not blank, a dot in the name and csv,
    xls or xlsx (in any case) after the last one, and a content that the
    parser of that extension reads into at most MAX_IMPORT_PRODUCTS rows
    (a file of exactly that many rows is accepted). *)
Theorem X5_validation_accepts_exactly
    (env : Env) (file : FileStorage) (user_id : string) :
  validated env file user_id ↔
  filename file ≠ "" ∧ PyStr.strip user_id ≠ ""
  ∧ PyStr.contains_dot (filename file) = true
  ∧ extension_of (filename file) ∈ allowed_extensions
  ∧ ∃ df, read_by_extension (pandas env) (extension_of (filename file)) (stream file)
          = Some (Ok df)
          ∧ (length df ≤ MAX_IMPORT_PRODUCTS (config env))%nat.
Proof.
  unfold validated. rewrite required_fields_ok_iff, file_type_ok_inv. split.
  - intros ((? & ?) & (? & Hext) & Hcount).
    apply records_count_ok_iff in Hcount; done.
  - intros (? & ? & ? & Hext & Hcount).
    split; [done |]. split; [done |]. by apply records_count_ok_iff.
Qed.

(** [create] on a record without id. *)
Lemma create_new_iff new_uuid fault h t h' t' :
  PPH.id h = None →
  HRepo.create new_uuid fault h t = (Ok h', t') ↔
  model_bounds h ∧ fault = None ∧ t !! Uuid.to_str new_uuid = None
  ∧ h' = PPH.set_id (Some (Uuid.to_str new_uuid)) h
  ∧ t' = <[Uuid.to_str new_uuid := HRepo._model_to_db h']> t.
Proof.
  intros Hid. rewrite <- validate_ok. unfold HRepo.create, HRepo.no_id. rewrite Hid.
  destruct (PPH.validate h) as [[] |]; [| split; [done | by intros [? _]]].
  destruct fault; [split; [done | by intros (_ & ? & _)] |].
  destruct (t !! Uuid.to_str new_uuid) eqn:Hk;
    [split; [done | by intros (_ & _ & ? & _)] |].
  split.
  - intros [= <- <-]. done.
  - intros (_ & _ & _ & -> & ->). done.
Qed.

Lemma import_ok_iff env file user_id w r w' :
  import_products_file env file user_id w = (Ok r, w') ↔
  validated env file user_id
  ∧ upload_fault env = None ∧ create_fault env = None ∧ publish_fault env = None
  ∧ history_table w !! Uuid.to_str (history_uuid env) = None
  ∧ model_bounds (new_history env (_generate_new_filename (filename file) (file_uuid env))
                    user_id)
  ∧ r = (Uuid.to_str (history_uuid env), "Archivo cargado exitosamente")
  ∧ w' = submitted_world env file user_id w.
Proof.
  rewrite import_unfold. unfold validated.
  destruct (_validate_required_fields file user_id) as [[] |];
    [| split; [done | by intros ((? & _) & _)]].
  destruct (_validate_file_type file) as [[] |];
    [| split; [done | by intros ((_ & ? & _) & _)]].
  destruct (_validate_records_count env file) as [[] |];
    [| split; [done | by intros ((_ & _ & ?) & _)]].
  cbv zeta. unfold _upload_file_to_storage, try_except, raise.
  destruct (upload_fault env); [split; [done | by intros (_ & ? & _)] |].
  unfold _create_history_record, try_except, raise.
  cbn [history_table log_call with_bucket].
  fold (new_history env (_generate_new_filename (filename file) (file_uuid env)) user_id).
  destruct (HRepo.create _ _ _ _) as [[h | e] t'] eqn:Hc.
  - apply create_new_iff in Hc as (Hb & Hcf & Hfresh & -> & ->); [| done].
    unfold _publish_import_event, try_except, raise,
      PubSubService.publish_product_import_event.
    destruct (publish_fault env); [split; [done | by intros (_ & _ & _ & ? & _)] |].
    split.
    + intros [= <- <-]. repeat (split; [done |]).
      destruct w.
      unfold submitted_world, submission_calls, upload_path, uploaded_blob, pending_row,
        with_topic, log_call, with_history, with_bucket.
      cbn [bucket history_table products_table topic calls].
      rewrite <- !app_assoc. reflexivity.
    + intros (_ & _ & _ & _ & _ & _ & -> & ->).
      destruct w.
      unfold submitted_world, submission_calls, upload_path, uploaded_blob, pending_row,
        with_topic, log_call, with_history, with_bucket.
      cbn [bucket history_table products_table topic calls].
      rewrite <- !app_assoc. reflexivity.
  - split; [done |]. intros (_ & _ & Hcf & _ & Hfresh & Hb & _). exfalso.
    assert (HRepo.create (history_uuid env) (create_fault env)
              (new_history env (_generate_new_filename (filename file) (file_uuid env))
                 user_id) (history_table w)
            = (Ok (PPH.set_id (Some (Uuid.to_str (history_uuid env)))
                     (new_history env
                        (_generate_new_filename (filename file) (file_uuid env)) user_id)),
               <[Uuid.to_str (history_uuid env) :=
                   HRepo._model_to_db
                     (PPH.set_id (Some (Uuid.to_str (history_uuid env)))
                        (new_history env
                           (_generate_new_filename (filename file) (file_uuid env))
                           user_id))]> (history_table w))) as Hok.
    { apply create_new_iff; [done |]. done. }
    rewrite Hok in Hc. done.
Qed.

Lemma strip_nonempty u : PyStr.strip u ≠ "" → u ≠ "".
Proof. intros H ->. by apply H. Qed.

(** The record of a new job is within bounds when the name of the file has
    at most 63 characters and the user id at most 36. *)
Lemma new_history_bounds env file user_id :
  validated env file user_id →
  model_bounds (new_history env (_generate_new_filename (filename file) (file_uuid env))
                  user_id)
  ↔ (String.length (filename file) ≤ 63)%nat ∧ (String.length user_id ≤ 36)%nat.
Proof.
  intros (Hreq & Htype & _).
  apply required_fields_ok_iff in Hreq as [_ Huser%strip_nonempty].
  apply file_type_ok_inv in Htype as [Hdot Hext%allowed_extension_nonempty].
  unfold model_bounds, within_bounds, new_history.
  cbn [PPH.file_name PPH.user_id PPH.status].
  rewrite generated_name_length by (by right).
  apply is_empty_false, length_is_empty in Huser.
  change (String.length "En curso") with 8%nat. lia.
Qed.

(** X6. A submission returns exactly when its validations pass, none of
    the three collaborators fails, the new id is free and the record of the
    job is within bounds; it then returns the new id with "Archivo cargado
    exitosamente" and leaves one more blob (the bytes of the file, under
    folder/key), one more job (pending, with the key and the user id), one
    more event (carrying the id) and nothing else. A validated file whose
    name has at most 63 characters, from a user id of at most 36, is always
    within bounds. *)
Theorem X6_submission_success
    (env : Env) (file : FileStorage) (user_id : string) (w : World) :
  (∀ r w', import_products_file env file user_id w = (Ok r, w') →
     r = (Uuid.to_str (history_uuid env), "Archivo cargado exitosamente")
     ∧ w' = submitted_world env file user_id w
     ∧ history_table w !! Uuid.to_str (history_uuid env) = None)
  ∧ (validated env file user_id →
     upload_fault env = None → create_fault env = None → publish_fault env = None →
     history_table w !! Uuid.to_str (history_uuid env) = None →
     (String.length (filename file) ≤ 63)%nat → (String.length user_id ≤ 36)%nat →
     import_products_file env file user_id w
     = (Ok (Uuid.to_str (history_uuid env), "Archivo cargado exitosamente"),
        submitted_world env file user_id w)).
Proof.
  split.
  - intros r w' H. apply import_ok_iff in H as (_ & _ & _ & _ & ? & _ & ? & ?). done.
  - intros Hv Hup Hcr Hpub Hfresh Hname Huser. apply import_ok_iff.
    repeat (split; [done |]). split; [| done]. by apply new_history_bounds.
Qed.

Lemma X6_witness :
  (import_products_file (Demo.submit_env None) (Demo.upload "stock.csv" "two rows")
     "user-123" Demo.empty_world).1
  = Ok ("9b2c4d6e-8f0a-4c1e-b3d5-f7a9c1e3a5b7", "Archivo cargado exitosamente").
Proof.
  destruct (X6_submission_success (Demo.submit_env None)
              (Demo.upload "stock.csv" "two rows") "user-123" Demo.empty_world)
    as [_ H].
  rewrite H; [reflexivity | | reflexivity | reflexivity | reflexivity | reflexivity | | ].
  - repeat split; vm_compute; reflexivity.
  - simpl. lia.
  - simpl. lia.
Defined.

(** X7. A validated file whose name has more than 63 characters is never
    registered: the key, 37 characters longer, exceeds the 100 of the
    model. The file is uploaded first, then the handler raises
    [BusinessLogicError]; the blob stays in the bucket, no job is created
    and no event is published. *)
Theorem X7_long_name_uploaded_then_rejected
    (env : Env) (file : FileStorage) (user_id : string) (w : World) :
  validated env file user_id →
  upload_fault env = None →
  (63 < String.length (filename file))%nat →
  let res := import_products_file env file user_id w in
  let key := _generate_new_filename (filename file) (file_uuid env) in
  res.1 = Raise (Exn BusinessLogicError
                   ("Error al crear registro de historial: "
                    +:+ "El nombre del archivo no puede exceder 100 caracteres"))
  ∧ bucket res.2 = <[upload_path env key := uploaded_blob env file]> (bucket w)
  ∧ history_table res.2 = history_table w
  ∧ topic res.2 = topic w.
Proof.
  intros Hv Hup Hlong res key. unfold res. rewrite import_unfold.
  pose proof Hv as (Hreq & Htype & Hcount). rewrite Hreq, Htype, Hcount. cbv zeta.
  fold key. unfold _upload_file_to_storage, try_except, raise. rewrite Hup.
  unfold _create_history_record, try_except, raise.
  cbn [history_table log_call with_bucket].
  assert (Hval : PPH.validate
                   {| PPH.id := None; PPH.file_name := key; PPH.user_id := user_id;
                      PPH.status := "En curso"; PPH.result := None;
                      PPH.created_at := utcnow env; PPH.updated_at := None |}
                 = Raise (Exn ValueError
                            "El nombre del archivo no puede exceder 100 caracteres")).
  { apply required_fields_ok_iff in Hreq as [_ Huser%strip_nonempty].
    apply file_type_ok_inv in Htype as [Hdot Hext%allowed_extension_nonempty].
    assert (Hlen : String.length key = (String.length (filename file) + 37)%nat)
      by (apply generated_name_length; by right).
    unfold PPH.validate, PPH.value_error.
    cbn [PPH.file_name PPH.user_id PPH.status].
    assert (PyStr.is_empty key = false) as -> by (apply length_is_empty; lia).
    apply is_empty_false in Huser. rewrite Huser.
    change (PyStr.is_empty "En curso") with false. cbv iota.
    assert ((100 <? String.length key)%nat = true) as -> by (apply Nat.ltb_lt; lia).
    done. }
  unfold HRepo.create. rewrite Hval. cbn [fst snd]. by rewrite exn_msg_Exn.
Qed.

Lemma X7_witness :
  let file := Demo.upload
    "inventario_de_productos_farmaceuticos_bodega_central_2026_noviembre.csv"
    "two rows" in
  let res := import_products_file (Demo.submit_env None) file "user-123" Demo.empty_world in
  is_ok res.1 = false ∧ history_table res.2 = ∅ ∧ size (bucket res.2) = 1%nat.
Proof.
  intros file res.
  destruct (X7_long_name_uploaded_then_rejected (Demo.submit_env None) file "user-123"
              Demo.empty_world) as (Hr & Hb & Hh & _).
  - repeat split; vm_compute; reflexivity.
  - reflexivity.
  - vm_compute. lia.
  - unfold res. rewrite Hr, Hb, Hh. split; [reflexivity |]. split; [reflexivity |].
    by rewrite map_size_insert_None.
Defined.

Lemma import_raise_cases
    (env : Env) (file : FileStorage) (user_id : string) (w w' : World) (e : exn) :
  import_products_file env file user_id w = (Raise e, w') →
  topic w' = topic w
  ∧ products_table w' = products_table w
  ∧ ((exn_cls e = ValidationError ∧ ¬ validated env file user_id ∧ w' = w)
     ∨ (exn_cls e = BusinessLogicError ∧ validated env file user_id
        ∧ calls w' ≠ calls w)).
Proof.
  rewrite import_unfold. unfold validated.
  destruct (_validate_required_fields file user_id) as [[] |] eqn:E1.
  2:{ intros [= <- <-]. split; [done |]. split; [done |]. left.
      split; [by eapply required_fields_cls |]. split; [by intros (? & _) | done]. }
  destruct (_validate_file_type file) as [[] |] eqn:E2.
  2:{ intros [= <- <-]. split; [done |]. split; [done |]. left.
      split; [by eapply file_type_cls |]. split; [by intros (_ & ? & _) | done]. }
  destruct (_validate_records_count env file) as [[] |] eqn:E3.
  2:{ intros [= <- <-]. split; [done |]. split; [done |]. left.
      split; [by eapply records_count_cls |]. split; [by intros (_ & _ & ?) | done]. }
  cbv zeta. unfold _upload_file_to_storage, try_except, raise.
  assert (Hgrow : ∀ (l l' : list Call) c, l ++ c :: l' ≠ l).
  { intros l l' c Heq. apply (f_equal length) in Heq.
    rewrite length_app in Heq. simpl in Heq. lia. }
  destruct (upload_fault env).
  { intros [= <- <-]. cbn [topic products_table calls log_call].
    split; [done |]. split; [done |]. right. split; [done |]. split; [done |].
    apply Hgrow. }
  unfold _create_history_record, try_except, raise.
  cbn [history_table log_call with_bucket].
  destruct (HRepo.create _ _ _ _) as [[h | e'] t'].
  - unfold _publish_import_event, try_except, raise,
      PubSubService.publish_product_import_event.
    destruct (publish_fault env); [| done].
    intros [= <- <-].
    cbn [topic products_table calls log_call with_history with_bucket].
    split; [done |]. split; [done |]. right. split; [done |]. split; [done |].
    rewrite <- !app_assoc. apply Hgrow.
  - intros [= <- <-].
    cbn [topic products_table calls log_call with_history with_bucket].
    split; [done |]. split; [done |]. right. split; [done |]. split; [done |].
    rewrite <- !app_assoc. apply Hgrow.
Qed.

(** X8. When a submission raises, it raises [ValidationError] or
    [BusinessLogicError] and nothing else, and no event has been published
    for it. A [ValidationError] means that a validation failed and that
    the world was left untouched; a [BusinessLogicError] means that the
    validations passed and that the bucket, at least, was called. *)
Theorem X8_submission_failures
    (env : Env) (file : FileStorage) (user_id : string) (w w' : World) (e : exn) :
  import_products_file env file user_id w = (Raise e, w') →
  topic w' = topic w
  ∧ products_table w' = products_table w
  ∧ ((exn_cls e = ValidationError ∧ ¬ validated env file user_id ∧ w' = w)
     ∨ (exn_cls e = BusinessLogicError ∧ validated env file user_id
        ∧ calls w' ≠ calls w)).
Proof. apply import_raise_cases. Qed.

Lemma X8_witness :
  (import_products_file (Demo.submit_env None) (Demo.upload "stock.csv" "two rows")
     "   " Demo.empty_world).2 = Demo.empty_world.
Proof.
  pose (res := import_products_file (Demo.submit_env None)
                 (Demo.upload "stock.csv" "two rows") "   " Demo.empty_world).
  destruct (X8_submission_failures (Demo.submit_env None)
              (Demo.upload "stock.csv" "two rows") "   " Demo.empty_world
              res.2 (Exn ValidationError "El userId es obligatorio"))
    as (_ & _ & [(_ & _ & H) | (H & _)]); [reflexivity | exact H | discriminate H].
Defined.

End submission_more.

(** ** The two endpoints *)
Section endpoints.

(** X9. The submission endpoint answers 201, 400 or 422 and never 500:
    whatever the service raises is a validation or a business error. The
    body says [success] exactly on 201, and only then carries the id of the
    job. A request that is not multipart, or has no file or no user id, is
    answered 400 without the service being called; every 400 leaves the
    world untouched, and without a 201 no event has been published. *)
Theorem X9_submission_endpoint
    (env : ProductImportService.Env) (req : ProductImportController.Request)
    (w : World) :
  let res := ProductImportController.post env req w in
  let code := ProductImportController.status_code res.1 in
  (code = 201 ∨ code = 400 ∨ code = 422)%nat
  ∧ (ProductImportController.success res.1 = true ↔ code = 201%nat)
  ∧ (is_Some (ProductImportController.data res.1) ↔ code = 201%nat)
  ∧ (code = 400%nat → res.2 = w)
  ∧ (code ≠ 201%nat → topic res.2 = topic w)
  ∧ (ProductImportController.is_multipart req = false
     ∨ ProductImportController.no_file (ProductImportController.file req) = true
     ∨ ProductImportController.userId req = None
     ∨ ProductImportController.userId req = Some "" →
     code = 400%nat).
Proof.
  unfold ProductImportController.post.
  destruct (ProductImportController.is_multipart req) eqn:Hm.
  2:{ cbn [fst snd ProductImportController.error_response
           ProductImportController.status_code ProductImportController.success
           ProductImportController.data].
      repeat split; try done; try (by intros [? ?]); auto. }
  destruct (ProductImportController.file req) as [f |] eqn:Hf.
  2:{ cbn [fst snd ProductImportController.error_response
           ProductImportController.status_code ProductImportController.success
           ProductImportController.data].
      repeat split; try done; try (by intros [? ?]); auto. }
  destruct (ProductImportController.no_file (Some f)) eqn:Hnf.
  { cbn [fst snd ProductImportController.error_response
         ProductImportController.status_code ProductImportController.success
         ProductImportController.data].
    repeat split; try done; try (by intros [? ?]); auto. }
  destruct (ProductImportController.userId req) as [u |] eqn:Hu.
  2:{ cbn [fst snd ProductImportController.error_response
           ProductImportController.status_code ProductImportController.success
           ProductImportController.data].
      repeat split; try done; try (by intros [? ?]); auto. }
  destruct (PyStr.is_empty u) eqn:Hue.
  { cbn [fst snd ProductImportController.error_response
         ProductImportController.status_code ProductImportController.success
         ProductImportController.data].
    repeat split; try done; try (by intros [? ?]); auto. }
  assert (Hpre : ¬ (true = false ∨ false = true ∨ Some u = None ∨ Some u = Some "")).
  { intros [? | [? | [? | [= ->]]]]; done. }
  destruct (ProductImportService.import_products_file env f u w) as [[[id m] | e] w'] eqn:Hrun.
  - cbn [fst snd ProductImportController.created_response
         ProductImportController.status_code ProductImportController.success
         ProductImportController.data].
    repeat split; try done; auto; try (by eexists); try (intros ?; by exfalso).
  - apply import_raise_cases in Hrun
      as (Htopic & _ & [(Hc & _ & ->) | (Hc & _ & _)]);
      unfold ProductImportController.handle_exception; rewrite Hc;
      cbn [fst snd ProductImportController.error_response
           ProductImportController.status_code ProductImportController.success
           ProductImportController.data];
      repeat split; try done; try (by intros [? ?]); auto; try (intros ?; by exfalso).
Qed.

Import ProductProcessorController.

Lemma py_in_raises key v e : py_in key v = Raise e → exn_cls e = TypeError.
Proof. destruct v; cbn [py_in]; intros [= <-]; done. Qed.

Lemma py_in_scalar key v : scalar v = true → is_ok (py_in key v) = false.
Proof. by destruct v. Qed.

Lemma py_getitem_raises key v e :
  py_in key v = Ok true → py_getitem v key = Raise e → exn_cls e = TypeError.
Proof.
  destruct v; cbn [py_in py_getitem]; try done; try (by intros _ [= <-]).
  destruct (assoc key items); [done |]. by intros [= ?].
Qed.

Lemma py_get_raises key v e : py_get v key = Raise e → exn_cls e = AttributeError.
Proof. destruct v; cbn [py_get]; intros [= <-]; done. Qed.

(** What [receive] leaves to the outer [except] is a [TypeError] or an
    [AttributeError]. *)
Lemma receive_broken wire body e :
  receive wire body = Broken e →
  exn_cls e = TypeError ∨ exn_cls e = AttributeError.
Proof.
  unfold receive. destruct body as [v |]; [| done].
  destruct (truthy v); cbn [negb]; [| done].
  destruct (py_in "message" v) as [[|] | e1] eqn:Hin1;
    [| done | intros [= <-]; left; by eapply py_in_raises].
  destruct (py_getitem v "message") as [message | e2] eqn:Hget1;
    [| intros [= <-]; left; by eapply py_getitem_raises].
  destruct (py_in "data" message) as [[|] | e3] eqn:Hin2;
    [| done | intros [= <-]; left; by eapply py_in_raises].
  destruct (py_getitem message "data" ≫= decode_data wire) as [event_data | e4];
    [| done].
  destruct (py_get event_data "history_id") as [history_id | e5] eqn:Hget2;
    [| intros [= <-]; right; by eapply py_get_raises].
  destruct (truthy history_id); cbn [negb]; [| done].
  by destruct history_id.
Qed.

(** A body that is a number or [true] gets as far as ['message' not in]. *)
Lemma receive_scalar wire v :
  truthy v = true → scalar v = true → ∃ e, receive wire (Ok v) = Broken e.
Proof.
  intros Htrue Hscalar. unfold receive. rewrite Htrue. cbn [negb].
  pose proof (py_in_scalar "message" v Hscalar) as Hin.
  destruct (py_in "message" v) as [b | e]; [done | by exists e].
Qed.

(** A well-formed envelope is read as its event. *)
Lemma receive_event wire envelope message d event history_id :
  assoc "message" envelope = Some (JDict message) →
  assoc "data" message = Some d →
  decode_data wire d = Ok (JDict event) →
  assoc "history_id" event = Some (JStr history_id) →
  history_id ≠ "" →
  receive wire (Ok (JDict envelope)) = Event history_id.
Proof.
  intros Hm Hd Hdec Hid Hne. unfold receive.
  assert (truthy (JDict envelope) = true) as -> by (by destruct envelope).
  cbn [negb py_in py_getitem]. rewrite Hm. cbn [py_in py_getitem]. rewrite Hd.
  cbn [mbind result_bind]. rewrite Hdec. cbn [py_get]. rewrite Hid.
  cbn [default from_option id truthy].
  apply is_empty_false in Hne. by rewrite Hne.
Qed.

Lemma process_request env req w :
  let res := process_products_file env req w in
  let code := status_code res.1 in
  (code = 200 ∨ code = 400 ∨ code = 500)%nat
  ∧ (success res.1 = true ↔ code = 200%nat)
  ∧ (is_Some (data res.1) ↔ code = 200%nat)
  ∧ (code = 400%nat ↔ rejected req)
  ∧ (code = 400%nat → res.2 = w)
  ∧ (∀ history_id, req = Event history_id → history_id ≠ "" →
       res.2 = (Consumer.process_file_by_history_id env history_id w).2
       ∧ (code = 200%nat ↔
          is_ok (Consumer.process_file_by_history_id env history_id w).1 = true))
  ∧ (code = 200%nat → ∃ history_id, req = Event history_id ∧ history_id ≠ "")
  ∧ ((∃ e, req = Broken e) ∨ (∃ v m, req = EventOther v m) →
     code = 500%nat ∧ res.2 = w).
Proof.
  unfold process_products_file.
  destruct req as [| | | err | e | | history_id | v m];
    try (cbn [fst snd reject failed status_code success data rejected];
         repeat split; try done; try (by intros [? ?]); auto;
         try (by intros [[? ?] | (? & ? & ?)]);
      try (by match goal with H : _ ∨ _ |- _ => destruct H as [[? ?] | (? & ? & ?)] end); fail).
  destruct (PyStr.is_empty history_id) eqn:He.
  - apply is_empty_true in He. subst history_id.
    cbn [fst snd reject status_code success data rejected].
    repeat split; try done; try (by intros [? ?]); auto;
      try (by intros _ ? [= <-]); try (intros; congruence);
      try (by intros [[? ?] | (? & ? & ?)]);
      try (by match goal with H : _ ∨ _ |- _ => destruct H as [[? ?] | (? & ? & ?)] end).
  - apply is_empty_false in He.
    destruct (Consumer.process_file_by_history_id env history_id w)
      as [[s | e] w'] eqn:Hrun;
      cbn [fst snd status_code success data is_ok rejected];
      repeat split; try done; try (by intros [? ?]); auto; try (by eexists);
      try (intros H; exfalso; by apply He, H);
      try (by intros ? [= <-]); try (intros; congruence);
      try (intros; simplify_eq; rewrite ?Hrun; done);
      try (intros Hok; simplify_eq; rewrite Hrun in Hok; done);
      try (by intros [[? ?] | (? & ? & ?)]);
      try (by match goal with H : _ ∨ _ |- _ => destruct H as [[? ?] | (? & ? & ?)] end).
Qed.

(** The service under a lookup that the database refuses, in the [try]
    block and in the [except] branch: it raises with nothing changed. *)
Lemma refused_lookup env history_id m m' w :
  Consumer.lookup_fault env = Some m →
  Consumer.recovery_lookup_fault env = Some m' →
  Consumer.process_file_by_history_id env history_id w
  = (Raise (Exn Exception
              ("Error al procesar archivo: "
               +:+ "Error al obtener registro de historial por ID: " +:+ m)), w).
Proof.
  intros Hl Hr.
  unfold Consumer.process_file_by_history_id, try_except, Consumer.process_body,
    Consumer.mark_error, mbind, M_bind, Consumer.history_get_by_id, HRepo.get_by_id,
    raise, mret, M_ret.
  rewrite Hl, Hr. by rewrite exn_msg_Exn.
Qed.

(** The endpoint on six requests: a job that is there, a body that is a
    number, a body that is a list holding "message", a payload that is a
    list, a history id that is a number, and data that is no base64. *)
Example deliveries :
  let answer body :=
    (endpoint Demo.consumer_env Demo.wire body
       (Demo.pending_world "stock.csv" "two rows")).1 in
  status_code (answer (Demo.push "eyJoaXN0b3J5X2lkIjogImpvYi0xIn0=")) = 200%nat
  ∧ answer (Ok (JInt 5))
    = failed (Exn TypeError "argument of type 'int' is not iterable")
  ∧ answer (Ok (JList [JStr "message"]))
    = failed (Exn TypeError "list indices must be integers or slices, not str")
  ∧ answer (Demo.push "WzEsIDJd")
    = failed (Exn AttributeError "'list' object has no attribute 'get'")
  ∧ status_code (answer (Demo.push "eyJoaXN0b3J5X2lkIjogN30=")) = 500%nat
  ∧ answer (Demo.push "not base64")
    = reject "Error al decodificar mensaje: Incorrect padding".
Proof. vm_compute. repeat split. Qed.

(** X10. The delivery endpoint answers 200, 400 or 500. It answers 400,
    with the world untouched and the service not called, exactly when the
    body is no JSON or a falsy value, has no message, the message no data,
    the data cannot be decoded, or the event has no history id. A body, a
    message or a decoded payload that is not an object makes one of the
    controller's own expressions raise ([TypeError] or [AttributeError]):
    the answer is 500, with the world untouched; so for a body that is a
    number. A history id that is not a text is refused by the lookup: 500
    as well. Otherwise the service is called on the id, and the answer is
    200 when it returned and 500 when it raised. The body says [success],
    and carries the summary, exactly on 200. *)
Theorem X10_delivery_endpoint
    (env : Consumer.Env) (wire : Wire) (body : outcome Json) (w : World) :
  let req := receive wire body in
  let res := endpoint env wire body w in
  let code := status_code res.1 in
  (code = 200 ∨ code = 400 ∨ code = 500)%nat
  ∧ (success res.1 = true ↔ code = 200%nat)
  ∧ (is_Some (data res.1) ↔ code = 200%nat)
  ∧ (code = 400%nat ↔ rejected req)
  ∧ (code = 400%nat → res.2 = w)
  ∧ (∀ history_id, req = Event history_id → history_id ≠ "" →
       res.2 = (Consumer.process_file_by_history_id env history_id w).2
       ∧ (code = 200%nat ↔
          is_ok (Consumer.process_file_by_history_id env history_id w).1 = true))
  ∧ (code = 200%nat → ∃ history_id, req = Event history_id ∧ history_id ≠ "")
  ∧ (∀ e, req = Broken e →
       (exn_cls e = TypeError ∨ exn_cls e = AttributeError)
       ∧ res = (failed e, w))
  ∧ (∀ v m, req = EventOther v m →
       truthy v = true ∧ m = refused wire v
       ∧ res = (failed (Exn Exception ("Error al procesar archivo: " +:+ m)), w))
  ∧ (∀ v, body = Ok v → truthy v = true → scalar v = true →
       code = 500%nat ∧ res.2 = w)
  ∧ (∀ envelope message d event history_id,
       body = Ok (JDict envelope) →
       assoc "message" envelope = Some (JDict message) →
       assoc "data" message = Some d →
       decode_data wire d = Ok (JDict event) →
       assoc "history_id" event = Some (JStr history_id) →
       history_id ≠ "" →
       req = Event history_id).
Proof.
  intros req res code.
  destruct (process_request env req w)
    as (H1 & H2 & H3 & H4 & H5 & H6 & H7 & H8).
  split; [exact H1 |]. split; [exact H2 |]. split; [exact H3 |].
  split; [exact H4 |]. split; [exact H5 |]. split; [exact H6 |].
  split; [exact H7 |].
  split; [| split; [| split]].
  - intros e He. split; [by apply (receive_broken wire body) |].
    unfold res, endpoint. fold req. by rewrite He.
  - intros v m Hv. split; [| split].
    + revert Hv. unfold req, receive.
      destruct body as [b |]; [| done].
      destruct (truthy b); cbn [negb]; [| done].
      destruct (py_in "message" b) as [[|] |]; [| done | done].
      destruct (py_getitem b "message") as [message |]; [| done].
      destruct (py_in "data" message) as [[|] |]; [| done | done].
      destruct (py_getitem message "data" ≫= decode_data wire); [| done].
      destruct (py_get _ "history_id") as [history_id |]; [| done].
      destruct (truthy history_id) eqn:Ht; cbn [negb]; [| done].
      destruct history_id; intros [= <- _]; done.
    + revert Hv. unfold req, receive.
      destruct body as [b |]; [| done].
      destruct (truthy b); cbn [negb]; [| done].
      destruct (py_in "message" b) as [[|] |]; [| done | done].
      destruct (py_getitem b "message") as [message |]; [| done].
      destruct (py_in "data" message) as [[|] |]; [| done | done].
      destruct (py_getitem message "data" ≫= decode_data wire); [| done].
      destruct (py_get _ "history_id") as [history_id |]; [| done].
      destruct (truthy history_id) eqn:Ht; cbn [negb]; [| done].
      destruct history_id; intros [= <- <-]; done.
    + unfold res, endpoint. fold req. by rewrite Hv.
  - intros v -> Htrue Hscalar.
    destruct (receive_scalar wire v Htrue Hscalar) as [e He].
    apply H8. left. by exists e.
  - intros envelope message d event history_id -> Hm Hd Hdec Hid Hne.
    by apply (receive_event wire envelope message d event).
Qed.

End endpoints.

(** ** The import consumer, beyond the counters *)
Section consumption_more.
Import ProductFileProcessorService.

Lemma ingest_row_step env index row w :
  ingest env index row w
  = ((row_step env index row (products_table w)).1,
     with_products (row_step env index row (products_table w)).2 w).
Proof.
  unfold ingest, row_step, mbind, M_bind, lift, product_repository_create.
  destruct (_create_product_from_row _ _) as [p | e].
  - by destruct (ProductRepository.create _ _ _ _ _).
  - cbn [fst snd]. by rewrite with_products_id.
Qed.

(** What one row does to the table: nothing when it fails; when it
    succeeds, it appends a product that was valid and whose code was free. *)
Lemma row_step_cases env index row t :
  (∃ e, row_step env index row t = (Raise e, t))
  ∨ (∃ p, row_step env index row t = (Ok tt, t ++ [p])
          ∧ _create_product_from_row (lib env) row = Ok p
          ∧ ProductModel.validate (row_utcnow env index) p = Ok tt
          ∧ ProductRepository.sku_taken t (sku p) = false).
Proof.
  unfold row_step. destruct (_create_product_from_row _ _) as [p | e] eqn:Hp; [| eauto].
  unfold ProductRepository.create, ProductRepository.insert.
  destruct (ProductModel.validate _ p) as [[] |] eqn:Hv; [| eauto].
  destruct (insert_fault env index); [eauto |].
  destruct (ProductRepository.sku_taken t (sku p)) eqn:Htaken; [eauto |].
  right. by exists p.
Qed.

Lemma world_after_table env df : ∀ index w,
  world_after env index df w
  = with_products (table_after env index df (products_table w)) w.
Proof.
  induction df as [| [label row] rest IH]; intros index w; cbn [world_after table_after].
  - by rewrite with_products_id.
  - rewrite IH, ingest_row_step. cbn [snd]. by destruct w.
Qed.

Lemma table_after_app env df : ∀ index t,
  ∃ added, table_after env index df t = t ++ added.
Proof.
  induction df as [| [label row] rest IH]; intros index t; cbn [table_after].
  - exists []. by rewrite app_nil_r.
  - destruct (row_step_cases env index row t) as [[e ->] | (p & -> & _)]; cbn [snd].
    + apply IH.
    + destruct (IH (S index) (t ++ [p])) as [added ->].
      exists (p :: added). by rewrite <- app_assoc.
Qed.

(** The table grows by one product per successful row. *)
Lemma table_after_length env df : ∀ index w,
  length (table_after env index df (products_table w))
  = (length (products_table w) + (length df - length (failed_rows env index df w)))%nat.
Proof.
  induction df as [| [label row] rest IH]; intros index w; cbn [table_after failed_rows length].
  - lia.
  - rewrite ingest_row_step.
    pose proof (failed_rows_length env (S index) rest) as Hlen.
    destruct (row_step_cases env index row (products_table w))
      as [[e ->] | (p & -> & _)]; cbn [fst snd].
    + specialize (IH (S index) (with_products (products_table w) w)).
      specialize (Hlen (with_products (products_table w) w)).
      cbn [products_table with_products length] in *. lia.
    + specialize (IH (S index) (with_products (products_table w ++ [p]) w)).
      specialize (Hlen (with_products (products_table w ++ [p]) w)).
      cbn [products_table with_products] in *. rewrite IH, length_app. simpl. lia.
Qed.

Lemma mark_error_world env history_id e w :
  ∃ h, (mark_error env history_id e w).2 = with_history h w.
Proof.
  unfold mark_error, try_except, mbind, M_bind, history_get_by_id.
  destruct (HRepo.get_by_id _ _ _) as [[history |] |]; cbn [fst snd];
    try (exists (history_table w); by rewrite with_history_id).
  unfold history_update. destruct (HRepo.update _ _ _ _) as [[h | e'] t]; by exists t.
Qed.

Lemma process_body_world env history_id w :
  ∃ h df, (process_body env history_id w).2
          = with_history h (with_products (table_after env 0 df (products_table w)) w).
Proof.
  assert (Hsame : ∃ h df, w = with_history h
                              (with_products (table_after env 0 df (products_table w)) w)).
  { exists (history_table w), []. by destruct w. }
  unfold process_body, mbind, M_bind, history_get_by_id.
  destruct (HRepo.get_by_id _ _ _) as [[history |] |]; cbn [fst snd raise]; try done.
  unfold CloudStorageService.download_file.
  destruct (download_fault env); [done |].
  destruct (bucket w !! _) as [blob |]; [| done].
  destruct (read_by_extension (pandas env) (extension_of (PPH.file_name history))
              (blob_data blob)) as [[df | e] |] eqn:Hread.
  - rewrite (process_file_content_parsed _ _ _ _ _ Hread).
    rewrite world_after_table.
    destruct (first_label_error (lib env) df).
    { cbn [snd]. exists (history_table w), (tried (lib env) df). by destruct w. }
    unfold history_update. cbn [history_table with_products].
    destruct (HRepo.update _ _ _ _) as [[h | e] t']; cbn [snd mret M_ret];
      by exists t', (tried (lib env) df).
  - unfold _process_file_content, try_except, raise, lift. cbv zeta. rewrite Hread. done.
  - unfold _process_file_content, try_except, raise, lift. cbv zeta. rewrite Hread. done.
Qed.

Lemma consume_world env history_id w :
  ∃ h df, (process_file_by_history_id env history_id w).2
          = with_history h (with_products (table_after env 0 df (products_table w)) w).
Proof.
  unfold process_file_by_history_id, try_except.
  destruct (process_body_world env history_id w) as (h & df & Hw).
  destruct (process_body env history_id w) as [[s | e] w1]; cbn [snd] in Hw; subst w1.
  - by exists h, df.
  - unfold mbind, M_bind, raise. rewrite mark_error_ok. cbn [snd].
    destruct (mark_error_world env history_id e
                (with_history h
                   (with_products (table_after env 0 df (products_table w)) w)))
      as [h' ->].
    by exists h', df.
Qed.

(** X11. Whatever happens in it, a consumption writes neither the bucket
    nor the topic; in the history table it changes at most the row of its
    own job; and the products table only grows at its end: no product is
    removed or rewritten. *)
Theorem X11_consumption_frame (env : Env) (history_id : string) (w : World) :
  let w' := (process_file_by_history_id env history_id w).2 in
  bucket w' = bucket w
  ∧ topic w' = topic w
  ∧ calls w' = calls w
  ∧ (∀ k, k ≠ history_id → history_table w' !! k = history_table w !! k)
  ∧ ∃ added, products_table w' = products_table w ++ added.
Proof.
  intros w'. unfold w'.
  destruct (consume_world env history_id w) as (h & df & Hw).
  split; [by rewrite Hw |]. split; [by rewrite Hw |]. split; [by rewrite Hw |].
  split; [| rewrite Hw; cbn [products_table with_history with_products];
            apply table_after_app].
  intros k Hk.
  destruct (consume_table env history_id w) as [-> | (? & ? & ? & _ & _ & _ & _ & _ & ->)];
    [done |].
  by rewrite lookup_insert_ne.
Qed.

(** X12. When a consumption returns, the job existed; total is successful
    plus failed; there is one error line per failed row; the result reads
    "<successful>/<total> productos registrados"; the job has become
    "Finalizado" with that result (file, user and creation date kept,
    [updated_at] stamped); and the products table has exactly
    [successful_records] more rows. *)
Theorem X12_consumption_success
    (env : Env) (history_id : string) (w w' : World) (s : Summary) :
  process_file_by_history_id env history_id w = (Ok s, w') →
  ∃ row,
    history_table w !! history_id = Some row
    ∧ ProductFileProcessorService.history_id s = history_id
    ∧ file_name s = HRepo.db_file_name row
    ∧ total_records s = (successful_records s + failed_records s)%nat
    ∧ length (errors s) = failed_records s
    ∧ result s = result_message (successful_records s) (total_records s)
    ∧ history_table w' = <[history_id := finalized_row env (result s) row]> (history_table w)
    ∧ length (products_table w')
      = (length (products_table w) + successful_records s)%nat.
Proof.
  unfold process_file_by_history_id, try_except.
  destruct (process_body env history_id w) as [[s0 | e] w0] eqn:Hbody.
  2:{ unfold mbind, M_bind, raise.
      destruct (mark_error _ _ _ _) as [[[] | ?] ?]; done. }
  intros [= <- <-]. revert Hbody.
  unfold process_body, mbind, M_bind, history_get_by_id, HRepo.get_by_id.
  destruct (lookup_fault env); [done |].
  destruct (history_table w !! history_id) as [row |] eqn:Hrow;
    cbn [fmap option_fmap option_map]; [| done].
  unfold CloudStorageService.download_file.
  destruct (download_fault env); [done |].
  destruct (bucket w !! _) as [blob |]; [| done].
  destruct (_process_file_content env (blob_data blob)
              (PPH.file_name (HRepo._db_to_model history_id row)) w)
    as [[[[[total succ] failed] errs] | e] w1] eqn:Hcontent; [| done].
  destruct (process_file_content_ok _ _ _ _ _ _ Hcontent) as (df & Hread & Hlabels).
  rewrite (process_file_content_labelled _ _ _ _ _ Hread Hlabels) in Hcontent.
  injection Hcontent as <- <- <- <- <-.
  unfold history_update.
  destruct (HRepo.update _ _ _ _) as [[h | e] t'] eqn:Hu; [| done].
  unfold mret, M_ret. intros [= <- <-].
  eapply update_ok in Hu; [| done |].
  2:{ rewrite world_after_table. cbn [history_table with_products]. exact Hrow. }
  exists row. cbn [ProductFileProcessorService.history_id file_name total_records
                   successful_records failed_records result errors].
  pose proof (failed_rows_length env 0 df w) as Hlen.
  split; [done |]. split; [done |]. split; [done |]. split; [lia |].
  split; [by rewrite length_map |]. split; [done |]. split.
  - cbn [history_table with_history]. rewrite Hu. rewrite world_after_table.
    cbn [history_table with_products]. done.
  - cbn [products_table with_history]. rewrite world_after_table.
    cbn [products_table with_products]. apply table_after_length.
Qed.

Lemma X12_witness :
  ∃ s w', process_file_by_history_id Demo.consumer_env "job-1"
            (Demo.pending_world "stock.csv" "two rows") = (Ok s, w')
          ∧ length (products_table w') = successful_records s.
Proof.
  destruct (process_file_by_history_id Demo.consumer_env "job-1"
              (Demo.pending_world "stock.csv" "two rows")) as [[s | e] w'] eqn:Hrun;
    [| by vm_compute in Hrun].
  exists s, w'. split; [reflexivity |].
  destruct (X12_consumption_success Demo.consumer_env "job-1"
              (Demo.pending_world "stock.csv" "two rows") w' s Hrun)
    as (row & _ & _ & _ & _ & _ & _ & _ & Hlen).
  exact Hlen.
Defined.

(** *** What the stored products satisfy *)

Lemma bind_ok (x k : outcome unit) : (x ≫= λ _, k) = Ok tt → x = Ok tt ∧ k = Ok tt.
Proof. destruct x as [[] |]; [done | done]. Qed.

Lemma check_ok b m : ProductModel.check b m = Ok tt → b = true.
Proof. by destruct b. Qed.

Lemma validate_ok_inv now p :
  ProductModel.validate now p = Ok tt →
  ProductModel.sku_pattern (sku p) = true
  ∧ ProductModel.name_pattern (name p) = true
  ∧ (now < expiration_date p)%Z
  ∧ (1 ≤ quantity p ≤ 9999)%Z
  ∧ ProductModel.price_le_0 (price p) = false
  ∧ ProductModel.location_pattern (location p) = true
  ∧ product_type p ∈ ProductModel.valid_types
  ∧ ProductModel.uuid_pattern (PyStr.lower (provider_id p)) = true.
Proof.
  unfold ProductModel.validate.
  intros (Hsku & (Hname & (Hexp & (Hq & (Hprice & (Hloc & (Htype & (Hprov & _)%bind_ok
    )%bind_ok)%bind_ok)%bind_ok)%bind_ok)%bind_ok)%bind_ok)%bind_ok.
  apply bind_ok in Hsku as [_ Hsku%check_ok].
  apply bind_ok in Hname as [_ [_ Hname%check_ok]%bind_ok].
  apply check_ok in Hexp. apply check_ok in Hq. apply check_ok in Hprice.
  apply bind_ok in Hloc as [_ Hloc%check_ok].
  apply bind_ok in Htype as [_ Htype%check_ok].
  apply bind_ok in Hprov as [_ Hprov%check_ok].
  apply negb_true_iff in Hexp, Hq, Hprice.
  apply orb_false_iff in Hq as [Hq1 Hq2].
  apply bool_decide_eq_true in Htype.
  repeat split; try done; lia.
Qed.

(** The clock enters the validation through the expiry date only: what is
    valid now was valid before. *)
Lemma validate_antitone now now' p :
  (now ≤ now')%Z →
  ProductModel.validate now' p = Ok tt → ProductModel.validate now p = Ok tt.
Proof.
  intros Hle. unfold ProductModel.validate.
  destruct (ProductModel._validate_sku p) as [[] |]; [| done].
  destruct (ProductModel._validate_name p) as [[] |]; [| done].
  cbn [mbind result_bind]. unfold ProductModel._validate_expiration_date.
  destruct (Z.leb_spec (expiration_date p) now'); [done |].
  destruct (Z.leb_spec (expiration_date p) now); [lia | done].
Qed.

Lemma rstrip_last s : last_is_space (PyStr.rstrip s) = false.
Proof.
  induction s as [| c r IH]; [done |].
  cbn [PyStr.rstrip]. destruct (PyStr.rstrip r) as [| a r'] eqn:Hr.
  - cbn [PyStr.is_empty andb]. by destruct (PyStr.isspace c) eqn:Hc; cbn [last_is_space].
  - cbn [PyStr.is_empty andb]. exact IH.
Qed.

Lemma endswith_newline_last s :
  PyStr.endswith s (String (ascii_of_nat 10) EmptyString) = true → last_is_space s = true.
Proof.
  induction s as [| a r IH]; [done |].
  destruct r as [| b r'].
  - unfold PyStr.endswith. simpl.
    destruct (Ascii.eqb_spec a (ascii_of_nat 10)) as [-> | ?]; [reflexivity | done].
  - intros H. cbn [last_is_space]. apply IH. revert H. unfold PyStr.endswith.
    simpl. by rewrite Nat.sub_0_r.
Qed.

(** A stripped string has no final newline for [$] to skip. *)
Lemma chomp_strip x : PyStr.chomp_newline (PyStr.strip x) = PyStr.strip x.
Proof.
  unfold PyStr.chomp_newline.
  destruct (PyStr.endswith (PyStr.strip x) _) eqn:He; [| done].
  apply endswith_newline_last in He. unfold PyStr.strip in He.
  by rewrite rstrip_last in He.
Qed.

Ltac look_in H row k :=
  destruct (row !! k); cbn [mbind result_bind] in H; [| done].

Ltac convert_in H f :=
  match type of H with
  | context [f ?l ?c] => destruct (f l c); cbn [mbind result_bind] in H; [| done]
  end.

(** The code and the location of a product built from a row are stripped. *)
Lemma built_fields_stripped l row p :
  _create_product_from_row l row = Ok p →
  ∃ x y, sku p = PyStr.strip x ∧ location p = PyStr.strip y.
Proof.
  unfold _create_product_from_row.
  destruct (product_from_row l row) as [p' | e] eqn:H; [| by destruct (exn_cls e)].
  intros [= <-]. revert H. unfold product_from_row, getitem. intros H.
  look_in H row "expiration_date". convert_in H parse_expiration_date.
  look_in H row "sku". look_in H row "name".
  look_in H row "quantity". convert_in H py_int.
  look_in H row "price". convert_in H py_float.
  look_in H row "location". look_in H row "product_type". look_in H row "provider_id".
  injection H as <-. cbn [sku location]. eauto.
Qed.

Lemma match_shape_mono (ps qs : list (ascii → bool)) s :
  Forall2 (λ p q : ascii → bool, ∀ c, p c = true → q c = true) ps qs →
  PyStr.match_shape ps s = true → PyStr.match_shape qs s = true.
Proof.
  intros H. revert s.
  induction H as [| p q ps qs Hpq _ IH]; intros [| c r]; cbn [PyStr.match_shape];
    try done.
  intros [Hp Hr]%andb_true_iff. by rewrite (Hpq _ Hp), (IH _ Hr).
Qed.

Lemma match_shape_length (ps : list (ascii → bool)) s :
  PyStr.match_shape ps s = true → String.length s = length ps.
Proof.
  revert s. induction ps as [| q ps IH]; intros [| c r]; cbn [PyStr.match_shape];
    try done.
  intros [_ Hr]%andb_true_iff. cbn [String.length length]. by rewrite (IH _ Hr).
Qed.

Lemma built_and_valid_shape env p :
  built_and_valid env p →
  sku_shape (sku p) = true ∧ location_shape (location p) = true
  ∧ String.length (sku p) = 8%nat ∧ String.length (location p) = 7%nat
  ∧ last_is_space (sku p) = false ∧ last_is_space (location p) = false
  ∧ (1 ≤ quantity p ≤ 9999)%Z.
Proof.
  intros (index & row & Hb & Hv).
  apply built_fields_stripped in Hb as (x & y & Hx & Hy).
  apply validate_ok_inv in Hv as (Hsku & _ & _ & Hq & _ & Hloc & _).
  unfold ProductModel.sku_pattern in Hsku. unfold ProductModel.location_pattern in Hloc.
  rewrite Hx, chomp_strip in Hsku. rewrite Hy, chomp_strip in Hloc.
  assert (Hs : sku_shape (sku p) = true).
  { rewrite Hx. revert Hsku. apply match_shape_mono. repeat constructor; by intros. }
  assert (Hl : location_shape (location p) = true).
  { rewrite Hy. revert Hloc. apply match_shape_mono. repeat constructor; by intros. }
  split; [exact Hs |]. split; [exact Hl |].
  split; [| split; [| split; [| split; [| done]]]].
  - by apply match_shape_length in Hs.
  - by apply match_shape_length in Hl.
  - rewrite Hx. apply rstrip_last.
  - rewrite Hy. apply rstrip_last.
Qed.

Lemma sku_taken_false t s : ProductRepository.sku_taken t s = false ↔ s ∉ skus t.
Proof.
  unfold ProductRepository.sku_taken, skus. induction t as [| p t IH]; cbn [existsb fmap list_fmap].
  - split; [intros _; apply not_elem_of_nil | done].
  - rewrite orb_false_iff, IH, not_elem_of_cons, String.eqb_neq. split; intros [? ?]; done.
Qed.

(** The loop keeps the codes of the table distinct; what it appends was
    built from a row, was valid, and had a code that was not in the table. *)
Lemma table_after_inv env df : ∀ index t,
  ∃ added, table_after env index df t = t ++ added
           ∧ (NoDup (skus t) → NoDup (skus (t ++ added)))
           ∧ Forall (λ p, (sku p ∉ skus t) ∧ built_and_valid env p) added.
Proof.
  induction df as [| [label row] rest IH]; intros index t; cbn [table_after].
  - exists []. rewrite app_nil_r. done.
  - destruct (row_step_cases env index row t)
      as [[e ->] | (p & -> & Hb & Hv & Htaken)]; cbn [snd]; [apply IH |].
    apply sku_taken_false in Htaken.
    destruct (IH (S index) (t ++ [p])) as (added & -> & Hnd & Hall).
    exists (p :: added). split; [by rewrite <- app_assoc |]. split.
    + intros Ht. change (t ++ p :: added) with (t ++ ([p] ++ added)).
      rewrite app_assoc. apply Hnd.
      unfold skus. rewrite fmap_app. apply NoDup_app. split; [done |].
      split; [| apply NoDup_singleton].
      intros s Hs ->%list_elem_of_singleton. done.
    + constructor.
      * split; [done |]. by exists index, row.
      * eapply Forall_impl; [exact Hall |]. intros q [Hq ?]. split; [| done].
        intros Hin. apply Hq. unfold skus. rewrite fmap_app. apply elem_of_app. by left.
Qed.

(** X13. Whatever a consumption appends to the products table was built
    from a row of its file and had passed the validation of the repository;
    so its code is "MED-" and four more characters (those the digit class
    of the pattern accepts) with nothing after: eight characters, the last
    no white space, although [$] alone would let a final newline through.
    Its location is a capital from A to Z, a dash, two characters, a dash
    and two characters; its quantity is between 1 and 9999. Its code was
    not in the table, and a table whose codes are distinct stays so. *)
Theorem X13_stored_products (env : Env) (history_id : string) (w : World) :
  let w' := (process_file_by_history_id env history_id w).2 in
  ∃ added,
    products_table w' = products_table w ++ added
    ∧ (NoDup (skus (products_table w)) → NoDup (skus (products_table w')))
    ∧ Forall (λ p, (sku p ∉ skus (products_table w))
                   ∧ sku_shape (sku p) = true
                   ∧ location_shape (location p) = true
                   ∧ String.length (sku p) = 8%nat
                   ∧ String.length (location p) = 7%nat
                   ∧ last_is_space (sku p) = false
                   ∧ last_is_space (location p) = false
                   ∧ (1 ≤ quantity p ≤ 9999)%Z
                   ∧ built_and_valid env p) added.
Proof.
  intros w'. unfold w'.
  destruct (consume_world env history_id w) as (h & df & ->).
  cbn [products_table with_history with_products].
  destruct (table_after_inv env df 0 (products_table w)) as (added & -> & Hnd & Hall).
  exists added. split; [done |]. split; [done |].
  eapply Forall_impl; [exact Hall |]. intros p [Hfresh Hbv].
  destruct (built_and_valid_shape env p Hbv) as (? & ? & ? & ? & ? & ? & ?). done.
Qed.

Lemma X13_witness :
  NoDup (skus (products_table
                 (process_file_by_history_id Demo.consumer_env "job-1"
                    (Demo.pending_world "stock.csv" "same code twice")).2)).
Proof.
  destruct (X13_stored_products Demo.consumer_env "job-1"
              (Demo.pending_world "stock.csv" "same code twice"))
    as (added & _ & H & _).
  apply H. apply NoDup_nil_2.
Defined.

(** [Product.validate] raises nothing but [ValueError]. *)
Lemma product_validate_value_error now p e :
  ProductModel.validate now p = Raise e → exn_cls e = ValueError.
Proof.
  assert (Hcheck : ∀ b m e', ProductModel.check b m = Raise e' → exn_cls e' = ValueError).
  { intros [] m e'; [done |]. by intros [= <-]. }
  assert (Hbind : ∀ (x k : outcome unit),
            (∀ e', x = Raise e' → exn_cls e' = ValueError) →
            (∀ e', k = Raise e' → exn_cls e' = ValueError) →
            ∀ e', (x ≫= λ _, k) = Raise e' → exn_cls e' = ValueError).
  { intros [[] |] k Hx Hk e'; cbn [mbind result_bind]; [apply Hk |].
    intros [= <-]. by apply Hx. }
  revert e.
  unfold ProductModel.validate,
    ProductModel._validate_sku, ProductModel._validate_name,
    ProductModel._validate_expiration_date, ProductModel._validate_quantity,
    ProductModel._validate_price, ProductModel._validate_location,
    ProductModel._validate_product_type, ProductModel._validate_provider_id,
    ProductModel._validate_photo_filename.
  repeat (apply Hbind; [repeat (apply Hbind; [apply Hcheck |]); apply Hcheck |]).
  destruct (photo_filename p) as [f |]; [| done].
  destruct (PyStr.is_empty f); [done | apply Hcheck].
Qed.

(** X14. [ProductRepository.create] stores a product exactly when it is
    valid, the database does not fail and its code is not in the table; it
    then appends it and nothing else. An invalid product is refused before
    the database is asked: the [ValueError] of [Product.validate] comes out
    as it is, also when the database would have failed. A valid product
    that the database refuses, for a failure of its own or for a code that
    is in the table, comes out as [Exception] "Error al crear producto:
    <text of the database>". In both cases the table is left as it was.
    Distinct codes stay distinct. *)
Theorem X14_product_create
    (now : Z) (fault : option string) (unique_msg : string) (p : Product)
    (t : list Product) :
  let res := ProductRepository.create now fault unique_msg p t in
  (res.1 = Ok tt ↔
   ProductModel.validate now p = Ok tt ∧ fault = None ∧ sku p ∉ skus t)
  ∧ (res.1 = Ok tt → res.2 = t ++ [p])
  ∧ (∀ e, ProductModel.validate now p = Raise e →
       res = (Raise e, t) ∧ exn_cls e = ValueError)
  ∧ (ProductModel.validate now p = Ok tt →
     (∀ m, fault = Some m →
        res = (Raise (Exn Exception ("Error al crear producto: " +:+ m)), t))
     ∧ (fault = None → sku p ∈ skus t →
        res = (Raise (Exn Exception ("Error al crear producto: " +:+ unique_msg)), t)))
  ∧ (∀ e, res.1 = Raise e →
       res.2 = t
       ∧ (exn_cls e = ValueError ↔ ProductModel.validate now p ≠ Ok tt)
       ∧ (exn_cls e = Exception ↔ ProductModel.validate now p = Ok tt))
  ∧ (NoDup (skus t) → NoDup (skus res.2)).
Proof.
  unfold ProductRepository.create, ProductRepository.insert.
  destruct (ProductModel.validate now p) as [[] | e0] eqn:Hv.
  2:{ pose proof (product_validate_value_error _ _ _ Hv) as Hcls.
      cbn [fst snd]. split; [split; [done | by intros (? & _)] |].
      split; [done |]. split; [by intros e [= <-] |]. split; [done |].
      split; [| done]. intros e [= <-]. split; [done |].
      rewrite Hcls. split; split; done. }
  destruct fault as [m |].
  { cbn [fst snd]. split; [split; [done | by intros (_ & ? & _)] |].
    split; [done |]. split; [done |].
    split; [split; [by intros m' [= <-] | done] |].
    split; [| done]. intros e [= <-]. cbn [exn_cls].
    split; [done |]. split; split; done. }
  destruct (ProductRepository.sku_taken t (sku p)) eqn:Htaken; cbn [fst snd].
  - split.
    { split; [done |]. intros (_ & _ & Hfree). apply sku_taken_false in Hfree. congruence. }
    split; [done |]. split; [done |].
    split; [split; [done | by rewrite exn_msg_Exn] |].
    split; [| done]. intros e [= <-]. cbn [exn_cls].
    split; [done |]. split; split; done.
  - apply sku_taken_false in Htaken.
    split; [done |]. split; [done |]. split; [done |].
    split; [split; [done | done] |]. split; [done |].
    intros Ht. unfold skus. rewrite fmap_app. apply NoDup_app. split; [done |].
    split; [| apply NoDup_singleton].
    intros s Hs ->%list_elem_of_singleton. done.
Qed.

(** *** A second delivery of the same file *)

Lemma table_after_skus env df index t s :
  s ∈ skus t → s ∈ skus (table_after env index df t).
Proof.
  intros Hs. destruct (table_after_app env df index t) as [added ->].
  unfold skus. rewrite fmap_app. apply elem_of_app. by left.
Qed.

(** After a run without database failures, the code of every row that
    could be built and was valid is in the table. *)
Lemma first_run_covers env df :
  (∀ j, insert_fault env j = None) →
  ∀ index t k label row p,
    df !! k = Some (label, row) →
    _create_product_from_row (lib env) row = Ok p →
    ProductModel.validate (row_utcnow env (index + k)) p = Ok tt →
    sku p ∈ skus (table_after env index df t).
Proof.
  intros Hfault.
  induction df as [| [label0 r] rest IH]; intros index t k label row p Hk Hb Hv; [done |].
  cbn [table_after]. destruct k as [| k].
  - injection Hk as _ ->. rewrite Nat.add_0_r in Hv.
    apply table_after_skus. unfold row_step. rewrite Hb.
    unfold ProductRepository.create, ProductRepository.insert. rewrite Hv, Hfault.
    destruct (ProductRepository.sku_taken t (sku p)) eqn:Htaken; cbn [snd].
    + destruct (decide (sku p ∈ skus t)) as [? | Hnot]; [done |].
      apply sku_taken_false in Hnot. congruence.
    + unfold skus. rewrite fmap_app. apply elem_of_app. right.
      apply list_elem_of_singleton. done.
  - cbn [lookup list_lookup] in Hk. eapply IH; [exact Hk | exact Hb |].
    by replace (S index + k)%nat with (index + S k)%nat by lia.
Qed.

(** A row cannot be stored when its code is in the table. *)
Lemma row_step_taken env index row t :
  (∀ p, _create_product_from_row (lib env) row = Ok p →
        ProductModel.validate (row_utcnow env index) p = Ok tt → sku p ∈ skus t) →
  ∃ e, row_step env index row t = (Raise e, t).
Proof.
  intros Hin. unfold row_step.
  destruct (_create_product_from_row (lib env) row) as [p | e]; [| eauto].
  unfold ProductRepository.create, ProductRepository.insert.
  destruct (ProductModel.validate _ p) as [[] |] eqn:Hv; [| eauto].
  destruct (insert_fault env index); [eauto |].
  destruct (ProductRepository.sku_taken t (sku p)) eqn:Htaken; [eauto |].
  apply sku_taken_false in Htaken. exfalso. apply Htaken. by apply Hin.
Qed.

Lemma all_rows_fail env df : ∀ index w,
  (∀ k label row, df !! k = Some (label, row) →
     ∃ e, row_step env (index + k) row (products_table w) = (Raise e, products_table w)) →
  length (failed_rows env index df w) = length df ∧ world_after env index df w = w.
Proof.
  induction df as [| [label r] rest IH]; intros index w Hall; [done |].
  cbn [failed_rows world_after length]. rewrite ingest_row_step.
  destruct (Hall 0%nat label r eq_refl) as [e He]. rewrite Nat.add_0_r in He.
  rewrite He. cbn [fst snd]. rewrite with_products_id.
  destruct (IH (S index) w) as [Hlen Hw].
  { intros k label' row Hk. replace (S index + k)%nat with (index + S k)%nat by lia.
    by apply (Hall (S k) label'). }
  cbn [length]. by rewrite Hlen, Hw.
Qed.

(** X15. Running the rows of a file a second time stores nothing. If
    every index label of the parsed frame can be added to (as under the
    default index) and the first run met no database failure, then a later
    run over the same rows (same conversions, a clock that has not gone
    back), on the world the first run left, counts every row as failed,
    reports one error per row and leaves that world as it is: the rows that
    were stored now meet their own code, the others fail as before. *)
Theorem X15_second_run_stores_nothing
    (env env' : Env) (content filename : string) (w : World) (df : DataFrame) :
  read_by_extension (pandas env) (extension_of filename) content = Some (Ok df) →
  read_by_extension (pandas env') (extension_of filename) content = Some (Ok df) →
  lib env' = lib env →
  first_label_error (lib env) df = None →
  (∀ j, insert_fault env j = None) →
  (∀ j, (row_utcnow env j ≤ row_utcnow env' j)%Z) →
  let w1 := (_process_file_content env content filename w).2 in
  ∃ errs,
    _process_file_content env' content filename w1
    = (Ok (length df, 0%nat, length df, errs), w1)
    ∧ length errs = length df.
Proof.
  intros Hread Hread' Hlib Hlabels Hfault Hclock w1. unfold w1.
  rewrite (process_file_content_labelled _ _ _ _ _ Hread Hlabels). cbn [snd].
  rewrite <- Hlib in Hlabels.
  rewrite (process_file_content_labelled _ _ _ _ _ Hread' Hlabels).
  destruct (all_rows_fail env' df 0 (world_after env 0 df w)) as [Hlen Hw].
  { intros k label row Hk. cbn [Nat.add]. apply row_step_taken. intros p Hb Hv.
    rewrite world_after_table. cbn [products_table with_products].
    rewrite Hlib in Hb.
    apply (first_run_covers env df Hfault 0%nat (products_table w) k label row p Hk Hb).
    cbn [Nat.add]. apply (validate_antitone _ (row_utcnow env' k)); [apply Hclock | exact Hv]. }
  rewrite Hlen, Hw, Nat.sub_diag.
  eexists. split; [reflexivity |]. by rewrite length_map.
Qed.

Lemma X15_witness :
  let w1 := (_process_file_content Demo.consumer_env "two rows" "stock.csv"
               Demo.empty_world).2 in
  ∃ errs, _process_file_content Demo.consumer_env "two rows" "stock.csv" w1
          = (Ok (2, 0, 2, errs)%nat, w1).
Proof.
  intros w1.
  destruct (X15_second_run_stores_nothing Demo.consumer_env Demo.consumer_env
              "two rows" "stock.csv" Demo.empty_world Demo.two_rows)
    as (errs & H & _);
    [reflexivity | reflexivity | reflexivity | reflexivity | done | done |].
  exists errs. exact H.
Defined.

(** X16. A product that the model accepts at some time is accepted at any
    earlier time: the clock enters [Product.validate] only through the
    expiry date, so the products it accepts can only become fewer. *)
Theorem X16_validity_only_expires (now now' : Z) (p : Product) :
  (now ≤ now')%Z →
  ProductModel.validate now' p = Ok tt →
  ProductModel.validate now p = Ok tt ∧ (now' < expiration_date p)%Z.
Proof.
  intros Hle Hv. split; [by eapply validate_antitone |].
  by apply validate_ok_inv in Hv as (_ & _ & ? & _).
Qed.

Lemma X16_witness :
  ∃ p, Consumer._create_product_from_row Demo.pylib (Demo.good_row "MED-1234") = Ok p
       ∧ ProductModel.validate 20200101 p = Ok tt
       ∧ (20261104 < expiration_date p)%Z.
Proof.
  eexists. split; [vm_compute; reflexivity |].
  apply (X16_validity_only_expires 20200101 20261104); [lia | vm_compute; reflexivity].
Defined.

(** *** Building a product from a row *)

Ltac absent :=
  split; [done |];
  intros [Hall _]; destruct_and?;
  repeat match goal with H : is_Some None |- _ => by destruct H end.

Ltac unconvertible E :=
  split; [done |];
  intros [_ (Hd' & Hq' & Hp')];
  first [ specialize (Hd' _ eq_refl); by rewrite E in Hd'
        | specialize (Hq' _ eq_refl); by rewrite E in Hq'
        | specialize (Hp' _ eq_refl); by rewrite E in Hp' ].

Lemma product_from_row_ok_iff l row :
  is_ok (product_from_row l row) = true
  ↔ Forall (λ c, is_Some (row !! c)) required_columns ∧ conversions_ok l row.
Proof.
  unfold product_from_row, getitem, conversions_ok, required_columns.
  rewrite !Forall_cons.
  destruct (row !! "expiration_date") as [cd |]; cbn [mbind result_bind]; [| absent].
  destruct (parse_expiration_date l cd) as [d |] eqn:Hd; cbn [mbind result_bind];
    [| unconvertible Hd].
  destruct (row !! "sku"); cbn [mbind result_bind]; [| absent].
  destruct (row !! "name"); cbn [mbind result_bind]; [| absent].
  destruct (row !! "quantity") as [cq |]; cbn [mbind result_bind]; [| absent].
  destruct (py_int l cq) as [q |] eqn:Hq; cbn [mbind result_bind];
    [| unconvertible Hq].
  destruct (row !! "price") as [cp |]; cbn [mbind result_bind]; [| absent].
  destruct (py_float l cp) as [f |] eqn:Hp; cbn [mbind result_bind];
    [| unconvertible Hp].
  destruct (row !! "location"); cbn [mbind result_bind]; [| absent].
  destruct (row !! "product_type"); cbn [mbind result_bind]; [| absent].
  destruct (row !! "provider_id"); cbn [mbind result_bind]; [| absent].
  split; [intros _ | done]. split.
  - by repeat (split; [eexists |]).
  - repeat split; intros ? [= <-]; by rewrite ?Hd, ?Hq, ?Hp.
Qed.

(** X17. [_create_product_from_row] returns a product exactly when the
    eight columns it reads with [row[...]] are in the row and the date, the
    quantity and the price convert; whatever goes wrong, it raises a
    [ValueError]. The description and the two photo columns can be left
    out: the product then has the empty description and no photo. *)
Theorem X17_row_builds_exactly (l : PyLib) (row : Row) :
  (is_ok (_create_product_from_row l row) = true
   ↔ Forall (λ c, is_Some (row !! c)) required_columns ∧ conversions_ok l row)
  ∧ (∀ e, _create_product_from_row l row = Raise e → exn_cls e = ValueError)
  ∧ (∀ p, _create_product_from_row l row = Ok p →
       (row !! "description" = None → description p = "")
       ∧ (row !! "photo_filename" = None → photo_filename p = None)
       ∧ (row !! "photo_url" = None → photo_url p = None)).
Proof.
  split; [| split].
  - rewrite <- product_from_row_ok_iff. unfold _create_product_from_row.
    destruct (product_from_row l row) as [p | e]; [done |].
    by destruct (exn_cls e).
  - intros e. unfold _create_product_from_row.
    destruct (product_from_row l row) as [p | e0]; [done |].
    destruct (exn_cls e0); by intros [= <-].
  - intros p. unfold _create_product_from_row.
    destruct (product_from_row l row) as [p0 | e0] eqn:Hb;
      [intros [= ->] | by destruct (exn_cls e0)].
    unfold product_from_row, getitem in Hb.
    look_in Hb row "expiration_date". convert_in Hb parse_expiration_date.
    look_in Hb row "sku". look_in Hb row "name".
    look_in Hb row "quantity". convert_in Hb py_int.
    look_in Hb row "price". convert_in Hb py_float.
    look_in Hb row "location". look_in Hb row "product_type".
    look_in Hb row "provider_id".
    injection Hb as <-. cbn [description photo_filename photo_url].
    unfold description_field, optional_field.
    repeat split; by intros ->.
Qed.

(** *** When a consumption returns *)

Lemma world_after_history env df index w :
  history_table (world_after env index df w) = history_table w.
Proof. rewrite world_after_table. by destruct w. Qed.

Lemma world_after_bucket env df index w :
  bucket (world_after env index df w) = bucket w.
Proof. rewrite world_after_table. by destruct w. Qed.

Lemma finalized_bounds st res now key row :
  (1 ≤ String.length st ≤ 20)%nat →
  model_bounds (PPH.set_outcome st res now (HRepo._db_to_model key row))
  ↔ (1 ≤ String.length (HRepo.db_file_name row) ≤ 100)%nat
    ∧ (1 ≤ String.length (HRepo.db_user_id row) ≤ 36)%nat.
Proof.
  intros Hst. unfold model_bounds, within_bounds, PPH.set_outcome, HRepo._db_to_model.
  cbn [PPH.file_name PPH.user_id PPH.status]. tauto.
Qed.

(** With the job, its blob, a file that parses into a frame whose labels
    can be added to, and no failure of the lookup, the download or the
    update, the consumption returns, whatever happens to the rows. *)
Lemma consume_runs env history_id w row blob df :
  lookup_fault env = None → download_fault env = None → update_fault env = None →
  history_table w !! history_id = Some row →
  bucket w !! blob_path env (HRepo.db_file_name row) = Some blob →
  read_by_extension (pandas env) (extension_of (HRepo.db_file_name row)) (blob_data blob)
  = Some (Ok df) →
  first_label_error (lib env) df = None →
  (1 ≤ String.length (HRepo.db_file_name row) ≤ 100)%nat →
  (1 ≤ String.length (HRepo.db_user_id row) ≤ 36)%nat →
  let fs := failed_rows env 0 df w in
  let res := result_message (length df - length fs) (length df) in
  process_file_by_history_id env history_id w
  = (Ok {| ProductFileProcessorService.history_id := history_id;
           file_name := HRepo.db_file_name row;
           total_records := length df;
           successful_records := length df - length fs;
           failed_records := length fs;
           result := res;
           errors := map (error_line (lib env)) fs |},
     with_history (<[history_id := finalized_row env res row]> (history_table w))
       (world_after env 0 df w)).
Proof.
  intros Hl Hd Hu Hrow Hblob Hread Hlabels Hname Huser fs res.
  unfold process_file_by_history_id, try_except, process_body, mbind, M_bind,
    history_get_by_id, HRepo.get_by_id.
  rewrite Hl, Hrow. cbn [fmap option_fmap option_map].
  unfold CloudStorageService.download_file. rewrite Hd.
  cbn [PPH.file_name HRepo._db_to_model]. unfold blob_path in Hblob.
  cbv zeta in Hblob |- *. rewrite Hblob.
  rewrite (process_file_content_labelled _ _ _ _ _ Hread Hlabels).
  fold fs. fold res. unfold history_update, HRepo.update.
  assert (Hv : PPH.validate (PPH.set_outcome "Finalizado" res (utcnow env)
                               (HRepo._db_to_model history_id row)) = Ok tt).
  { apply validate_ok, finalized_bounds; [| done]. cbn [String.length]. lia. }
  cbn [PPH.file_name HRepo._db_to_model] in Hv |- *.
  rewrite Hv, Hu. cbn [PPH.id PPH.set_outcome HRepo._db_to_model].
  rewrite world_after_history, Hrow. reflexivity.
Qed.

(** X18. A consumption returns exactly when the lookup, the download and
    the update do not fail, the job is in the table with a file name of 1
    to 100 and a user id of 1 to 36 characters, its blob is in the bucket
    under the path the consumer computes, the blob parses with the parser
    of the file name's extension, and every index label of the parsed
    frame can be added to. Of the rows nothing else enters: rows that
    cannot be built, are invalid or are refused by the database, all of
    them even, do not make the consumption fail; a row under a label that
    is a text does, whatever it holds. *)
Theorem X18_consumption_returns_exactly (env : Env) (history_id : string) (w : World) :
  is_ok (process_file_by_history_id env history_id w).1 = true
  ↔ lookup_fault env = None ∧ download_fault env = None ∧ update_fault env = None
    ∧ ∃ row blob df,
        history_table w !! history_id = Some row
        ∧ bucket w !! blob_path env (HRepo.db_file_name row) = Some blob
        ∧ read_by_extension (pandas env) (extension_of (HRepo.db_file_name row))
            (blob_data blob) = Some (Ok df)
        ∧ first_label_error (lib env) df = None
        ∧ (1 ≤ String.length (HRepo.db_file_name row) ≤ 100)%nat
        ∧ (1 ≤ String.length (HRepo.db_user_id row) ≤ 36)%nat.
Proof.
  split.
  2:{ intros (Hl & Hd & Hu & row & blob & df & Hrow & Hblob & Hread & Hlabels
              & Hname & Huser).
      by rewrite (consume_runs env history_id w row blob df). }
  unfold process_file_by_history_id, try_except.
  destruct (process_body env history_id w) as [[s | e] w0] eqn:Hbody.
  2:{ unfold mbind, M_bind, raise.
      destruct (mark_error _ _ _ _) as [[[] | ?] ?]; done. }
  intros _. revert Hbody.
  unfold process_body, mbind, M_bind, history_get_by_id, HRepo.get_by_id.
  destruct (lookup_fault env); [done |].
  destruct (history_table w !! history_id) as [row |] eqn:Hrow;
    cbn [fmap option_fmap option_map]; [| done].
  unfold CloudStorageService.download_file.
  destruct (download_fault env); [done |].
  cbn [PPH.file_name HRepo._db_to_model]. cbv zeta.
  destruct (bucket w !! _) as [blob |] eqn:Hblob; [| done].
  destruct (_process_file_content env (blob_data blob) (HRepo.db_file_name row) w)
    as [[[[[total succ] failed] errs] | e] w1] eqn:Hcontent; [| done].
  destruct (process_file_content_ok _ _ _ _ _ _ Hcontent) as (df & Hread & Hlabels).
  unfold history_update.
  destruct (HRepo.update _ _ _ _) as [[h | e] t'] eqn:Hu; [| done].
  intros _.
  assert (Hok : is_ok (HRepo.update (utcnow env) (update_fault env)
                         (PPH.set_outcome "Finalizado" (result_message succ total)
                            (utcnow env) (HRepo._db_to_model history_id row))
                         (history_table w1)).1 = true).
  { cbn [PPH.file_name HRepo._db_to_model PPH.set_outcome] in Hu |- *. by rewrite Hu. }
  apply update_is_ok in Hok as [Hfault Hb].
  apply finalized_bounds in Hb as [Hname Huser]; [| cbn [String.length]; lia].
  split; [done |]. split; [done |]. split; [done |].
  exists row, blob, df. done.
Qed.

End consumption_more.

(** ** From the submission to the consumption *)
Section pipeline.

Lemma generated_extension name u :
  PyStr.contains_dot name = true → PyStr.after_last_dot name ≠ "" →
  extension_of (_generate_new_filename name u) = extension_of name.
Proof.
  intros Hdot Hext. unfold extension_of. rewrite !after_last_dot_lower. f_equal.
  unfold _generate_new_filename. rewrite Hdot.
  apply is_empty_false in Hext. rewrite Hext. cbn [negb].
  rewrite <- !append_assoc'. rewrite (append_assoc' _ "." (PyStr.after_last_dot name)).
  apply after_last_dot_app, after_last_dot_no_dot.
Qed.

(** X19. What a submission leaves is what the consumer needs, index
    labels apart. When the handler has returned a job id, the consumer
    shares the handler's bucket folder (not the empty one) and its pandas,
    and the labels of the frame pandas reads from the file can be added to
    (the handler does not look at them), a consumption of that id whose
    lookup, download and update do not fail returns: it finds the job,
    finds the blob under the generated key, reads it with the parser the
    handler counted the rows with, reports at most [MAX_IMPORT_PRODUCTS]
    rows, and closes the job as "Finalizado". *)
Theorem X19_submitted_file_is_consumed
    (senv : ProductImportService.Env) (cenv : Consumer.Env)
    (file : ProductImportService.FileStorage) (user_id : string)
    (w w1 : World) (job_id msg : string) :
  ProductImportService.import_products_file senv file user_id w
  = (Ok (job_id, msg), w1) →
  BUCKET_FOLDER_PROCESSED_PRODUCTS (Consumer.config cenv)
  = BUCKET_FOLDER_PROCESSED_PRODUCTS (ProductImportService.config senv) →
  BUCKET_FOLDER_PROCESSED_PRODUCTS (ProductImportService.config senv) ≠ "" →
  Consumer.pandas cenv = ProductImportService.pandas senv →
  (∀ df, read_by_extension (ProductImportService.pandas senv)
           (extension_of (ProductImportService.filename file))
           (ProductImportService.stream file) = Some (Ok df) →
         first_label_error (Consumer.lib cenv) df = None) →
  Consumer.lookup_fault cenv = None →
  Consumer.download_fault cenv = None →
  Consumer.update_fault cenv = None →
  let key := _generate_new_filename (ProductImportService.filename file)
               (ProductImportService.file_uuid senv) in
  ∃ s w2,
    Consumer.process_file_by_history_id cenv job_id w1 = (Ok s, w2)
    ∧ Consumer.file_name s = key
    ∧ (Consumer.total_records s
       ≤ MAX_IMPORT_PRODUCTS (ProductImportService.config senv))%nat
    ∧ history_table w2 !! job_id
      = Some (finalized_row cenv (Consumer.result s) (pending_row senv key user_id))
    ∧ bucket w2 = bucket w1
    ∧ topic w2 = topic w1.
Proof.
  intros Hrun Hfolder Hne Hpd Hlabels Hl Hd Hu key.
  apply import_ok_iff in Hrun as (Hval & _ & _ & _ & _ & Hb & [= -> ->] & ->).
  pose proof Hval as (Hreq & Htype & Hcount).
  apply file_type_ok_inv in Htype as [Hdot Hext].
  apply (records_count_ok_iff senv file Hext) in Hcount as (df & Hread & Hlen).
  pose proof (allowed_extension_nonempty _ Hext) as Hafter.
  set (w1 := submitted_world senv file user_id w).
  set (job_id := Uuid.to_str (ProductImportService.history_uuid senv)).
  assert (Hrow : history_table w1 !! job_id = Some (pending_row senv key user_id)).
  { unfold w1, submitted_world. cbn [history_table]. apply lookup_insert_eq. }
  assert (Hblob : bucket w1 !! blob_path cenv (HRepo.db_file_name (pending_row senv key user_id))
                  = Some (uploaded_blob senv file)).
  { unfold w1, submitted_world, blob_path, upload_path, pending_row.
    cbn [bucket HRepo.db_file_name]. cbv zeta. rewrite Hfolder.
    apply is_empty_false in Hne. rewrite Hne. apply lookup_insert_eq. }
  assert (Hparse : read_by_extension (Consumer.pandas cenv)
                     (extension_of (HRepo.db_file_name (pending_row senv key user_id)))
                     (blob_data (uploaded_blob senv file)) = Some (Ok df)).
  { unfold pending_row, uploaded_blob. cbn [HRepo.db_file_name blob_data].
    unfold key. rewrite generated_extension by done. by rewrite Hpd. }
  unfold model_bounds, within_bounds, new_history in Hb.
  cbn [PPH.file_name PPH.user_id PPH.status] in Hb. destruct Hb as (Hname & Huser & _).
  eexists _, _. split.
  { apply (consume_runs cenv job_id w1 _ _ df Hl Hd Hu Hrow Hblob Hparse (Hlabels df Hread));
      unfold pending_row; cbn [HRepo.db_file_name HRepo.db_user_id]; done. }
  cbn [Consumer.file_name Consumer.total_records Consumer.result].
  split; [done |]. split; [exact Hlen |]. split; [| split].
  - cbn [history_table with_history]. apply lookup_insert_eq.
  - cbn [bucket with_history]. apply world_after_bucket.
  - rewrite world_after_table. reflexivity.
Qed.

Lemma X19_witness :
  ∃ s w2,
    Consumer.process_file_by_history_id Demo.consumer_env
      (Uuid.to_str (ProductImportService.history_uuid (Demo.submit_env None)))
      (submitted_world (Demo.submit_env None) (Demo.upload "stock.csv" "two rows") "user-1"
         Demo.empty_world)
    = (Ok s, w2)
    ∧ (Consumer.total_records s ≤ 100)%nat.
Proof.
  destruct (X19_submitted_file_is_consumed (Demo.submit_env None) Demo.consumer_env
              (Demo.upload "stock.csv" "two rows") "user-1" Demo.empty_world
              (submitted_world (Demo.submit_env None) (Demo.upload "stock.csv" "two rows")
                 "user-1" Demo.empty_world)
              (Uuid.to_str (ProductImportService.history_uuid (Demo.submit_env None)))
              "Archivo cargado exitosamente")
    as (s & w2 & Hrun & _ & Hlen & _);
    [reflexivity | reflexivity | done | reflexivity | | reflexivity | reflexivity
     | reflexivity |].
  { intros df Hdf. change (Some (Ok Demo.two_rows) = Some (Ok df)) in Hdf.
    injection Hdf as <-. reflexivity. }
  exists s, w2. split; [exact Hrun | exact Hlen].
Defined.

End pipeline.
